(** * Employee performance dashboard: a shallow embedding and its properties

    The development follows the two front ends of the repository,
    [main.py] (Flask) and [dashboard.py] (FastHTML), which share the
    data-access functions, the inference call and the risk bucketing, and
    the package [employee_events].

    - [Py]      : the Python values the handlers inspect (float truthiness
                  and comparison, [int(str)] and [str(int)] on strings of
                  code points, string truthiness);
    - [Store]   : the four tables and the relational meaning of the SQL
                  text each data-access function sends to the store, with
                  its 64-bit sums, its dates and its floats;
    - [Eff]     : a trace-and-exception monad for the calls a request makes;
    - [Main]    : [main.py];
    - [Dashboard] : [dashboard.py];
    - [Sample]  : small databases on which the statements are run;
    - [MainTemplate] : the drop-down of the main page;
    - [EmployeeEvents] : [query_base.py] and [employee.py]. *)

From Stdlib Require Import ZArith List String Ascii Bool Lia.
From Stdlib Require Import Permutation Sorted.
From Stdlib Require Import Floats.SpecFloat.
From Stdlib Require DecimalPos DecimalFacts.
Import ListNotations.

Local Open Scope string_scope.
Local Open Scope list_scope.
Local Open Scope Z_scope.

(* ================================================================== *)
(** * Python values *)
(* ================================================================== *)

Module Py.

(** A Python [float] (and numpy's [float64]) is an IEEE-754 binary64
    number; [spec_float] is the Standard Library's specification of them
    and [SFcompare] the comparison the interpreter performs. *)
Definition float := spec_float.

(** [0.0], [1.0] and the two literals of the risk assessment, as the
    nearest binary64 numbers: [0.4 = 0x1.999999999999ap-2] and
    [0.7 = 0x1.6666666666666p-1]. *)
Definition f_zero : float := S754_zero false.
Definition f_one : float := S754_finite false 4503599627370496 (-52).
Definition f_0_4 : float := S754_finite false 7205759403792794 (-54).
Definition f_0_7 : float := S754_finite false 6305039478318694 (-53).

(** [a > b] on floats: false as soon as one side is a NaN. *)
Definition float_gt (a b : float) : bool := SFltb b a.
Definition float_le (a b : float) : bool := SFleb a b.

(** [bool(x)] for a float: only the two zeros are falsy (a NaN is truthy). *)
Definition float_truthy (x : float) : bool := negb (SFeqb x f_zero).

(** [bool(x)] for an optional float ([None] is falsy). *)
Definition opt_float_truthy (x : option float) : bool :=
  match x with
  | None => false
  | Some p => float_truthy p
  end.

(** A Python [str]: the sequence of its code points. *)
Definition str : Type := list N.

(** A literal of ASCII characters. *)
Fixpoint lit (s : string) : str :=
  match s with
  | EmptyString => []
  | String c s' => N_of_ascii c :: lit s'
  end.

(** [bool(s)] for a string: the empty string is falsy. *)
Definition str_truthy (s : str) : bool :=
  match s with
  | [] => false
  | _ :: _ => true
  end.

(** The integers a parameter of an SQL statement may hold: the driver
    stores a Python [int] as a signed 64-bit integer. *)
Definition in_int64 (n : Z) : bool :=
  (n >=? -9223372036854775808) && (n <=? 9223372036854775807).

(** The binary64 number nearest to a 64-bit integer, ties to even: what
    the store and pandas make of an integer where they compute in
    floats. *)
Definition float_of_int (n : Z) : float := binary_normalize 53 1024 n 0 false.

(** ** [int(s)] on a string

    The interpreter first rewrites the string to ASCII: a character below
    128 stays, a white-space character from 128 on becomes a space, a
    decimal digit of any script becomes the ASCII digit of its value, and
    anything else makes the conversion fail.  The ASCII text is then read:
    white space (tab to carriage return, and the space) is dropped on both
    sides, one sign is allowed, the digits may be separated by single
    underscores, and more than [sys.get_int_max_str_digits()] digits (4300
    unless the program changes it, which this one does not) are refused.
    [None] stands for the [ValueError] raised in all other cases. *)

Definition int_max_str_digits : N := 4300.

(** Below 128 the white space of the ASCII reader; from 128 on the
    characters for which [str.isspace] holds. *)
Definition is_space (c : N) : bool :=
  if (c <? 128)%N then ((9 <=? c) && (c <=? 13))%N || (c =? 32)%N
  else existsb (N.eqb c) [133; 160; 5760; 8232; 8233; 8239; 8287; 12288]%N
       || ((8192 <=? c) && (c <=? 8202))%N.

(** The digit zero of every script with decimal digits (Unicode 14.0, the
    tables of CPython 3.11); the other nine digits follow it. *)
Definition decimal_zeros : list N :=
  [ 48; 1632; 1776; 1984; 2406; 2534; 2662; 2790; 2918; 3046; 3174; 3302;
    3430; 3558; 3664; 3792; 3872; 4160; 4240; 6112; 6160; 6470; 6608; 6784;
    6800; 6992; 7088; 7232; 7248; 42528; 43216; 43264; 43472; 43504; 43600;
    44016; 65296; 66720; 68912; 69734; 69872; 69942; 70096; 70384; 70736;
    70864; 71248; 71360; 71472; 71904; 72016; 72784; 73040; 73120; 92768;
    92864; 93008; 120782; 120792; 120802; 120812; 120822; 123200; 123632;
    125264; 130032 ]%N.

Definition digit_of (c : N) : option Z :=
  match find (fun z => (z <=? c) && (c <? z + 10))%N decimal_zeros with
  | Some z => Some (Z.of_N (c - z))
  | None => None
  end.

Fixpoint lstrip (s : str) : str :=
  match s with
  | c :: s' => if is_space c then lstrip s' else s
  | [] => []
  end.

Fixpoint all_space (s : str) : bool :=
  match s with
  | [] => true
  | c :: s' => is_space c && all_space s'
  end.

(** [digits acc count after_digit s]: reads the digit string [s]; [count]
    is the number of digits read so far, and [after_digit] tells whether
    the previous character was a digit, which is what an underscore and
    the end of the number need. *)
Fixpoint digits (acc : Z) (count : N) (after_digit : bool) (s : str)
    : option Z :=
  match s with
  | [] =>
      if after_digit && (count <=? int_max_str_digits)%N then Some acc
      else None
  | c :: s' =>
      match digit_of c with
      | Some d => digits (10 * acc + d) (count + 1) true s'
      | None =>
          if after_digit then
            if (c =? 95)%N then
              match s' with
              | c' :: _ =>
                  match digit_of c' with
                  | Some _ => digits acc count false s'
                  | None => None
                  end
              | [] => None
              end
            else if all_space s && (count <=? int_max_str_digits)%N
                 then Some acc
                 else None
          else None
      end
  end.

Definition int (s : str) : option Z :=
  match lstrip s with
  | c :: s' =>
      if (c =? 45)%N then option_map Z.opp (digits 0 0 false s')
      else if (c =? 43)%N then digits 0 0 false s'
      else digits 0 0 false (c :: s')
  | [] => None
  end.

(** [str(n)] on an integer: its decimal digits, after a minus sign when
    it is negative; [None] stands for the [ValueError] raised for a
    number of more than [int_max_str_digits] digits. *)
Fixpoint chars_of_uint (d : Decimal.uint) : str :=
  match d with
  | Decimal.Nil => []
  | Decimal.D0 d => 48%N :: chars_of_uint d
  | Decimal.D1 d => 49%N :: chars_of_uint d
  | Decimal.D2 d => 50%N :: chars_of_uint d
  | Decimal.D3 d => 51%N :: chars_of_uint d
  | Decimal.D4 d => 52%N :: chars_of_uint d
  | Decimal.D5 d => 53%N :: chars_of_uint d
  | Decimal.D6 d => 54%N :: chars_of_uint d
  | Decimal.D7 d => 55%N :: chars_of_uint d
  | Decimal.D8 d => 56%N :: chars_of_uint d
  | Decimal.D9 d => 57%N :: chars_of_uint d
  end.

Definition str_of_int (n : Z) : option str :=
  let ds := match n with
            | Z0 => [48%N]
            | Zpos p | Zneg p => chars_of_uint (Pos.to_uint p)
            end in
  if (N.of_nat (List.length ds) <=? int_max_str_digits)%N
  then Some (if n <? 0 then 45%N :: ds else ds)
  else None.

End Py.

(** The values of a list of results, unless one of them failed. *)
Fixpoint all_some {A : Type} (l : list (option A)) : option (list A) :=
  match l with
  | [] => Some []
  | None :: _ => None
  | Some a :: l' =>
      match all_some l' with
      | Some l'' => Some (a :: l'')
      | None => None
      end
  end.

(* ================================================================== *)
(** * Risk assessment (main.py 846-855, dashboard.py 295-304) *)
(* ================================================================== *)

(** The block is the same text in both handlers: it starts from the
    ["Low"]/["success"] default and overwrites it under [if risk_prob:]. *)
Definition risk_assessment (risk_prob : option Py.float) : string * string :=
  let risk_level := "Low" in
  let risk_color := "success" in
  if Py.opt_float_truthy risk_prob then
    match risk_prob with
    | Some p =>
        if Py.float_gt p Py.f_0_7 then ("High", "danger")
        else if Py.float_gt p Py.f_0_4 then ("Medium", "warning")
        else (risk_level, risk_color)
    | None => (risk_level, risk_color)
    end
  else (risk_level, risk_color).

Definition risk_level (risk_prob : option Py.float) : string :=
  fst (risk_assessment risk_prob).

Definition risk_color (risk_prob : option Py.float) : string :=
  snd (risk_assessment risk_prob).

(** The probability line of the risk panel:
    ["%.1f%%" % (risk_prob * 100) if risk_prob else "N/A"] in the template of
    main.py and [f"{risk_prob:.1%}" if risk_prob else "N/A"] in dashboard.py.
    The digits of the formatted number are not modelled: [Percent p] stands
    for the text produced for [p]. *)
Inductive prob_text :=
| Percent (p : Py.float)
| NA.

Definition render_prob (risk_prob : option Py.float) : prob_text :=
  match risk_prob with
  | Some p => if Py.float_truthy p then Percent p else NA
  | None => NA
  end.

(* ================================================================== *)
(** * The relational store *)
(* ================================================================== *)

Module Store.

(** The four tables.  Dates and timestamps are kept in the store as ISO-8601
    text, which the store compares character by character; they are
    numbered here so that the numeric order is that text order:
    [event_date] is the Julian day number of a date written [YYYY-MM-DD]
    (years 0000 to 9999), [created_at] a number of seconds.  The integer
    columns hold the 64-bit integers of the store. *)
Record employee_row := {
  e_id : Z;
  e_name : string;
  e_team_id : Z }.

Record team_row := {
  t_id : Z;
  t_name : string;
  t_shift : string;
  t_manager : string }.

Record event_row := {
  ev_employee_id : Z;
  ev_event_date : Z;
  ev_positive_events : Z;
  ev_negative_events : Z }.

Record note_row := {
  n_employee_id : Z;
  n_note : string;
  n_created_at : Z }.

Record database := {
  employee : list employee_row;
  team : list team_row;
  employee_events : list event_row;
  notes : list note_row }.

(** ** Relational operators *)

(** [l JOIN r ON on]: every pair of a row of [l] and a row of [r] that
    satisfies the condition, in nested-loop order. *)
Definition join {A B : Type} (on : A -> B -> bool)
    (l : list A) (r : list B) : list (A * B) :=
  flat_map (fun a => map (pair a) (filter (on a) r)) l.

(** [ORDER BY]: a stable insertion sort for the order [leb]. *)
Section OrderBy.
Context {A : Type} (leb : A -> A -> bool).

Fixpoint insert_row (x : A) (l : list A) : list A :=
match l with
| [] => [x]
| y :: l' => if leb x y then x :: l else y :: insert_row x l'
end.

Fixpoint order_by (l : list A) : list A :=
match l with
| [] => []
| x :: l' => insert_row x (order_by l')
end.
End OrderBy.

(** [GROUP BY]: the groups of the rows that share a key, each with its rows
    in the order of the table; the groups are listed here as their keys
    first occur, and a statement puts them in its own order (see
    [summary_query] and [EmployeeEvents.event_counts]). *)
Section GroupBy.
Context {A K : Type} (eqb : K -> K -> bool) (key : A -> K).

Fixpoint add_to_group (x : A) (groups : list (K * list A))
  : list (K * list A) :=
match groups with
| [] => [(key x, [x])]
| (k, rows) :: groups' =>
    if eqb k (key x) then (k, rows ++ [x]) :: groups'
    else (k, rows) :: add_to_group x groups'
end.

Definition group_by (l : list A) : list (K * list A) :=
fold_left (fun groups x => add_to_group x groups) l [].
End GroupBy.

(** The sum of a list of integers. *)
Definition sum_z (l : list Z) : Z := fold_right Z.add 0 l.

(** [SUM] over an integer column: the store adds the rows up in a 64-bit
    integer, one after the other, and fails the statement with "integer
    overflow" ([None]) as soon as a partial sum leaves 64 bits. *)
Definition sql_sum (l : list Z) : option Z :=
  fold_left
    (fun acc x =>
       match acc with
       | Some a => if Py.in_int64 (a + x) then Some (a + x) else None
       | None => None
       end)
    l (Some 0).

(** No partial sum of the column leaves 64 bits, in whatever order the
    store visits the rows: neither its positive nor its negative entries
    add up beyond the bound. *)
Definition sum_fits (l : list Z) : bool :=
  Py.in_int64 (sum_z (map (Z.max 0) l))
  && Py.in_int64 (sum_z (map (Z.min 0) l)).

(** [AVG] over an integer column: the sum, as a binary64 number, divided
    by the number of rows.  Depending on its version the store adds the
    column up in binary64 or converts the 64-bit sum; both give the sum
    itself as long as the magnitudes of the entries add up to at most
    [2^53] ([exact_sums]). *)
Definition sql_avg (l : list Z) : Py.float :=
  SFdiv 53 1024 (Py.float_of_int (sum_z l))
    (Py.float_of_int (Z.of_nat (List.length l))).

Definition exact_sums (l : list Z) : bool :=
  sum_z (map Z.abs l) <=? 9007199254740992.

(** A value the store computes from integers: a 64-bit integer, or a REAL
    where 64 bits do not suffice. *)
Inductive number :=
| Int (n : Z)
| Real (x : Py.float).

(** [a - b] on two integers: on overflow the store subtracts them as
    binary64 numbers. *)
Definition sql_sub (a b : Z) : number :=
  if Py.in_int64 (a - b) then Int (a - b)
  else Real (SFsub 53 1024 (Py.float_of_int a) (Py.float_of_int b)).

Definition is_real (x : number) : bool :=
  match x with
  | Real _ => true
  | Int _ => false
  end.

Definition to_real (x : number) : number :=
  match x with
  | Int n => Real (Py.float_of_int n)
  | Real _ => x
  end.

(** ** get_employees and get_teams *)

Record employee_listing := {
  el_id : Z;
  el_name : string;
  el_team_name : string;
  el_shift : string;
  el_manager : string }.

Definition employees_query (db : database) : list employee_listing :=
  map (fun et : employee_row * team_row =>
         let (e, t) := et in
         {| el_id := e_id e; el_name := e_name e; el_team_name := t_name t;
            el_shift := t_shift t; el_manager := t_manager t |})
      (order_by (fun a b => String.leb (e_name (fst a)) (e_name (fst b)))
         (join (fun e t => e_team_id e =? t_id t) (employee db) (team db))).

Definition teams_query (db : database) : list team_row :=
  order_by (fun a b => String.leb (t_name a) (t_name b)) (team db).

(** ** get_employee_events

    [SELECT event_date, positive_events, negative_events,
            (positive_events - negative_events) as net_events
     FROM employee_events
     WHERE employee_id = ? AND event_date >= date('now', '-N days')
     ORDER BY event_date] *)
Record events_df_row := {
  event_date : Z;
  positive_events : Z;
  negative_events : Z;
  net_events : number }.

(** The store's clock at ['now']: the Julian day number of the date (in
    UTC), and whether noon, at which the Julian day begins, is still to
    come. *)
Record clock := {
  today : Z;
  before_noon : bool }.

(** The Julian day number of 9999-12-31, the last date of the store. *)
Definition last_day : Z := 5373484.

(** [date('now', '-N days')], with [N] printed in decimal: the date [N]
    days before today, and NULL ([None]) when [N] is negative (['--1 days']
    is no modifier), when that moment is before the Julian day 0 (noon of
    -4713-11-24), or when today is after the last date. *)
Definition date_now_minus (now : clock) (days : Z) : option Z :=
  let julian_day := today now - (if before_noon now then 1 else 0) in
  if (0 <=? days) && (days <=? julian_day) && (today now <=? last_day)
  then Some (today now - days)
  else None.

(** [event_date >= date('now', '-N days')]: no row passes a comparison
    with NULL. *)
Definition in_window (now : clock) (days : Z) (ev : event_row) : bool :=
  match date_now_minus now days with
  | Some d => d <=? ev_event_date ev
  | None => false
  end.

Definition select_event (ev : event_row) : events_df_row :=
  {| event_date := ev_event_date ev;
     positive_events := ev_positive_events ev;
     negative_events := ev_negative_events ev;
     net_events := sql_sub (ev_positive_events ev) (ev_negative_events ev) |}.

(** [pd.read_sql_query] on these rows: a column of a frame has one type,
    and [net_events] is a column of floats as soon as one of its values
    is a REAL. *)
Definition read_frame (rows : list events_df_row) : list events_df_row :=
  if existsb (fun r => is_real (net_events r)) rows then
    map (fun r => {| event_date := event_date r;
                     positive_events := positive_events r;
                     negative_events := negative_events r;
                     net_events := to_real (net_events r) |}) rows
  else rows.

Definition events_query (db : database) (now : clock)
    (employee_id : Z) (days : Z) : list events_df_row :=
  read_frame
    (order_by (fun a b => event_date a <=? event_date b)
       (map select_event
          (filter (fun ev => (ev_employee_id ev =? employee_id)
                             && in_window now days ev)
                  (employee_events db)))).

(** ** get_employee_summary

    [SELECT e.name, t.name, t.shift, t.manager,
            SUM(ev.positive_events), SUM(ev.negative_events),
            AVG(ev.positive_events), AVG(ev.negative_events)
     FROM employee e JOIN team t ON e.team_id = t.id
          JOIN employee_events ev ON e.id = ev.employee_id
     WHERE e.id = ?
     GROUP BY e.id, e.name, t.name, t.shift, t.manager]
    The store returns the groups in the order of their keys. *)
Record summary_row := {
  name : string;
  team_name : string;
  shift : string;
  manager : string;
  total_positive : Z;
  total_negative : Z;
  avg_positive : Py.float;
  avg_negative : Py.float }.

Definition joined_row : Type := employee_row * team_row * event_row.

Definition summary_join (db : database) (employee_id : Z) : list joined_row :=
  filter (fun r : joined_row => e_id (fst (fst r)) =? employee_id)
    (join (fun (et : employee_row * team_row) ev =>
             e_id (fst et) =? ev_employee_id ev)
          (join (fun e t => e_team_id e =? t_id t) (employee db) (team db))
          (employee_events db)).

Record summary_key := {
  k_id : Z;
  k_name : string;
  k_team_name : string;
  k_shift : string;
  k_manager : string }.

Definition summary_key_of (r : joined_row) : summary_key :=
  let e := fst (fst r) in
  let t := snd (fst r) in
  {| k_id := e_id e; k_name := e_name e; k_team_name := t_name t;
     k_shift := t_shift t; k_manager := t_manager t |}.

Definition summary_key_eqb (a b : summary_key) : bool :=
  (k_id a =? k_id b)
  && String.eqb (k_name a) (k_name b)
  && String.eqb (k_team_name a) (k_team_name b)
  && String.eqb (k_shift a) (k_shift b)
  && String.eqb (k_manager a) (k_manager b).

(** The order of the keys: column after column, integers by value and
    text byte by byte. *)
Definition then_compare (c c' : comparison) : comparison :=
  match c with
  | Eq => c'
  | _ => c
  end.

Definition summary_key_compare (a b : summary_key) : comparison :=
  then_compare (k_id a ?= k_id b)
    (then_compare (String.compare (k_name a) (k_name b))
       (then_compare (String.compare (k_team_name a) (k_team_name b))
          (then_compare (String.compare (k_shift a) (k_shift b))
             (String.compare (k_manager a) (k_manager b))))).

Definition summary_key_leb (a b : summary_key) : bool :=
  match summary_key_compare a b with
  | Gt => false
  | _ => true
  end.

(** The row of a group; [None] when one of its sums overflows. *)
Definition summarize (g : summary_key * list joined_row)
    : option summary_row :=
  let (k, rows) := g in
  let pos := map (fun r : joined_row => ev_positive_events (snd r)) rows in
  let neg := map (fun r : joined_row => ev_negative_events (snd r)) rows in
  match sql_sum pos, sql_sum neg with
  | Some total_pos, Some total_neg =>
      Some {| name := k_name k; team_name := k_team_name k;
              shift := k_shift k; manager := k_manager k;
              total_positive := total_pos; total_negative := total_neg;
              avg_positive := sql_avg pos; avg_negative := sql_avg neg |}
  | _, _ => None
  end.

(** The rows of the statement, or [None] when it fails with "integer
    overflow". *)
Definition summary_query (db : database) (employee_id : Z)
    : option (list summary_row) :=
  all_some
    (map summarize
       (order_by (fun a b => summary_key_leb (fst a) (fst b))
          (group_by summary_key_eqb summary_key_of
             (summary_join db employee_id)))).

(** ** get_employee_notes

    [SELECT note, created_at FROM notes WHERE employee_id = ?
     ORDER BY created_at DESC] *)
Record note_record := {
  note : string;
  created_at : Z }.

Definition select_note (n : note_row) : note_record :=
  {| note := n_note n; created_at := n_created_at n |}.

Definition notes_query (db : database) (employee_id : Z)
    : list note_record :=
  order_by (fun a b => created_at b <=? created_at a)
    (map select_note
       (filter (fun n => n_employee_id n =? employee_id) (notes db))).

(** The rows of [employee_events] that belong to an employee. *)
Definition events_of (db : database) (employee_id : Z) : list event_row :=
  filter (fun ev => ev_employee_id ev =? employee_id) (employee_events db).

(** Primary keys: no two employees and no two teams share an [id]. *)
Definition keys_unique (db : database) : Prop :=
  NoDup (map e_id (employee db)) /\ NoDup (map t_id (team db)).

End Store.

(* ================================================================== *)
(** * Calls and exceptions of a request *)
(* ================================================================== *)

Module Eff.

(** What a request does to the outside: the SQL statements it sends, the
    model file it opens, the inference call, and the figure it saves. *)
Inductive call :=
| SqlEmployees
| SqlTeams
| SqlEvents (employee_id : Z) (days : Z)
| SqlSummary (employee_id : Z)
| SqlNotes (employee_id : Z)
| OpenModel
| PredictProba (total_positive total_negative : Z)
| Savefig.

(** [QueryError] is the exception with which [pd.read_sql_query] fails:
    the driver's own ([OverflowError] for a parameter it cannot store,
    [sqlite3.OperationalError] for a statement that fails), or the
    [DatabaseError] in which pandas wraps it, depending on the version of
    pandas.  None of them is a [ValueError]. *)
Inductive exn :=
| ValueError
| UndefinedError
| QueryError.

Inductive outcome (A : Type) :=
| Return (a : A)
| Raise (e : exn).
Arguments Return {A} a.
Arguments Raise {A} e.

(** A computation: the calls made so far, in order, and how it ended. *)
Definition M (A : Type) : Type := list call * outcome A.

Definition ret {A : Type} (a : A) : M A := ([], Return a).

Definition raise {A : Type} (e : exn) : M A := ([], Raise e).

Definition bind {A B : Type} (m : M A) (k : A -> M B) : M B :=
  match m with
  | (t, Return a) => let (t', r) := k a in (t ++ t', r)
  | (t, Raise e) => (t, Raise e)
  end.

Definition perform (c : call) : M unit := ([c], Return tt).

Definition trace {A : Type} (m : M A) : list call := fst m.
Definition result {A : Type} (m : M A) : outcome A := snd m.

End Eff.

Import Eff.

Notation "x <- c ;; k" := (Eff.bind c (fun x => k))
  (at level 61, c at next level, right associativity).
Notation "c ;;; k" := (Eff.bind c (fun _ => k))
  (at level 61, right associativity).

(* ================================================================== *)
(** * What both front ends share *)
(* ================================================================== *)

(** Binding the integer parameter of a statement: the driver refuses an
    [int] outside 64 bits; the statement is then not run. *)
Definition bind_param (n : Z) : M unit :=
  if Py.in_int64 n then ret tt else raise QueryError.

(** The unpickled classifier: [predict_proba m tp tn] is
    [model.predict_proba(np.array([[tp, tn]]))[0][1]]. *)
Record model := { predict_proba : Z -> Z -> Py.float }.

(** What a request finds outside the program: the database, the model file
    ([None] when [assets/model.pkl] does not exist), the store's clock,
    and the dates that [pd.to_datetime] reads as timestamps.  Which dates
    it refuses (with [OutOfBoundsDatetime], a [ValueError]) depends on the
    version of pandas: where timestamps count nanoseconds in 64 bits, those
    before 1677-09-22 and after 2262-04-11. *)
Record world := {
  db : Store.database;
  model_file : option model;
  now : Store.clock;
  timestamp : Z -> bool }.

(** The figure [create_performance_chart] saves and returns base64-encoded:
    the three series of the rows and the number of days of its title. *)
Record chart := {
  plotted : list Store.events_df_row;
  last_days : Z }.

Inductive chart_panel :=
| ChartImage (img : chart)
| NoChartData.

(** [events_df['event_date'] = pd.to_datetime(events_df['event_date'])]:
    raises as soon as one date of the frame is not read. *)
Definition dates_read (w : world) (events_df : list Store.events_df_row)
    : bool :=
  forallb (fun r => timestamp w (Store.event_date r)) events_df.

Definition to_datetime (w : world) (events_df : list Store.events_df_row)
    : M unit :=
  if dates_read w events_df then ret tt else raise ValueError.

Inductive notes_panel :=
| NotesList (shown : list Store.note_record)
| NoNotes.

Record dashboard_view := {
  v_summary : Store.summary_row;
  v_risk_level : string;
  v_risk_color : string;
  v_prob : prob_text;
  v_chart : chart_panel;
  v_notes : notes_panel }.

Inductive fragment :=
| PleaseSelect
| EmployeeNotFound
| DashboardView (v : dashboard_view).

(** [bool(n)] for an integer. *)
Definition int_truthy (n : Z) : bool := negb (n =? 0).

(** [notes[:5]] under [if notes], else the no-notes message. *)
Definition render_notes (notes : list Store.note_record) : notes_panel :=
  match notes with
  | [] => NoNotes
  | _ :: _ => NotesList (firstn 5 notes)
  end.

(** The image under [if chart_img], else "No chart data available". *)
Definition render_chart (chart_img : option chart) : chart_panel :=
  match chart_img with
  | Some img => ChartImage img
  | None => NoChartData
  end.

Definition notes_shown (p : notes_panel) : list Store.note_record :=
  match p with
  | NotesList l => l
  | NoNotes => []
  end.

(** ** Routing *)

Inductive http_method := GET | POST | HEAD | OPTIONS | PUT | DELETE | PATCH.

Definition http_method_eqb (a b : http_method) : bool :=
  match a, b with
  | GET, GET | POST, POST | HEAD, HEAD | OPTIONS, OPTIONS
  | PUT, PUT | DELETE, DELETE | PATCH, PATCH => true
  | _, _ => false
  end.

Inductive endpoint := Home | EmployeeDashboard.

Record rule := {
  r_path : string;
  r_methods : list http_method;
  r_endpoint : endpoint }.

Inductive routed :=
| Endpoint (e : endpoint)
| NoRule
| MethodNotAllowed405.

(** A request against the rules that the decorators of a file register:
    the first rule with the path and the method; a path that only rules
    with other methods have is a 405.  A path that none of these rules has
    ([NoRule]) is left to the framework, which has rules and redirections
    of its own (the static files of Flask, the trailing slash of
    Starlette): no function of the file runs for it. *)
Fixpoint dispatch (rules : list rule) (m : http_method) (path : string)
    : routed :=
  match rules with
  | [] => NoRule
  | r :: rules' =>
      if String.eqb (r_path r) path then
        if existsb (http_method_eqb m) (r_methods r) then Endpoint (r_endpoint r)
        else match dispatch rules' m path with
             | Endpoint e => Endpoint e
             | _ => MethodNotAllowed405
             end
      else dispatch rules' m path
  end.

(* ================================================================== *)
(** * main.py: the Flask front end *)
(* ================================================================== *)

Module Main.

Import Store.

(** load_model: the [FileNotFoundError] of a missing file is caught. *)
Definition load_model (w : world) : M (option model) :=
  perform OpenModel ;;; ret (model_file w).

Definition get_employees (w : world) : M (list employee_listing) :=
  perform SqlEmployees ;;; ret (employees_query (db w)).

Definition get_teams (w : world) : M (list team_row) :=
  perform SqlTeams ;;; ret (teams_query (db w)).

(** The statement is built with ['-{} days'.format(days)], which raises
    [ValueError] when [days] has too many digits to be printed. *)
Definition get_employee_events (w : world) (employee_id : Z) (days : Z)
    : M (list events_df_row) :=
  match Py.str_of_int days with
  | None => raise ValueError
  | Some _ =>
      bind_param employee_id ;;;
      perform (SqlEvents employee_id days) ;;;
      ret (events_query (db w) (now w) employee_id days)
  end.

(** The rows of a statement that was sent, or the exception of one that
    failed. *)
Definition fetch {A : Type} (rows : option (list A)) : M (list A) :=
  match rows with
  | Some rows => ret rows
  | None => raise QueryError
  end.

(** [df.iloc[0].to_dict() if not df.empty else None] *)
Definition get_employee_summary (w : world) (employee_id : Z)
    : M (option summary_row) :=
  bind_param employee_id ;;;
  perform (SqlSummary employee_id) ;;;
  df <- fetch (summary_query (db w) employee_id) ;;
  ret (hd_error df).

Definition get_employee_notes (w : world) (employee_id : Z)
    : M (list note_record) :=
  bind_param employee_id ;;;
  perform (SqlNotes employee_id) ;;;
  ret (notes_query (db w) employee_id).

(** [if not model] is taken only for [None]: an unpickled classifier is a
    truthy object. *)
Definition predict_recruitment_risk (w : world) (employee_id : Z)
    : M (option Py.float) :=
  model <- load_model w ;;
  match model with
  | None => ret None
  | Some m =>
      summary <- get_employee_summary w employee_id ;;
      match summary with
      | None => ret None
      | Some s =>
          perform (PredictProba (total_positive s) (total_negative s)) ;;;
          ret (Some (predict_proba m (total_positive s) (total_negative s)))
      end
  end.

Definition create_performance_chart (w : world) (employee_id : Z)
    (days : Z) : M (option chart) :=
  events_df <- get_employee_events w employee_id days ;;
  match events_df with
  | [] => ret None
  | _ :: _ =>
      to_datetime w events_df ;;;
      perform Savefig ;;;
      ret (Some {| plotted := events_df; last_days := days |})
  end.

(** ** EMPLOYEE_DASHBOARD_TEMPLATE *)

(** A keyword argument of [render_template_string]: left out, [None], or
    a value. *)
Inductive template_arg (A : Type) :=
| Undefined
| PyNone
| Value (a : A).
Arguments Undefined {A}.
Arguments PyNone {A}.
Arguments Value {A} a.

Record context := {
  ctx_employee_id : option Z;
  ctx_summary : template_arg summary_row;
  ctx_notes : list note_record;
  ctx_risk_prob : option Py.float;
  ctx_chart_img : option chart;
  ctx_risk_level : string;
  ctx_risk_color : string }.

(** [not employee_id] in the template: [None] and [0] are falsy. *)
Definition not_employee_id (employee_id : option Z) : bool :=
  match employee_id with
  | None => true
  | Some n => negb (int_truthy n)
  end.

(** [{% if not employee_id %} ... {% elif summary is none %} ... {% else %}]:
    an argument that was left out is not [none], and the first attribute
    read from it in the last branch raises. *)
Definition render_template_string (ctx : context) : M fragment :=
  if not_employee_id (ctx_employee_id ctx) then ret PleaseSelect
  else
    match ctx_summary ctx with
    | PyNone => ret EmployeeNotFound
    | Undefined => raise UndefinedError
    | Value summary =>
        ret (DashboardView
               {| v_summary := summary;
                  v_risk_level := ctx_risk_level ctx;
                  v_risk_color := ctx_risk_color ctx;
                  v_prob := render_prob (ctx_risk_prob ctx);
                  v_chart := render_chart (ctx_chart_img ctx);
                  v_notes := render_notes (ctx_notes ctx) |})
    end.

(** The context of a call that passes [employee_id] and [summary] only;
    what is left out renders as nothing. *)
Definition context_of (employee_id : option Z)
    (summary : template_arg summary_row) : context :=
  {| ctx_employee_id := employee_id;
     ctx_summary := summary;
     ctx_notes := [];
     ctx_risk_prob := None;
     ctx_chart_img := None;
     ctx_risk_level := EmptyString;
     ctx_risk_color := EmptyString |}.

(** ** The request *)

Record request := {
  method : http_method;
  path : string;
  args : list (string * Py.str) }.

(** [request.args.get(key)]: the first value of the key, or [None]. *)
Fixpoint args_get (args : list (string * Py.str)) (key : string)
    : option Py.str :=
  match args with
  | [] => None
  | (k, v) :: args' => if String.eqb k key then Some v else args_get args' key
  end.

Definition opt_str_truthy (s : option Py.str) : bool :=
  match s with
  | None => false
  | Some s => Py.str_truthy s
  end.

(** ** Routes *)

Definition home (w : world)
    : M (list employee_listing * list team_row) :=
  employees <- get_employees w ;;
  teams <- get_teams w ;;
  ret (employees, firstn 3 teams).

Definition employee_dashboard (w : world) (req : request) : M fragment :=
  let employee_id := args_get (args req) "employee_id" in
  if negb (opt_str_truthy employee_id) then
    render_template_string (context_of None Undefined)
  else
    match option_map Py.int employee_id with
    | None | Some None =>
        render_template_string (context_of None Undefined)
    | Some (Some employee_id) =>
        summary <- get_employee_summary w employee_id ;;
        match summary with
        | None =>
            render_template_string (context_of (Some employee_id) PyNone)
        | Some summary =>
            notes <- get_employee_notes w employee_id ;;
            risk_prob <- predict_recruitment_risk w employee_id ;;
            chart_img <- create_performance_chart w employee_id 30 ;;
            let (risk_level, risk_color) := risk_assessment risk_prob in
            render_template_string
              {| ctx_employee_id := Some employee_id;
                 ctx_summary := Value summary;
                 ctx_notes := notes;
                 ctx_risk_prob := risk_prob;
                 ctx_chart_img := chart_img;
                 ctx_risk_level := risk_level;
                 ctx_risk_color := risk_color |}
        end
    end.

(** [@app.route(rule)] without [methods]: GET, to which the framework adds
    HEAD and OPTIONS. *)
Definition route (path : string) (e : endpoint) : rule :=
  {| r_path := path; r_methods := [GET; HEAD; OPTIONS]; r_endpoint := e |}.

(** The two rules of main.py. *)
Definition routes : list rule :=
  [ route "/" Home; route "/employee_dashboard" EmployeeDashboard ].

(** [LeftToFramework] is the answer to a path without a rule of this
    file: a 404, a redirection or a static file, as the framework
    decides. *)
Inductive response :=
| MainPage (employees : list employee_listing) (teams : list team_row)
| Fragment (f : fragment)
| AutomaticOptions
| Status (code : Z)
| LeftToFramework
| InternalServerError (e : exn).

(** One request through the application: OPTIONS is answered by the
    framework, an exception of a view becomes a 500. *)
Definition serve (w : world) (req : request) : list call * response :=
  match dispatch routes (method req) (path req) with
  | NoRule => ([], LeftToFramework)
  | MethodNotAllowed405 => ([], Status 405)
  | Endpoint e =>
      match method req with
      | OPTIONS => ([], AutomaticOptions)
      | _ =>
          match e with
          | Home =>
              match home w with
              | (t, Return (employees, teams)) => (t, MainPage employees teams)
              | (t, Raise x) => (t, InternalServerError x)
              end
          | EmployeeDashboard =>
              match employee_dashboard w req with
              | (t, Return f) => (t, Fragment f)
              | (t, Raise x) => (t, InternalServerError x)
              end
          end
      end
  end.

End Main.

(* ================================================================== *)
(** * dashboard.py: the FastHTML front end *)
(* ================================================================== *)

Module Dashboard.

Import Store.

(** load_model, get_employee_events and get_employee_notes have the text
    they have in main.py. *)
Definition load_model := Main.load_model.
Definition get_employee_events := Main.get_employee_events.
Definition get_employee_notes := Main.get_employee_notes.

(** [df.iloc[0] if not df.empty else None]: the row stays a pandas
    [Series] here. *)
Definition series : Type := summary_row.

Definition get_employee_summary (w : world) (employee_id : Z)
    : M (option series) :=
  bind_param employee_id ;;;
  perform (SqlSummary employee_id) ;;;
  df <- Main.fetch (summary_query (db w) employee_id) ;;
  ret (hd_error df).

(** [not summary]: [True] for [None]; pandas refuses the truth value of a
    [Series] and raises [ValueError]. *)
Definition not_summary (summary : option series) : M bool :=
  match summary with
  | None => ret true
  | Some _ => raise ValueError
  end.

Definition predict_recruitment_risk (w : world) (employee_id : Z)
    : M (option Py.float) :=
  model <- load_model w ;;
  match model with
  | None => ret None
  | Some m =>
      summary <- get_employee_summary w employee_id ;;
      absent <- not_summary summary ;;
      match absent, summary with
      | false, Some s =>
          perform (PredictProba (total_positive s) (total_negative s)) ;;;
          ret (Some (predict_proba m (total_positive s) (total_negative s)))
      | _, _ => ret None
      end
  end.

Definition create_performance_chart (w : world) (employee_id : Z)
    (days : Z) : M (option chart) :=
  events_df <- get_employee_events w employee_id days ;;
  match events_df with
  | [] => ret None
  | _ :: _ =>
      to_datetime w events_df ;;;
      perform Savefig ;;;
      ret (Some {| plotted := events_df; last_days := days |})
  end.

(** The handler receives [employee_id] already converted to an [int]. *)
Definition employee_dashboard (w : world) (employee_id : Z) : M fragment :=
  if negb (int_truthy employee_id) then ret PleaseSelect
  else
    summary <- get_employee_summary w employee_id ;;
    absent <- not_summary summary ;;
    match absent, summary with
    | false, Some summary =>
        notes <- get_employee_notes w employee_id ;;
        risk_prob <- predict_recruitment_risk w employee_id ;;
        chart_img <- create_performance_chart w employee_id 30 ;;
        let (risk_level, risk_color) := risk_assessment risk_prob in
        ret (DashboardView
               {| v_summary := summary;
                  v_risk_level := risk_level;
                  v_risk_color := risk_color;
                  v_prob := render_prob risk_prob;
                  v_chart := render_chart chart_img;
                  v_notes := render_notes notes |})
    | _, _ => ret EmployeeNotFound
    end.

(** [@app.get(path)] and [@app.post(path)]: one method each (a GET route
    also answers HEAD). *)
Definition get (path : string) (e : endpoint) : rule :=
  {| r_path := path; r_methods := [GET; HEAD]; r_endpoint := e |}.

Definition post (path : string) (e : endpoint) : rule :=
  {| r_path := path; r_methods := [POST]; r_endpoint := e |}.

(** The two rules of dashboard.py. *)
Definition routes : list rule :=
  [ get "/" Home; post "/employee_dashboard" EmployeeDashboard ].

End Dashboard.

(* ================================================================== *)
(** * A small database *)
(* ================================================================== *)

Module Sample.

Import Store.

(** Ann has two events, one of them older than thirty days, and seven
    notes; Bob is an employee without events and without notes.  The clock
    is at 2026-11-04 (the Julian day number 2461349), after noon. *)
Definition ann : employee_row :=
  {| e_id := 1; e_name := "Ann"; e_team_id := 10 |}.
Definition bob : employee_row :=
  {| e_id := 2; e_name := "Bob"; e_team_id := 10 |}.
Definition core : team_row :=
  {| t_id := 10; t_name := "Core"; t_shift := "Day"; t_manager := "Mia" |}.

Definition sample_db : database :=
  {| employee := [ann; bob];
     team := [core];
     employee_events :=
       [ {| ev_employee_id := 1; ev_event_date := 2461339;
            ev_positive_events := 3; ev_negative_events := 1 |};
         {| ev_employee_id := 1; ev_event_date := 2461289;
            ev_positive_events := 5; ev_negative_events := 2 |} ];
     notes :=
       [ {| n_employee_id := 1; n_note := "n3"; n_created_at := 3 |};
         {| n_employee_id := 1; n_note := "n7"; n_created_at := 7 |};
         {| n_employee_id := 1; n_note := "n1"; n_created_at := 1 |};
         {| n_employee_id := 1; n_note := "n5"; n_created_at := 5 |};
         {| n_employee_id := 1; n_note := "n2"; n_created_at := 2 |};
         {| n_employee_id := 1; n_note := "n6"; n_created_at := 6 |};
         {| n_employee_id := 1; n_note := "n4"; n_created_at := 4 |} ] |}.

(** A classifier that answers [0.0] whatever the features. *)
Definition zero_model : model := {| predict_proba := fun _ _ => Py.f_zero |}.

Definition afternoon : clock := {| today := 2461349; before_noon := false |}.

(** Timestamps of nanoseconds: 1677-09-22 to 2262-04-11. *)
Definition nanoseconds (d : Z) : bool := (2333837 <=? d) && (d <=? 2547339).

Definition without_model : world :=
  {| db := sample_db; model_file := None; now := afternoon;
     timestamp := nanoseconds |}.

Definition with_zero_model : world :=
  {| db := sample_db; model_file := Some zero_model; now := afternoon;
     timestamp := nanoseconds |}.

(** [GET /employee_dashboard?employee_id=s] and the same as a POST. *)
Definition get_dashboard (s : Py.str) : Main.request :=
  {| Main.method := GET; Main.path := "/employee_dashboard";
     Main.args := [("employee_id", s)] |}.

Definition post_dashboard (s : Py.str) : Main.request :=
  {| Main.method := POST; Main.path := "/employee_dashboard";
     Main.args := [("employee_id", s)] |}.

(** An employee whose two counts of positive events add up to [2^63], and
    whose one negative count is [-1]. *)
Definition big_db : database :=
  {| employee := [ann];
     team := [core];
     employee_events :=
       [ {| ev_employee_id := 1; ev_event_date := 2461339;
            ev_positive_events := 9223372036854775807;
            ev_negative_events := -1 |};
         {| ev_employee_id := 1; ev_event_date := 2461340;
            ev_positive_events := 1; ev_negative_events := 0 |} ];
     notes := [] |}.

Definition big_world : world :=
  {| db := big_db; model_file := None; now := afternoon;
     timestamp := nanoseconds |}.

End Sample.

(* ================================================================== *)
(** * MAIN_TEMPLATE: the drop-down of the main page *)
(* ================================================================== *)

Module MainTemplate.

Import Store.

(** [<option value="{{ emp.id }}">]: the id printed in decimal; [None]
    when printing it fails. *)
Definition option_value (emp : employee_listing) : option Py.str :=
  Py.str_of_int (el_id emp).

(** [<select name="employee_id" hx-get="/employee_dashboard"
    hx-trigger="change">]: the request a change of the selection sends,
    with the value of the chosen option. *)
Definition on_change (value : Py.str) : Main.request :=
  {| Main.method := GET; Main.path := "/employee_dashboard";
     Main.args := [("employee_id", value)] |}.

(** The values the options hold: the empty one of "Choose an employee to
    analyze..." and one for each employee the page was given; [None] when
    the page cannot be rendered. *)
Definition option_values (employees : list employee_listing)
    : option (list Py.str) :=
  option_map (cons [])
    (all_some (map option_value employees)).

End MainTemplate.

(* ================================================================== *)
(** * employee_events: query_base.py and employee.py *)
(* ================================================================== *)

Module EmployeeEvents.

(** The tables the package reads, with the columns its statements
    name.  The rows of [employee_events] are the ones of [Store].
    [pandas_query] and the decorator [query] come from [sql_execution],
    which runs the statement a method builds and hands back its rows; a
    method is modelled by the rows of its statement.  The store that
    [sql_execution] opens is not part of the package: its sums are taken
    here as the sums of the columns. *)
Record employee_row := {
  employee_id : Z;
  first_name : string;
  last_name : string }.

Record note_row := {
  nt_employee_id : Z;
  nt_note_date : Z;
  nt_note : string }.

Record database := {
  employee : list employee_row;
  employee_events : list Store.event_row;
  notes : list note_row }.

(** ** QueryBase

    The statements are built around the class attribute [name]: they read
    [FROM {name}] and join [USING({name}_id)].  A subclass is given here by
    the rows of its table and by the columns the join compares. *)
Section QueryBase.
Context {T : Type}.
Variable table : database -> list T.
Variable table_id : T -> Z.
Variable event_id : Store.event_row -> Z.
Variable note_id : note_row -> Z.

(** [names]: an empty list. *)
Definition names (db : database) : list (string * Z) := [].

(** [FROM {name} JOIN employee_events USING({name}_id)
     WHERE {name}.{name}_id = {id}] *)
Definition events_join (db : database) (id : Z)
    : list (T * Store.event_row) :=
  filter (fun r : T * Store.event_row => table_id (fst r) =? id)
    (Store.join (fun t ev => table_id t =? event_id ev)
       (table db) (employee_events db)).

Record event_count := {
  ec_event_date : Z;
  ec_positive_events : Z;
  ec_negative_events : Z }.

Definition count_group (g : Z * list (T * Store.event_row)) : event_count :=
  let (date, rows) := g in
  {| ec_event_date := date;
     ec_positive_events :=
       Store.sum_z
         (map (fun r : T * Store.event_row =>
                 Store.ev_positive_events (snd r)) rows);
     ec_negative_events :=
       Store.sum_z
         (map (fun r : T * Store.event_row =>
                 Store.ev_negative_events (snd r)) rows) |}.

(** [event_counts]:
    [SELECT event_date, SUM(positive_events), SUM(negative_events)
     ... GROUP BY event_date ORDER BY event_date] *)
Definition event_counts (db : database) (id : Z) : list event_count :=
  Store.order_by (fun a b => ec_event_date a <=? ec_event_date b)
    (map count_group
       (Store.group_by Z.eqb
          (fun r : T * Store.event_row => Store.ev_event_date (snd r))
          (events_join db id))).

(** [notes]:
    [SELECT note_date, note FROM notes JOIN {name} USING({name}_id)
     WHERE {name}.{name}_id = {id}] *)
Definition notes_of (db : database) (id : Z) : list (Z * string) :=
  map (fun r : note_row * T => (nt_note_date (fst r), nt_note (fst r)))
    (filter (fun r : note_row * T => table_id (snd r) =? id)
       (Store.join (fun n t => note_id n =? table_id t)
          (notes db) (table db))).

End QueryBase.

(** ** Employee: [name = "employee"] *)
Module Employee.

Definition event_counts : database -> Z -> list event_count :=
  event_counts employee employee_id Store.ev_employee_id.

Definition notes : database -> Z -> list (Z * string) :=
  notes_of employee employee_id nt_employee_id.

Definition full_name (e : employee_row) : string :=
  (first_name e ++ " " ++ last_name e)%string.

(** [names]: [SELECT first_name || ' ' || last_name, employee_id
    FROM employee] *)
Definition names (db : database) : list (string * Z) :=
  map (fun e => (full_name e, employee_id e)) (employee db).

(** [username]: the same name [WHERE employee_id = {id}]. *)
Definition username (db : database) (id : Z) : list string :=
  map full_name (filter (fun e => employee_id e =? id) (employee db)).

(** [SUM] of a column in a statement without [GROUP BY]: there is always
    one row, and the sum of no row is [NULL]. *)
Definition sum_or_null (l : list Z) : option Z :=
  match l with
  | [] => None
  | _ :: _ => Some (Store.sum_z l)
  end.

(** [model_data]:
    [SELECT SUM(positive_events), SUM(negative_events)
     FROM employee JOIN employee_events USING(employee_id)
     WHERE employee.employee_id = {id}] *)
Definition model_data (db : database) (id : Z)
    : list (option Z * option Z) :=
  let rows := events_join employee employee_id Store.ev_employee_id db id in
  [ (sum_or_null (map (fun r : employee_row * Store.event_row =>
                         Store.ev_positive_events (snd r)) rows),
     sum_or_null (map (fun r : employee_row * Store.event_row =>
                         Store.ev_negative_events (snd r)) rows)) ].

End Employee.

End EmployeeEvents.

(** Two employees of the package; the first has events on two days. *)
Module SampleEvents.

Import EmployeeEvents.

Definition events_db : database :=
  {| employee :=
       [ {| employee_id := 1; first_name := "Ann"; last_name := "Lee" |};
         {| employee_id := 2; first_name := "Bob"; last_name := "Ray" |} ];
     employee_events :=
       [ {| Store.ev_employee_id := 1; Store.ev_event_date := 12;
            Store.ev_positive_events := 3; Store.ev_negative_events := 1 |};
         {| Store.ev_employee_id := 1; Store.ev_event_date := 10;
            Store.ev_positive_events := 5; Store.ev_negative_events := 2 |};
         {| Store.ev_employee_id := 1; Store.ev_event_date := 12;
            Store.ev_positive_events := 4; Store.ev_negative_events := 0 |} ];
     notes :=
       [ {| nt_employee_id := 1; nt_note_date := 11; nt_note := "late" |};
         {| nt_employee_id := 7; nt_note_date := 12; nt_note := "gone" |} ] |}.

End SampleEvents.

(** A database whose one employee has the id 0, with an event. *)
Module SampleZero.

Import Store.

Definition zero_db : database :=
  {| employee := [ {| e_id := 0; e_name := "Zed"; e_team_id := 10 |} ];
     team := [Sample.core];
     employee_events :=
       [ {| ev_employee_id := 0; ev_event_date := 2461339;
            ev_positive_events := 2; ev_negative_events := 1 |} ];
     notes := [] |}.

Definition zero_world : world :=
  {| db := zero_db; model_file := None; now := Sample.afternoon;
     timestamp := Sample.nanoseconds |}.

End SampleZero.

(* ================================================================== *)
(** * Properties *)
(* ================================================================== *)

(** ** Float comparison *)

Lemma SFcompare_antisym (a b : Py.float) :
  SFcompare a b = option_map CompOpp (SFcompare b a).
Proof.
  destruct a as [sa | sa | | sa ma ea], b as [sb | sb | | sb mb eb];
    simpl; try reflexivity;
    try (destruct sa; reflexivity); try (destruct sb; reflexivity);
    try (destruct sa, sb; reflexivity).
  assert (He := Z.compare_antisym eb ea).
  assert (Hm : Pos.compare_cont Eq ma mb = CompOpp (Pos.compare_cont Eq mb ma))
    by apply (Pos.compare_antisym mb ma).
  destruct sa, sb; simpl; try reflexivity; rewrite He, Hm;
    destruct (eb ?= ea); simpl; try reflexivity;
    destruct (Pos.compare_cont Eq mb ma); reflexivity.
Qed.

(** On comparable floats, [p <= c] is the negation of [p > c]. *)
Lemma float_le_not_gt (p c : Py.float) :
  SFcompare p c <> None ->
  Py.float_le p c = negb (Py.float_gt p c).
Proof.
  unfold Py.float_le, Py.float_gt, SFleb, SFltb.
  rewrite (SFcompare_antisym c p).
  destruct (SFcompare p c) as [[ | | ] | ]; simpl; congruence.
Qed.

(** A float between [0.0] and [1.0] is comparable with every finite
    number. *)
Lemma unit_interval_comparable (p : Py.float) s m e :
  Py.float_le Py.f_zero p = true ->
  SFcompare p (S754_finite s m e) <> None.
Proof.
  destruct p; simpl; try discriminate; intros _; discriminate.
Qed.

(** [p > c], read off the comparison that has [p] on the left. *)
Lemma float_gt_compare (p c : Py.float) :
  Py.float_gt p c = match SFcompare p c with Some Gt => true | _ => false end.
Proof.
  unfold Py.float_gt, SFltb. rewrite (SFcompare_antisym c p).
  destruct (SFcompare p c) as [[ | | ] | ]; reflexivity.
Qed.

(** Unfolds the comparisons without touching the numbers they compare. *)
Ltac sf_unfold :=
  lazy beta iota delta
    [SFcompare SFleb SFltb SFeqb Py.float_le Py.float_truthy negb
     Py.f_0_4 Py.f_0_7 Py.f_zero Py.f_one].

(** A zero is not above [0.4]. *)
Lemma falsy_le_0_4 (p : Py.float) :
  Py.float_truthy p = false -> Py.float_le p Py.f_0_4 = true.
Proof.
  destruct p as [sp | sp | | sp mp ep]; sf_unfold.
  - reflexivity.
  - destruct sp; discriminate.
  - discriminate.
  - destruct sp; discriminate.
Qed.

(** What is at most [0.4] is not above [0.7]: the exponent of [0.4] is
    below that of [0.7]. *)
Lemma le_0_4_not_gt_0_7 (p : Py.float) :
  Py.float_le p Py.f_0_4 = true -> Py.float_gt p Py.f_0_7 = false.
Proof.
  rewrite float_gt_compare.
  destruct p as [sp | sp | | sp mp ep]; sf_unfold.
  - reflexivity.
  - destruct sp; [reflexivity | discriminate].
  - discriminate.
  - destruct sp; [reflexivity | ].
    destruct (Z.compare_spec ep (-54)) as [-> | Hlt | Hgt].
    + reflexivity.
    + intros _. destruct (Z.compare_spec ep (-53)); try lia; reflexivity.
    + discriminate.
Qed.

(** ** C1 *)

(** C1: for every probability p between 0.0 and 1.0 the tier is "High"
    exactly when p > 0.7, "Medium" exactly when p > 0.4 and p <= 0.7, and
    "Low" exactly when p <= 0.4; the two thresholds are exclusive lower
    bounds: 0.4 itself is "Low" and 0.7 itself is "Medium". *)
Theorem risk_tier_partition (p : Py.float) :
  Py.float_le Py.f_zero p = true ->
  Py.float_le p Py.f_one = true ->
  (risk_level (Some p) = "High" <-> Py.float_gt p Py.f_0_7 = true)
  /\ (risk_level (Some p) = "Medium"
      <-> Py.float_gt p Py.f_0_4 = true /\ Py.float_le p Py.f_0_7 = true)
  /\ (risk_level (Some p) = "Low" <-> Py.float_le p Py.f_0_4 = true)
  /\ risk_level (Some Py.f_0_4) = "Low"
  /\ risk_level (Some Py.f_0_7) = "Medium".
Proof.
  intros H0 _.
  assert (L7 := float_le_not_gt p Py.f_0_7
                  (unit_interval_comparable p _ _ _ H0)).
  assert (L4 := float_le_not_gt p Py.f_0_4
                  (unit_interval_comparable p _ _ _ H0)).
  assert (T := le_0_4_not_gt_0_7 p).
  assert (F := falsy_le_0_4 p).
  unfold risk_level, risk_assessment, Py.opt_float_truthy.
  destruct (Py.float_truthy p).
  - destruct (Py.float_gt p Py.f_0_7) eqn:G7;
      destruct (Py.float_gt p Py.f_0_4) eqn:G4;
      cbn [negb fst snd] in *; rewrite ?L7, ?L4 in *; cbn [negb fst snd];
      repeat split; intros; try discriminate; try reflexivity;
      try (destruct H; discriminate); try (specialize (T eq_refl); discriminate).
  - specialize (F eq_refl). specialize (T F). rewrite L4 in F.
    destruct (Py.float_gt p Py.f_0_4); [discriminate | ].
    rewrite T in *. cbn [negb fst snd] in *.
    repeat split; intros; try discriminate; try reflexivity;
      try (destruct H; discriminate); try assumption.
Qed.

(** A probability in range: 0.5. *)
Lemma risk_tier_partition_witness :
  risk_level (Some (S754_finite false 4503599627370496 (-53))) = "Medium"
  <-> Py.float_gt (S754_finite false 4503599627370496 (-53)) Py.f_0_4 = true
      /\ Py.float_le (S754_finite false 4503599627370496 (-53)) Py.f_0_7 = true.
Proof.
  exact (proj1 (proj2 (risk_tier_partition
                         (S754_finite false 4503599627370496 (-53))
                         eq_refl eq_refl))).
Defined.

(** ** Lists *)

Section ListFacts.
Context {A B : Type}.

Lemma filter_none (p : A -> bool) (l : list A) :
  (forall x, In x l -> p x = false) -> filter p l = [].
Proof.
  induction l as [ | a l IH]; intros H; simpl; [reflexivity | ].
  rewrite (H a (or_introl eq_refl)). apply IH.
  intros x Hx. apply H. right. exact Hx.
Qed.

Lemma filter_all (p : A -> bool) (l : list A) :
  (forall x, In x l -> p x = true) -> filter p l = l.
Proof.
  induction l as [ | a l IH]; intros H; simpl; [reflexivity | ].
  rewrite (H a (or_introl eq_refl)). f_equal. apply IH.
  intros x Hx. apply H. right. exact Hx.
Qed.

Lemma filter_flat_map (p : B -> bool) (g : A -> list B) (l : list A) :
  filter p (flat_map g l) = flat_map (fun a => filter p (g a)) l.
Proof.
  induction l as [ | a l IH]; simpl; [reflexivity | ].
  rewrite filter_app, IH. reflexivity.
Qed.

Lemma flat_map_none (g : A -> list B) (l : list A) :
  (forall x, In x l -> g x = []) -> flat_map g l = [].
Proof.
  induction l as [ | a l IH]; intros H; simpl; [reflexivity | ].
  rewrite (H a (or_introl eq_refl)). apply IH.
  intros x Hx. apply H. right. exact Hx.
Qed.

(** A key that occurs once selects one row. *)
Lemma flat_map_unique (k : A -> Z) (g : A -> list B) (l : list A) (x : A) :
  NoDup (map k l) -> In x l ->
  (forall y, In y l -> k y <> k x -> g y = []) ->
  flat_map g l = g x.
Proof.
  induction l as [ | a l IH]; intros Hnd Hin Hg; [contradiction | ].
  simpl in Hnd. inversion Hnd as [ | ? ? Hnotin Hnd']; subst.
  simpl. destruct Hin as [-> | Hin].
  - rewrite flat_map_none; [apply app_nil_r | ].
    intros y Hy. apply Hg; [right; exact Hy | ].
    intros E. apply Hnotin. rewrite <- E. apply in_map. exact Hy.
  - rewrite (Hg a (or_introl eq_refl)).
    + simpl. apply IH; try assumption.
      intros y Hy. apply Hg. right. exact Hy.
    + intros E. apply Hnotin. rewrite E. apply in_map. exact Hin.
Qed.

End ListFacts.

Lemma filter_unique {A : Type} (k : A -> Z) (c : Z) (l : list A) (x : A) :
  NoDup (map k l) -> In x l -> k x = c ->
  filter (fun y => c =? k y) l = [x].
Proof.
  intros Hnd Hin Hk.
  set (g := fun y : A => if c =? k y then [y] else []).
  assert (E : filter (fun y => c =? k y) l = flat_map g l).
  { clear. induction l as [ | a l IH]; simpl; [reflexivity | ].
    rewrite IH. unfold g. destruct (c =? k a); reflexivity. }
  rewrite E, (flat_map_unique k g l x Hnd Hin).
  - unfold g. rewrite Hk, Z.eqb_refl. reflexivity.
  - intros y _ Hne. unfold g.
    destruct (Z.eqb_spec c (k y)); [congruence | reflexivity].
Qed.

(** ** ORDER BY sorts and keeps the rows *)

Section OrderByFacts.
Context {A : Type} (leb : A -> A -> bool).
Hypothesis leb_total : forall a b, leb a b = false -> leb b a = true.
Hypothesis leb_trans :
  forall a b c, leb a b = true -> leb b c = true -> leb a c = true.

Lemma insert_row_perm (x : A) (l : list A) :
  Permutation (Store.insert_row leb x l) (x :: l).
Proof.
  induction l as [ | y l IH]; simpl; [apply Permutation_refl | ].
  destruct (leb x y); [apply Permutation_refl | ].
  apply perm_trans with (y :: x :: l);
    [apply perm_skip; exact IH | apply perm_swap].
Qed.

Lemma order_by_perm (l : list A) : Permutation (Store.order_by leb l) l.
Proof.
  induction l as [ | x l IH]; simpl; [apply perm_nil | ].
  apply perm_trans with (x :: Store.order_by leb l);
    [apply insert_row_perm | apply perm_skip; exact IH].
Qed.

Lemma insert_row_sorted (x : A) (l : list A) :
  StronglySorted (fun a b => leb a b = true) l ->
  StronglySorted (fun a b => leb a b = true) (Store.insert_row leb x l).
Proof.
  induction 1 as [ | y l Hs IH Hy]; simpl.
  - constructor; constructor.
  - destruct (leb x y) eqn:E.
    + constructor; [constructor; assumption | ].
      constructor; [exact E | ].
      eapply Forall_impl; [ | exact Hy].
      intros z Hz. exact (leb_trans _ _ _ E Hz).
    + constructor; [exact IH | ].
      apply (Permutation_Forall (Permutation_sym (insert_row_perm x l))).
      constructor; [exact (leb_total _ _ E) | exact Hy].
Qed.

Lemma order_by_sorted (l : list A) :
  StronglySorted (fun a b => leb a b = true) (Store.order_by leb l).
Proof.
  induction l as [ | x l IH]; simpl; [constructor | ].
  apply insert_row_sorted. exact IH.
Qed.
End OrderByFacts.

(** In a sorted list, every row of a prefix is before every row of the
    rest. *)
Lemma sorted_firstn_skipn {A : Type} (R : A -> A -> Prop) (n : nat)
    (l : list A) :
  StronglySorted R l ->
  forall a b, In a (firstn n l) -> In b (skipn n l) -> R a b.
Proof.
  intros Hs. revert n.
  induction Hs as [ | x l Hs IH Hx]; intros n a b Ha Hb.
  - rewrite firstn_nil in Ha. contradiction.
  - destruct n as [ | n]; simpl in Ha, Hb; [contradiction | ].
    destruct Ha as [<- | Ha].
    + rewrite Forall_forall in Hx. apply Hx.
      rewrite <- (firstn_skipn n l). apply in_or_app. right. exact Hb.
    + exact (IH n a b Ha Hb).
Qed.

Lemma StronglySorted_impl {A : Type} (R R' : A -> A -> Prop) (l : list A) :
  (forall a b, R a b -> R' a b) -> StronglySorted R l -> StronglySorted R' l.
Proof.
  intros H. induction 1 as [ | x l Hs IH Hx]; constructor;
    [exact IH | ].
  eapply Forall_impl; [ | exact Hx]. intros b. apply H.
Qed.

(** ** Sums within 64 bits *)

Arguments Py.in_int64 : simpl never.

Lemma in_int64_iff (n : Z) :
  Py.in_int64 n = true
  <-> -9223372036854775808 <= n <= 9223372036854775807.
Proof.
  unfold Py.in_int64. rewrite andb_true_iff, Z.geb_le, Z.leb_le. lia.
Qed.

(** The sum of a list, one entry at a time. *)
Lemma sum_z_cons (x : Z) (l : list Z) :
  Store.sum_z (x :: l) = x + Store.sum_z l.
Proof. reflexivity. Qed.

Ltac sum_step := cbn [map] in *; rewrite ?sum_z_cons in *.

(** Linear arithmetic over sums taken as unknowns. *)
Ltac sum_lia :=
  repeat match goal with
         | H : context [Store.sum_z ?l] |- _ =>
             let s := fresh "s" in
             set (s := Store.sum_z l) in *; clearbody s
         | |- context [Store.sum_z ?l] =>
             let s := fresh "s" in
             set (s := Store.sum_z l) in *; clearbody s
         end;
  lia.

Lemma sum_negative_parts (l : list Z) : Store.sum_z (map (Z.min 0) l) <= 0.
Proof.
  induction l as [ | x l IH]; [reflexivity | ]. sum_step. sum_lia.
Qed.

Lemma sum_positive_parts (l : list Z) : 0 <= Store.sum_z (map (Z.max 0) l).
Proof.
  induction l as [ | x l IH]; [reflexivity | ]. sum_step. sum_lia.
Qed.

(** From a partial sum [a], when neither the positive nor the negative
    entries still to come lead out of 64 bits. *)
Lemma sql_sum_from (l : list Z) (a : Z) :
  -9223372036854775808 <= a + Store.sum_z (map (Z.min 0) l) ->
  a + Store.sum_z (map (Z.max 0) l) <= 9223372036854775807 ->
  fold_left
    (fun acc x =>
       match acc with
       | Some a => if Py.in_int64 (a + x) then Some (a + x) else None
       | None => None
       end)
    l (Some a)
  = Some (a + Store.sum_z l).
Proof.
  revert a. induction l as [ | x l IH]; intros a Hlo Hhi.
  - simpl. f_equal. lia.
  - sum_step. cbn [fold_left].
    assert (Hn := sum_negative_parts l). assert (Hp := sum_positive_parts l).
    assert (E : Py.in_int64 (a + x) = true)
      by (apply in_int64_iff; sum_lia).
    rewrite E, IH; [f_equal; sum_lia | sum_lia | sum_lia].
Qed.

(** A column that fits is added up exactly. *)
Lemma sql_sum_fits (l : list Z) :
  Store.sum_fits l = true -> Store.sql_sum l = Some (Store.sum_z l).
Proof.
  unfold Store.sum_fits, Store.sql_sum. intros H.
  apply andb_true_iff in H. destruct H as (Hp & Hn).
  apply in_int64_iff in Hp, Hn.
  rewrite sql_sum_from; [reflexivity | sum_lia | sum_lia].
Qed.

(** Entries whose magnitudes add up to at most [2^53] fit in 64 bits. *)
Lemma exact_sums_fit (l : list Z) :
  Store.exact_sums l = true -> Store.sum_fits l = true.
Proof.
  unfold Store.exact_sums, Store.sum_fits. intros H. apply Z.leb_le in H.
  assert (Hp : Store.sum_z (map (Z.max 0) l) <= Store.sum_z (map Z.abs l)).
  { clear H. induction l as [ | x l IH]; [reflexivity | ]. sum_step. sum_lia. }
  assert (Hn : - Store.sum_z (map Z.abs l) <= Store.sum_z (map (Z.min 0) l)).
  { clear H Hp. induction l as [ | x l IH]; [reflexivity | ].
    sum_step. sum_lia. }
  assert (Hp0 := sum_positive_parts l). assert (Hn0 := sum_negative_parts l).
  apply andb_true_iff. split; apply in_int64_iff; sum_lia.
Qed.

(** ** The summary query *)

Lemma flat_map_flat_map {A B C : Type} (g : B -> list C) (h : A -> list B)
    (l : list A) :
  flat_map g (flat_map h l) = flat_map (fun a => flat_map g (h a)) l.
Proof.
  induction l as [ | a l IH]; simpl; [reflexivity | ].
  rewrite flat_map_app, IH. reflexivity.
Qed.

Lemma in_join {A B : Type} (on : A -> B -> bool) (l : list A) (r : list B)
    (a : A) (b : B) :
  In (a, b) (Store.join on l r) <-> In a l /\ In b r /\ on a b = true.
Proof.
  unfold Store.join. rewrite in_flat_map. split.
  - intros (a' & Ha & Hb). apply in_map_iff in Hb.
    destruct Hb as (b' & E & Hb). inversion E; subst.
    apply filter_In in Hb. tauto.
  - intros (Ha & Hb & Hon). exists a. split; [exact Ha | ].
    apply in_map. apply filter_In. tauto.
Qed.

(** Every row of the join is a row of the employee, of the team of that
    employee and of an event of that employee. *)
Lemma summary_join_in (db : Store.database) (id : Z) e t ev :
  In (e, t, ev) (Store.summary_join db id) ->
  In e (Store.employee db) /\ In t (Store.team db)
  /\ In ev (Store.events_of db id)
  /\ Store.e_id e = id /\ Store.t_id t = Store.e_team_id e.
Proof.
  unfold Store.summary_join, Store.events_of. intros H.
  apply filter_In in H. destruct H as (H & Hid). simpl in Hid.
  apply in_join in H. destruct H as (Het & Hev & Hon). simpl in Hon.
  apply in_join in Het. destruct Het as (He & Ht & Hteam).
  apply Z.eqb_eq in Hid, Hon, Hteam.
  repeat split; try assumption; try congruence.
  apply filter_In. split; [exact Hev | ]. apply Z.eqb_eq. congruence.
Qed.

(** With primary keys, the join is the list of the events of the employee,
    each next to the employee and the team. *)
Lemma summary_join_unique (db : Store.database) (id : Z) e t :
  Store.keys_unique db ->
  In e (Store.employee db) -> Store.e_id e = id ->
  In t (Store.team db) -> Store.t_id t = Store.e_team_id e ->
  Store.summary_join db id = map (pair (e, t)) (Store.events_of db id).
Proof.
  intros (Hemp & Hteam) He Hid Ht Htid.
  unfold Store.summary_join, Store.join at 1 2.
  rewrite flat_map_flat_map, filter_flat_map.
  rewrite (flat_map_unique Store.e_id _ _ e Hemp He).
  - rewrite (filter_unique Store.t_id (Store.e_team_id e) _ t Hteam Ht Htid).
    simpl. rewrite app_nil_r. rewrite filter_all.
    + f_equal. unfold Store.events_of. apply filter_ext.
      intros ev. simpl. rewrite Hid. apply Z.eqb_sym.
    + intros r Hr. apply in_map_iff in Hr. destruct Hr as (ev & <- & _).
      simpl. apply Z.eqb_eq. exact Hid.
  - intros e' _ Hne. apply filter_none. intros r Hr.
    apply in_flat_map in Hr. destruct Hr as (et & Het & Hr).
    apply in_map_iff in Het. destruct Het as (t' & <- & _).
    apply in_map_iff in Hr. destruct Hr as (ev & <- & _).
    simpl. apply Z.eqb_neq. congruence.
Qed.

(** Without an event of the employee the join is empty. *)
Lemma summary_join_no_events (db : Store.database) (id : Z) :
  Store.events_of db id = [] -> Store.summary_join db id = [].
Proof.
  intros H. destruct (Store.summary_join db id) as [ | [[e t] ev] l] eqn:E;
    [reflexivity | ].
  assert (Hin : In (e, t, ev) (Store.summary_join db id))
    by (rewrite E; left; reflexivity).
  apply summary_join_in in Hin. destruct Hin as (_ & _ & Hev & _).
  rewrite H in Hev. contradiction.
Qed.

Section GroupByFacts.
Context {A K : Type} (eqb : K -> K -> bool) (key : A -> K).

Lemma fold_add_to_group_const (k : K) (l rows : list A) :
  eqb k k = true -> (forall x, In x l -> key x = k) ->
  fold_left (fun groups x => Store.add_to_group eqb key x groups) l
    [(k, rows)] = [(k, rows ++ l)].
Proof.
  intros Hk. revert rows.
  induction l as [ | x l IH]; intros rows H; simpl.
  - rewrite app_nil_r. reflexivity.
  - rewrite (H x (or_introl eq_refl)), Hk, IH.
    + rewrite <- app_assoc. reflexivity.
    + intros y Hy. apply H. right. exact Hy.
Qed.

(** Rows that all have the key [k] form one group. *)
Lemma group_by_const (k : K) (l : list A) :
  eqb k k = true -> (forall x, In x l -> key x = k) -> l <> [] ->
  Store.group_by eqb key l = [(k, l)].
Proof.
  intros Hk H Hne. destruct l as [ | x l]; [congruence | ].
  unfold Store.group_by. simpl.
  rewrite (H x (or_introl eq_refl)).
  apply (fold_add_to_group_const k l [x] Hk).
  intros y Hy. apply H. right. exact Hy.
Qed.
End GroupByFacts.

Lemma summary_key_eqb_refl (k : Store.summary_key) :
  Store.summary_key_eqb k k = true.
Proof.
  unfold Store.summary_key_eqb.
  rewrite Z.eqb_refl, !String.eqb_refl. reflexivity.
Qed.

(** Under primary keys the statement has one group, that of the events of
    the employee. *)
Lemma summary_query_one_group (db : Store.database) (id : Z) e t :
  Store.keys_unique db ->
  In e (Store.employee db) -> Store.e_id e = id ->
  In t (Store.team db) -> Store.t_id t = Store.e_team_id e ->
  Store.events_of db id <> [] ->
  Store.summary_query db id
  = match Store.sql_sum (map Store.ev_positive_events (Store.events_of db id)),
          Store.sql_sum (map Store.ev_negative_events (Store.events_of db id))
    with
    | Some total_pos, Some total_neg =>
        Some
          [ {| Store.name := Store.e_name e;
               Store.team_name := Store.t_name t;
               Store.shift := Store.t_shift t;
               Store.manager := Store.t_manager t;
               Store.total_positive := total_pos;
               Store.total_negative := total_neg;
               Store.avg_positive :=
                 Store.sql_avg
                   (map Store.ev_positive_events (Store.events_of db id));
               Store.avg_negative :=
                 Store.sql_avg
                   (map Store.ev_negative_events (Store.events_of db id))
            |} ]
    | _, _ => None
    end.
Proof.
  intros Hk He Hid Ht Htid Hev. unfold Store.summary_query.
  rewrite (summary_join_unique db id e t Hk He Hid Ht Htid).
  rewrite (group_by_const _ _
             (Store.summary_key_of (e, t, hd (Store.Build_event_row 0 0 0 0)
                                               (Store.events_of db id)))).
  - cbn [Store.order_by Store.insert_row map Store.summarize all_some].
    rewrite !map_map. cbn [snd].
    destruct (Store.sql_sum _); [ | reflexivity].
    destruct (Store.sql_sum _); reflexivity.
  - apply summary_key_eqb_refl.
  - intros r Hr. apply in_map_iff in Hr. destruct Hr as (ev & <- & _).
    reflexivity.
  - destruct (Store.events_of db id); [congruence | discriminate].
Qed.

(** The summary of an employee under primary keys, for counts that fit:
    one row, whose sums and averages range over all the events of the
    employee. *)
Lemma summary_query_unique (db : Store.database) (id : Z) e t :
  Store.keys_unique db ->
  In e (Store.employee db) -> Store.e_id e = id ->
  In t (Store.team db) -> Store.t_id t = Store.e_team_id e ->
  Store.events_of db id <> [] ->
  Store.sum_fits (map Store.ev_positive_events (Store.events_of db id))
  = true ->
  Store.sum_fits (map Store.ev_negative_events (Store.events_of db id))
  = true ->
  Store.summary_query db id =
    Some
      [ {| Store.name := Store.e_name e;
           Store.team_name := Store.t_name t;
           Store.shift := Store.t_shift t;
           Store.manager := Store.t_manager t;
           Store.total_positive :=
             Store.sum_z
               (map Store.ev_positive_events (Store.events_of db id));
           Store.total_negative :=
             Store.sum_z
               (map Store.ev_negative_events (Store.events_of db id));
           Store.avg_positive :=
             Store.sql_avg
               (map Store.ev_positive_events (Store.events_of db id));
           Store.avg_negative :=
             Store.sql_avg
               (map Store.ev_negative_events (Store.events_of db id))
        |} ].
Proof.
  intros Hk He Hid Ht Htid Hev Hp Hn.
  rewrite (summary_query_one_group db id e t Hk He Hid Ht Htid Hev).
  rewrite (sql_sum_fits _ Hp), (sql_sum_fits _ Hn). reflexivity.
Qed.

Lemma summary_query_no_events (db : Store.database) (id : Z) :
  Store.events_of db id = [] -> Store.summary_query db id = Some [].
Proof.
  intros H. unfold Store.summary_query.
  rewrite (summary_join_no_events db id H). reflexivity.
Qed.

(** ** The rows of the chart and of the notes *)

Lemma filter_andb {A : Type} (p q : A -> bool) (l : list A) :
  filter (fun x => p x && q x) l = filter q (filter p l).
Proof.
  induction l as [ | a l IH]; simpl; [reflexivity | ].
  destruct (p a); simpl; rewrite IH; reflexivity.
Qed.

Lemma existsb_perm {A : Type} (p : A -> bool) (l l' : list A) :
  Permutation l l' -> existsb p l = existsb p l'.
Proof.
  induction 1 as [ | x l l' H IH | x y l | l l' l'' H1 IH1 H2 IH2]; simpl.
  - reflexivity.
  - rewrite IH. reflexivity.
  - destruct (p x), (p y); reflexivity.
  - congruence.
Qed.

(** Reading the rows into a frame keeps the rows, whatever their order,
    and their dates and counts. *)
Lemma read_frame_perm (l l' : list Store.events_df_row) :
  Permutation l l' -> Permutation (Store.read_frame l) (Store.read_frame l').
Proof.
  intros H. unfold Store.read_frame.
  rewrite (existsb_perm _ l l' H).
  destruct (existsb _ l'); [apply Permutation_map | ]; exact H.
Qed.

Lemma read_frame_nil_iff (l : list Store.events_df_row) :
  Store.read_frame l = [] <-> l = [].
Proof.
  unfold Store.read_frame. destruct (existsb _ l); [ | tauto].
  split; intros H; [apply map_eq_nil in H; exact H | subst; reflexivity].
Qed.

Lemma read_frame_sorted (l : list Store.events_df_row) :
  StronglySorted (fun a b => Store.event_date a <= Store.event_date b) l ->
  StronglySorted (fun a b => Store.event_date a <= Store.event_date b)
    (Store.read_frame l).
Proof.
  intros H. unfold Store.read_frame.
  destruct (existsb _ l); [ | exact H].
  induction H as [ | x l Hs IH Hx]; simpl; constructor; [exact IH | ].
  rewrite Forall_forall in *. intros y Hy. apply in_map_iff in Hy.
  destruct Hy as (y' & <- & Hy'). simpl. exact (Hx y' Hy').
Qed.

(** A frame without a REAL is the list of the rows. *)
Lemma read_frame_integers (l : list Store.events_df_row) :
  (forall r, In r l -> Store.is_real (Store.net_events r) = false) ->
  Store.read_frame l = l.
Proof.
  intros H. unfold Store.read_frame.
  destruct (existsb _ l) eqn:E; [ | reflexivity].
  apply existsb_exists in E. destruct E as (r & Hr & E).
  rewrite (H r Hr) in E. discriminate.
Qed.

(** Every row of the frame is a row that was read, with its date and its
    two counts. *)
Lemma read_frame_in (l : list Store.events_df_row) (r : Store.events_df_row) :
  In r (Store.read_frame l) ->
  exists r0,
    In r0 l
    /\ Store.event_date r = Store.event_date r0
    /\ Store.positive_events r = Store.positive_events r0
    /\ Store.negative_events r = Store.negative_events r0.
Proof.
  unfold Store.read_frame. destruct (existsb _ l); intros H.
  - apply in_map_iff in H. destruct H as (r0 & <- & H).
    exists r0. repeat split. exact H.
  - exists r. repeat split. exact H.
Qed.

Lemma read_frame_keeps (l : list Store.events_df_row)
    (r0 : Store.events_df_row) :
  In r0 l ->
  exists r,
    In r (Store.read_frame l)
    /\ Store.event_date r = Store.event_date r0
    /\ Store.positive_events r = Store.positive_events r0
    /\ Store.negative_events r = Store.negative_events r0.
Proof.
  unfold Store.read_frame. destruct (existsb _ l); intros H.
  - eexists. split; [apply in_map; exact H | ]. repeat split.
  - exists r0. repeat split. exact H.
Qed.

(** The rows get_employee_events selects, before they are ordered. *)
Lemma events_query_perm (db : Store.database) (now : Store.clock)
    (id days : Z) :
  Permutation (Store.events_query db now id days)
    (Store.read_frame
       (map Store.select_event
          (filter (Store.in_window now days) (Store.events_of db id)))).
Proof.
  unfold Store.events_query, Store.events_of.
  rewrite <- filter_andb. apply read_frame_perm, order_by_perm.
Qed.

Lemma events_query_sorted (db : Store.database) (now : Store.clock)
    (id days : Z) :
  StronglySorted (fun a b => Store.event_date a <= Store.event_date b)
    (Store.events_query db now id days).
Proof.
  unfold Store.events_query. apply read_frame_sorted.
  apply (StronglySorted_impl
           (fun a b => (Store.event_date a <=? Store.event_date b) = true)).
  - intros a b H. apply Z.leb_le. exact H.
  - apply (order_by_sorted
             (fun a b => Store.event_date a <=? Store.event_date b)).
    + intros a b H. apply Z.leb_le. apply Z.leb_gt in H. lia.
    + intros a b c H1 H2. apply Z.leb_le. apply Z.leb_le in H1, H2. lia.
Qed.

Lemma events_query_nil_iff (db : Store.database) (now : Store.clock)
    (id days : Z) :
  Store.events_query db now id days = []
  <-> filter (Store.in_window now days) (Store.events_of db id) = [].
Proof.
  assert (P := events_query_perm db now id days). split; intros H.
  - rewrite H in P. apply Permutation_nil in P.
    apply (proj1 (read_frame_nil_iff _)) in P. apply map_eq_nil in P.
    exact P.
  - rewrite H in P. apply Permutation_sym, Permutation_nil in P. exact P.
Qed.

(** The window, for a date the store can compute. *)
Lemma in_window_date (now : Store.clock) (days d : Z) (ev : Store.event_row) :
  Store.date_now_minus now days = Some d ->
  Store.in_window now days ev = (d <=? Store.ev_event_date ev).
Proof. unfold Store.in_window. intros ->. reflexivity. Qed.

Lemma date_now_minus_inv (now : Store.clock) (days d : Z) :
  Store.date_now_minus now days = Some d ->
  0 <= days <= Store.last_day /\ d = Store.today now - days.
Proof.
  unfold Store.date_now_minus. intros H.
  destruct (0 <=? days) eqn:E0; [ | discriminate].
  destruct (days <=? _) eqn:E1; [ | discriminate].
  destruct (Store.today now <=? Store.last_day) eqn:E2; [ | discriminate].
  inversion H. apply Z.leb_le in E0, E1, E2.
  destruct (Store.before_noon now); lia.
Qed.

Lemma notes_query_perm (db : Store.database) (id : Z) :
  Permutation (Store.notes_query db id)
    (map Store.select_note
       (filter (fun n => Store.n_employee_id n =? id) (Store.notes db))).
Proof. apply order_by_perm. Qed.

Lemma notes_query_sorted (db : Store.database) (id : Z) :
  StronglySorted (fun a b => Store.created_at b <= Store.created_at a)
    (Store.notes_query db id).
Proof.
  unfold Store.notes_query.
  apply (StronglySorted_impl
           (fun a b => (Store.created_at b <=? Store.created_at a) = true)).
  - intros a b H. apply Z.leb_le. exact H.
  - apply (order_by_sorted
             (fun a b => Store.created_at b <=? Store.created_at a)).
    + intros a b H. apply Z.leb_le. apply Z.leb_gt in H. lia.
    + intros a b c H1 H2. apply Z.leb_le. apply Z.leb_le in H1, H2. lia.
Qed.

(** ** Printing and reading integers *)

Lemma length_chars_of_uint (d : Decimal.uint) :
  List.length (Py.chars_of_uint d) = Decimal.nb_digits d.
Proof. induction d; simpl; congruence. Qed.

(** Doubling a number adds at most one digit. *)
Lemma nb_digits_double (d : Decimal.uint) :
  (Decimal.nb_digits (Decimal.Little.double d) <= S (Decimal.nb_digits d))%nat
  /\ (Decimal.nb_digits (Decimal.Little.succ_double d)
      <= S (Decimal.nb_digits d))%nat.
Proof. induction d; simpl; lia. Qed.

(** A number has no more decimal than binary digits. *)
Lemma nb_digits_size (p : positive) :
  (Decimal.nb_digits (Pos.to_uint p) <= Pos.size_nat p)%nat.
Proof.
  unfold Pos.to_uint. rewrite DecimalFacts.nb_digits_rev.
  induction p as [p IH | p IH | ]; simpl.
  - assert (H := proj2 (nb_digits_double (Pos.to_little_uint p))). lia.
  - assert (H := proj1 (nb_digits_double (Pos.to_little_uint p))). lia.
  - lia.
Qed.

Lemma size_nat_bound (p : positive) (n : nat) :
  Z.pos p < 2 ^ Z.of_nat n -> (Pos.size_nat p <= n)%nat.
Proof.
  revert n. induction p as [p IH | p IH | ]; intros n H;
    (destruct n as [ | n]; [simpl in H; lia | ]);
    rewrite Nat2Z.inj_succ, Z.pow_succ_r in H by lia; simpl.
  - apply le_n_S, IH. lia.
  - apply le_n_S, IH. lia.
  - lia.
Qed.

(** [str(n)] succeeds on the integers of the store. *)
Lemma str_of_int64 (n : Z) :
  Py.in_int64 n = true -> exists s, Py.str_of_int n = Some s.
Proof.
  intros H. apply in_int64_iff in H. unfold Py.str_of_int.
  assert (B : forall p, Z.pos p < 2 ^ Z.of_nat 64 ->
                (N.of_nat (List.length (Py.chars_of_uint (Pos.to_uint p)))
                 <=? Py.int_max_str_digits)%N = true).
  { intros p Hp. apply N.leb_le. rewrite length_chars_of_uint.
    assert (H1 := nb_digits_size p).
    assert (H2 := size_nat_bound p 64 Hp).
    unfold Py.int_max_str_digits. lia. }
  destruct n as [ | p | p].
  - eexists. reflexivity.
  - rewrite B; [eexists; reflexivity | ].
    change (2 ^ Z.of_nat 64) with 18446744073709551616. lia.
  - rewrite B; [eexists; reflexivity | ].
    change (2 ^ Z.of_nat 64) with 18446744073709551616. lia.
Qed.

(** Reads the value of the digit at the head of the string. *)
Ltac read_digit :=
  match goal with
  | |- context [Py.digit_of ?c] =>
      let v := eval vm_compute in (Py.digit_of c) in
      change (Py.digit_of c) with v; cbv iota
  end.

(** The digits of a number, read after [count] other digits. *)
Lemma digits_of_uint_acc (d : Decimal.uint) (p : positive) (count : N) :
  Py.digits (Z.pos p) count true (Py.chars_of_uint d)
  = if (count + N.of_nat (Decimal.nb_digits d) <=? Py.int_max_str_digits)%N
    then Some (Z.pos (Pos.of_uint_acc d p))
    else None.
Proof.
  revert p count. induction d; intros p count;
    cbn [Py.chars_of_uint Py.digits Decimal.nb_digits];
    [rewrite N.add_0_r; reflexivity | .. ];
    read_digit; cbn [Pos.of_uint_acc];
    match goal with
    | |- Py.digits ?a _ true _ = _ =>
        match goal with
        | |- _ = if _ then Some (Z.pos (Pos.of_uint_acc _ ?q)) else None =>
            replace a with (Z.pos q) by lia
        end
    end;
    rewrite IHd;
    replace (count + 1 + N.of_nat (Decimal.nb_digits d))%N
      with (count + N.of_nat (S (Decimal.nb_digits d)))%N by lia;
    reflexivity.
Qed.

Lemma digits_of_uint (d : Decimal.uint) (count : N) :
  Py.digits 0 count true (Py.chars_of_uint d)
  = if (count + N.of_nat (Decimal.nb_digits d) <=? Py.int_max_str_digits)%N
    then Some (Z.of_N (Pos.of_uint d))
    else None.
Proof.
  revert count. induction d; intros count;
    cbn [Py.chars_of_uint Py.digits Decimal.nb_digits];
    [rewrite N.add_0_r; reflexivity | .. ];
    read_digit; cbn [Pos.of_uint Z.of_N];
    replace (count + N.of_nat (S (Decimal.nb_digits d)))%N
      with (count + 1 + N.of_nat (Decimal.nb_digits d))%N by lia;
    [apply IHd | apply digits_of_uint_acc .. ].
Qed.

(** A first digit is read the same before and after a digit. *)
Lemma digits_first (d : Decimal.uint) :
  d <> Decimal.Nil ->
  Py.digits 0 0 false (Py.chars_of_uint d)
  = Py.digits 0 0 true (Py.chars_of_uint d).
Proof.
  destruct d; intros H; [congruence | .. ];
    cbn [Py.chars_of_uint Py.digits]; read_digit; reflexivity.
Qed.

(** The digits of a positive number, read by [int]. *)
Lemma int_of_pos_digits (p : positive) :
  (N.of_nat (List.length (Py.chars_of_uint (Pos.to_uint p)))
   <=? Py.int_max_str_digits)%N = true ->
  Py.digits 0 0 false (Py.chars_of_uint (Pos.to_uint p)) = Some (Z.pos p).
Proof.
  intros H. rewrite length_chars_of_uint in H.
  rewrite (digits_first _ (DecimalPos.Unsigned.to_uint_nonnil p)).
  rewrite digits_of_uint, N.add_0_l, H, DecimalPos.Unsigned.of_to.
  reflexivity.
Qed.

(** The text of a number starts with a digit, which [int] neither strips
    nor takes for a sign. *)
Lemma int_unsigned (d : Decimal.uint) :
  d <> Decimal.Nil ->
  Py.int (Py.chars_of_uint d) = Py.digits 0 0 false (Py.chars_of_uint d).
Proof.
  destruct d; intros H; [congruence | reflexivity .. ].
Qed.

(** [int(str(n)) = n] whenever [str(n)] is printed. *)
Lemma int_str_round_trip (n : Z) (s : Py.str) :
  Py.str_of_int n = Some s -> Py.int s = Some n.
Proof.
  unfold Py.str_of_int. destruct n as [ | p | p].
  - intros H. inversion H. reflexivity.
  - destruct (N.leb _ _) eqn:E; [ | discriminate].
    intros H. inversion H; subst s. cbn [Z.ltb Z.compare].
    rewrite (int_unsigned _ (DecimalPos.Unsigned.to_uint_nonnil p)).
    apply int_of_pos_digits. exact E.
  - destruct (N.leb _ _) eqn:E; [ | discriminate].
    intros H. inversion H; subst s. cbn [Z.ltb Z.compare].
    unfold Py.int. cbn [Py.lstrip].
    change (Py.is_space 45%N) with false. cbv iota.
    change (45 =? 45)%N with true. cbv iota.
    rewrite (int_of_pos_digits p E). reflexivity.
Qed.

(** [int] refuses the empty string, so a parsed parameter is truthy. *)
Lemma int_some_truthy (s : Py.str) (id : Z) :
  Py.int s = Some id -> Py.str_truthy s = true.
Proof. destruct s; [discriminate | reflexivity]. Qed.

(** ** What the calls of a request return *)

Lemma result_bind {A B : Type} (m : M A) (k : A -> M B) :
  result (Eff.bind m k)
  = match result m with
    | Return a => result (k a)
    | Raise e => Raise e
    end.
Proof.
  destruct m as [t [a | e]]; simpl; [ | reflexivity].
  destruct (k a); reflexivity.
Qed.

(** ** Binding the employee id *)

Lemma bind_param_in_range (n : Z) :
  Py.in_int64 n = true -> bind_param n = ([], Return tt).
Proof. unfold bind_param. intros ->. reflexivity. Qed.

Lemma bind_param_overflow (n : Z) :
  Py.in_int64 n = false -> bind_param n = ([], Raise QueryError).
Proof. unfold bind_param. intros ->. reflexivity. Qed.

Lemma main_get_employee_summary_eq (w : world) (id : Z) :
  Py.in_int64 id = true ->
  Main.get_employee_summary w id
  = match Store.summary_query (db w) id with
    | Some df => ([SqlSummary id], Return (hd_error df))
    | None => ([SqlSummary id], Raise QueryError)
    end.
Proof.
  intros H. unfold Main.get_employee_summary.
  rewrite (bind_param_in_range id H).
  destruct (Store.summary_query (db w) id); reflexivity.
Qed.

Lemma main_get_employee_summary_overflow (w : world) (id : Z) :
  Py.in_int64 id = false ->
  Main.get_employee_summary w id = ([], Raise QueryError).
Proof.
  intros H. unfold Main.get_employee_summary.
  rewrite (bind_param_overflow id H). reflexivity.
Qed.

Lemma dashboard_get_employee_summary_eq (w : world) (id : Z) :
  Dashboard.get_employee_summary w id = Main.get_employee_summary w id.
Proof. reflexivity. Qed.

Lemma main_get_employee_notes_eq (w : world) (id : Z) :
  Py.in_int64 id = true ->
  Main.get_employee_notes w id
  = ([SqlNotes id], Return (Store.notes_query (db w) id)).
Proof.
  intros H. unfold Main.get_employee_notes.
  rewrite (bind_param_in_range id H). reflexivity.
Qed.

Lemma main_get_employee_events_eq (w : world) (id days : Z) :
  Py.in_int64 id = true ->
  Py.in_int64 days = true ->
  Main.get_employee_events w id days
  = ([SqlEvents id days],
     Return (Store.events_query (db w) (now w) id days)).
Proof.
  intros H Hd. unfold Main.get_employee_events.
  destruct (str_of_int64 days Hd) as (s & ->).
  rewrite (bind_param_in_range id H). reflexivity.
Qed.

(** A summary that was returned was asked with an id of 64 bits, and is
    the first row of a statement that did not fail. *)
Lemma main_get_employee_summary_returned (w : world) (id : Z) r :
  result (Main.get_employee_summary w id) = Return r ->
  Py.in_int64 id = true
  /\ exists df, Store.summary_query (db w) id = Some df /\ r = hd_error df.
Proof.
  destruct (Py.in_int64 id) eqn:H; intros E.
  - rewrite (main_get_employee_summary_eq w id H) in E.
    destruct (Store.summary_query (db w) id) as [df | ];
      [ | discriminate E].
    inversion E. split; [reflexivity | ]. exists df. split; reflexivity.
  - rewrite (main_get_employee_summary_overflow w id H) in E. discriminate.
Qed.

(** The summary of a statement that did not fail. *)
Lemma main_get_employee_summary_fetched (w : world) (id : Z) df :
  Py.in_int64 id = true ->
  Store.summary_query (db w) id = Some df ->
  Main.get_employee_summary w id = ([SqlSummary id], Return (hd_error df)).
Proof.
  intros H E. rewrite (main_get_employee_summary_eq w id H), E. reflexivity.
Qed.

(** predict_recruitment_risk of main.py, once the summary statement has
    not failed. *)
Lemma main_predict_result (w : world) (id : Z) df :
  Py.in_int64 id = true ->
  Store.summary_query (db w) id = Some df ->
  result (Main.predict_recruitment_risk w id)
  = Return
      match model_file w, hd_error df with
      | Some m, Some s =>
          Some (predict_proba m (Store.total_positive s)
                                (Store.total_negative s))
      | _, _ => None
      end.
Proof.
  intros H E. unfold Main.predict_recruitment_risk, Main.load_model.
  destruct (model_file w) as [m | ]; simpl; [ | reflexivity].
  rewrite (main_get_employee_summary_fetched w id df H E).
  destruct (hd_error df); reflexivity.
Qed.

(** In dashboard.py it returns [None] when the model or the summary is
    absent, and raises on the truth value of a summary that is there. *)
Lemma dashboard_predict_result (w : world) (id : Z) df :
  Py.in_int64 id = true ->
  Store.summary_query (db w) id = Some df ->
  result (Dashboard.predict_recruitment_risk w id)
  = match model_file w, hd_error df with
    | Some _, Some _ => Raise ValueError
    | _, _ => Return None
    end.
Proof.
  intros H E. unfold Dashboard.predict_recruitment_risk, Dashboard.load_model,
    Main.load_model.
  destruct (model_file w) as [m | ]; simpl; [ | reflexivity].
  rewrite dashboard_get_employee_summary_eq,
    (main_get_employee_summary_fetched w id df H E).
  destruct (hd_error df); reflexivity.
Qed.

(** The thirty days of the handlers. *)
Lemma thirty_in_int64 : Py.in_int64 30 = true.
Proof. reflexivity. Qed.

(** What create_performance_chart returns for an id of 64 bits. *)
Lemma main_chart_value (w : world) (id : Z) (days : Z) :
  Py.in_int64 id = true ->
  Py.in_int64 days = true ->
  Main.create_performance_chart w id days
  = match Store.events_query (db w) (now w) id days with
    | [] => ([SqlEvents id days], Return None)
    | r :: rows =>
        if dates_read w (r :: rows) then
          ([SqlEvents id days; Savefig],
           Return (Some {| plotted := r :: rows; last_days := days |}))
        else ([SqlEvents id days], Raise ValueError)
    end.
Proof.
  intros H Hd. unfold Main.create_performance_chart.
  rewrite (main_get_employee_events_eq w id days H Hd).
  destruct (Store.events_query (db w) (now w) id days) as [ | r rows];
    [reflexivity | ].
  unfold to_datetime. cbn [Eff.bind app].
  destruct (dates_read w (r :: rows)); reflexivity.
Qed.

(** It returns when pandas reads the dates. *)
Lemma main_chart_result (w : world) (id : Z) (days : Z) :
  Py.in_int64 id = true ->
  Py.in_int64 days = true ->
  dates_read w (Store.events_query (db w) (now w) id days) = true ->
  exists chart_img,
    result (Main.create_performance_chart w id days) = Return chart_img
    /\ (chart_img = None
        <-> Store.events_query (db w) (now w) id days = []).
Proof.
  intros H Hd Hr. rewrite (main_chart_value w id days H Hd).
  destruct (Store.events_query (db w) (now w) id days) eqn:E.
  - exists None. split; [reflexivity | tauto].
  - rewrite Hr. eexists. split; [reflexivity | ]. split; discriminate.
Qed.

(** It raises when pandas refuses one of them. *)
Lemma main_chart_refused (w : world) (id : Z) (days : Z) :
  Py.in_int64 id = true ->
  Py.in_int64 days = true ->
  dates_read w (Store.events_query (db w) (now w) id days) = false ->
  result (Main.create_performance_chart w id days) = Raise ValueError.
Proof.
  intros H Hd Hr. rewrite (main_chart_value w id days H Hd).
  destruct (Store.events_query (db w) (now w) id days) eqn:E;
    [discriminate Hr | ].
  rewrite Hr. reflexivity.
Qed.

(** The first lines of the handler of main.py, once the parameter is an
    integer. *)
Lemma main_dashboard_unfold (w : world) (req : Main.request) s id :
  Main.args_get (Main.args req) "employee_id" = Some s ->
  Py.int s = Some id ->
  Main.employee_dashboard w req
  = (summary <- Main.get_employee_summary w id ;;
     match summary with
     | None =>
         Main.render_template_string (Main.context_of (Some id) Main.PyNone)
     | Some summary =>
         notes <- Main.get_employee_notes w id ;;
         risk_prob <- Main.predict_recruitment_risk w id ;;
         chart_img <- Main.create_performance_chart w id 30 ;;
         let (risk_level, risk_color) := risk_assessment risk_prob in
         Main.render_template_string
           {| Main.ctx_employee_id := Some id;
              Main.ctx_summary := Main.Value summary;
              Main.ctx_notes := notes;
              Main.ctx_risk_prob := risk_prob;
              Main.ctx_chart_img := chart_img;
              Main.ctx_risk_level := risk_level;
              Main.ctx_risk_color := risk_color |}
     end).
Proof.
  intros Hget Hint. unfold Main.employee_dashboard.
  rewrite Hget. cbn [Main.opt_str_truthy option_map].
  rewrite (int_some_truthy s id Hint), Hint. reflexivity.
Qed.

(** An id outside 64 bits: the summary query raises and the request
    fails. *)
Lemma main_dashboard_overflow (w : world) (req : Main.request) s id :
  Main.args_get (Main.args req) "employee_id" = Some s ->
  Py.int s = Some id ->
  Py.in_int64 id = false ->
  Main.employee_dashboard w req = ([], Raise QueryError).
Proof.
  intros Hget Hint H. rewrite (main_dashboard_unfold w req s id Hget Hint).
  rewrite (main_get_employee_summary_overflow w id H). reflexivity.
Qed.

(** A summary statement that fails: so does the request. *)
Lemma main_dashboard_failed (w : world) (req : Main.request) s id :
  Main.args_get (Main.args req) "employee_id" = Some s ->
  Py.int s = Some id ->
  Py.in_int64 id = true ->
  Store.summary_query (db w) id = None ->
  Main.employee_dashboard w req = ([SqlSummary id], Raise QueryError).
Proof.
  intros Hget Hint H E. rewrite (main_dashboard_unfold w req s id Hget Hint).
  rewrite (main_get_employee_summary_eq w id H), E. reflexivity.
Qed.

(** The handler of main.py on an id of 64 bits whose summary statement
    does not fail: without a summary it renders the template with
    [summary=None]; with one it renders the seven values it has gathered,
    unless the chart fails. *)
Lemma main_dashboard_parsed (w : world) (req : Main.request) s id df :
  Main.args_get (Main.args req) "employee_id" = Some s ->
  Py.int s = Some id ->
  Py.in_int64 id = true ->
  Store.summary_query (db w) id = Some df ->
  match hd_error df with
  | None =>
      Main.employee_dashboard w req
      = ([SqlSummary id],
         Return (if id =? 0 then PleaseSelect else EmployeeNotFound))
  | Some summary =>
      exists risk_prob,
        result (Main.predict_recruitment_risk w id) = Return risk_prob
        /\ result (Main.employee_dashboard w req)
           = match result (Main.create_performance_chart w id 30) with
             | Return chart_img =>
                 Return
                   (if id =? 0 then PleaseSelect
                    else DashboardView
                           {| v_summary := summary;
                              v_risk_level := risk_level risk_prob;
                              v_risk_color := risk_color risk_prob;
                              v_prob := render_prob risk_prob;
                              v_chart := render_chart chart_img;
                              v_notes :=
                                render_notes
                                  (Store.notes_query (db w) id) |})
             | Raise x => Raise x
             end
  end.
Proof.
  intros Hget Hint Hrange Hq.
  rewrite (main_dashboard_unfold w req s id Hget Hint).
  rewrite (main_get_employee_summary_fetched w id df Hrange Hq).
  destruct (hd_error df) as [summary | ] eqn:Hs.
  - eexists.
    split; [apply (main_predict_result w id df Hrange Hq) | ].
    rewrite result_bind. cbn [result snd].
    rewrite result_bind, (main_get_employee_notes_eq w id Hrange).
    cbn [result snd].
    rewrite result_bind, (main_predict_result w id df Hrange Hq), Hs.
    rewrite result_bind.
    destruct (result (Main.create_performance_chart w id 30))
      as [chart_img | x]; [ | reflexivity].
    unfold risk_level, risk_color.
    destruct (risk_assessment _) as [lvl col].
    unfold Main.render_template_string, Main.not_employee_id, int_truthy.
    cbn. destruct (id =? 0); reflexivity.
  - unfold Main.render_template_string, Main.not_employee_id, int_truthy.
    cbn. destruct (id =? 0); reflexivity.
Qed.

(** A request that returned was made with an id of 64 bits, for which
    the summary statement did not fail. *)
Lemma main_dashboard_returned (w : world) (req : Main.request) s id f :
  Main.args_get (Main.args req) "employee_id" = Some s ->
  Py.int s = Some id ->
  result (Main.employee_dashboard w req) = Return f ->
  Py.in_int64 id = true
  /\ exists df, Store.summary_query (db w) id = Some df.
Proof.
  intros Hget Hint Hf.
  destruct (Py.in_int64 id) eqn:Hrange;
    [ | rewrite (main_dashboard_overflow w req s id Hget Hint Hrange) in Hf;
        discriminate Hf].
  split; [reflexivity | ].
  destruct (Store.summary_query (db w) id) as [df | ] eqn:Hq;
    [exists df; reflexivity | ].
  rewrite (main_dashboard_failed w req s id Hget Hint Hrange Hq) in Hf.
  discriminate Hf.
Qed.

(** Such a request: twenty nines. *)
Example huge_id_fails :
  Main.serve Sample.without_model
    (Sample.get_dashboard (Py.lit "99999999999999999999"))
  = ([], Main.InternalServerError QueryError).
Proof. reflexivity. Qed.

(** What [int] reads and refuses: the Arabic-Indic digits of twelve, a
    no-break space before the number, a file separator before it, and
    4301 digits. *)
Example int_reads_and_refuses :
  Py.int [1633; 1634]%N = Some 12
  /\ Py.int [160; 49; 50]%N = Some 12
  /\ Py.int [28; 49; 50]%N = None
  /\ Py.int (repeat 49%N 4301) = None.
Proof. repeat split; vm_compute; reflexivity. Qed.

(** [notes[:5]] under [if notes] shows the first five notes. *)
Lemma notes_shown_render (notes : list Store.note_record) :
  notes_shown (render_notes notes) = firstn 5 notes.
Proof. destruct notes; reflexivity. Qed.

(** The primary keys of the sample database. *)
Lemma sample_keys_unique : Store.keys_unique Sample.sample_db.
Proof.
  split; simpl; repeat constructor; simpl; intuition discriminate.
Defined.

(* ================================================================== *)
(** * The claims *)
(* ================================================================== *)

(** ** C2 *)

(** An employee without events has no summary row (the query joins
    [employee_events]), so the handler of main.py takes its not-found
    branch after the one summary query. *)
Lemma main_dashboard_no_events (w : world) (req : Main.request) s id :
  Main.args_get (Main.args req) "employee_id" = Some s ->
  Py.int s = Some id -> Py.in_int64 id = true -> id <> 0 ->
  Store.events_of (db w) id = [] ->
  Main.employee_dashboard w req = ([SqlSummary id], Return EmployeeNotFound).
Proof.
  intros Hget Hint Hrange Hid Hev.
  assert (H := main_dashboard_parsed w req s id [] Hget Hint Hrange
                 (summary_query_no_events (db w) id Hev)).
  simpl in H. rewrite H.
  destruct (Z.eqb_spec id 0); [contradiction | reflexivity].
Qed.

(** C2: Bob is in the employee table and has no row in employee_events;
    the request for his dashboard completes, but with the "Employee not
    found" fragment and not with the no-data rendering of the dashboard. *)
Theorem employee_without_events_not_found :
  In Sample.bob (Store.employee Sample.sample_db)
  /\ Store.events_of Sample.sample_db 2 = []
  /\ Main.serve Sample.without_model (Sample.get_dashboard (Py.lit "2"))
     = ([SqlSummary 2], Main.Fragment EmployeeNotFound)
  /\ Dashboard.employee_dashboard Sample.without_model 2
     = ([SqlSummary 2], Return EmployeeNotFound).
Proof.
  split; [right; left; reflexivity | ].
  split; [reflexivity | ].
  split; [ | reflexivity].
  unfold Main.serve. simpl dispatch. cbv iota. simpl Main.method. cbv iota.
  rewrite (main_dashboard_no_events Sample.without_model
             (Sample.get_dashboard (Py.lit "2")) (Py.lit "2") 2);
    try reflexivity.
  discriminate.
Qed.

(** ** C3 *)

(** C3, as stated, fails: Ann's summary counts her event of sixty days
    ago, which is outside the thirty days before today; the rows of the
    window sum to 3, the summary says 8. *)
Lemma summary_ignores_window_counterexample :
  exists s rows,
    result (Main.get_employee_summary Sample.without_model 1)
    = Return (Some s)
    /\ result (Main.get_employee_events Sample.without_model 1 30)
       = Return rows
    /\ Store.total_positive s
       <> Store.sum_z (map Store.positive_events rows).
Proof.
  eexists. eexists. split; [reflexivity | ]. split; [reflexivity | ].
  vm_compute. discriminate.
Qed.

(** The rows of the window, for a date the store can compute. *)
Lemma filter_in_window (now : Store.clock) (days d : Z)
    (l : list Store.event_row) :
  Store.date_now_minus now days = Some d ->
  filter (Store.in_window now days) l
  = filter (fun ev => d <=? Store.ev_event_date ev) l.
Proof.
  intros H. apply filter_ext. intros ev. apply in_window_date. exact H.
Qed.

(** C3 (amended): the sums and averages of the summary range over all the
    event rows of the employee, whatever their date (for counts that the
    store adds up exactly, their magnitudes reaching at most 2^53 in all);
    the trailing window of N days selects only the rows of the chart: when
    the store can compute the date d that lies N days before today, they
    are the rows of the employee with [event_date >= d], in date order,
    and they are not aggregated.  (The database has primary keys, and the
    id is one the store can hold.) *)
Theorem summary_aggregates_all_events (w : world) (id days d : Z)
    (e : Store.employee_row) (t : Store.team_row) :
  Py.in_int64 id = true ->
  Store.keys_unique (db w) ->
  In e (Store.employee (db w)) -> Store.e_id e = id ->
  In t (Store.team (db w)) -> Store.t_id t = Store.e_team_id e ->
  Store.events_of (db w) id <> [] ->
  Store.exact_sums
    (map Store.ev_positive_events (Store.events_of (db w) id)) = true ->
  Store.exact_sums
    (map Store.ev_negative_events (Store.events_of (db w) id)) = true ->
  Store.date_now_minus (now w) days = Some d ->
  (exists s,
     result (Main.get_employee_summary w id) = Return (Some s)
     /\ result (Dashboard.get_employee_summary w id) = Return (Some s)
     /\ Store.total_positive s
        = Store.sum_z (map Store.ev_positive_events
                         (Store.events_of (db w) id))
     /\ Store.total_negative s
        = Store.sum_z (map Store.ev_negative_events
                         (Store.events_of (db w) id))
     /\ Store.avg_positive s
        = Store.sql_avg (map Store.ev_positive_events
                           (Store.events_of (db w) id))
     /\ Store.avg_negative s
        = Store.sql_avg (map Store.ev_negative_events
                           (Store.events_of (db w) id)))
  /\ d = Store.today (now w) - days
  /\ (exists rows,
        result (Main.get_employee_events w id days) = Return rows
        /\ Permutation rows
             (Store.read_frame
                (map Store.select_event
                   (filter (fun ev => d <=? Store.ev_event_date ev)
                      (Store.events_of (db w) id))))
        /\ StronglySorted
             (fun a b => Store.event_date a <= Store.event_date b) rows).
Proof.
  intros Hrange Hk He Hid Ht Htid Hev Hp Hn Hd.
  assert (Hq := summary_query_unique (db w) id e t Hk He Hid Ht Htid Hev
                  (exact_sums_fit _ Hp) (exact_sums_fit _ Hn)).
  destruct (date_now_minus_inv (now w) days d Hd) as (Hdays & Ed).
  split; [ | split; [exact Ed | ]].
  - eexists.
    change (Dashboard.get_employee_summary w id)
      with (Main.get_employee_summary w id).
    rewrite (main_get_employee_summary_fetched w id _ Hrange Hq).
    repeat split.
  - assert (Hdr : Py.in_int64 days = true).
    { apply in_int64_iff. unfold Store.last_day in Hdays. lia. }
    eexists. rewrite (main_get_employee_events_eq w id days Hrange Hdr).
    split; [reflexivity | ]. split.
    + rewrite <- (filter_in_window (now w) days d _ Hd).
      apply events_query_perm.
    + apply events_query_sorted.
Qed.

Lemma summary_aggregates_all_events_witness :
  exists s,
    result (Main.get_employee_summary Sample.without_model 1)
    = Return (Some s)
    /\ Store.total_positive s = 8
    /\ Store.avg_positive s = Py.float_of_int 4.
Proof.
  destruct (summary_aggregates_all_events Sample.without_model 1 30 2461319
              Sample.ann Sample.core eq_refl sample_keys_unique
              (or_introl eq_refl) eq_refl (or_introl eq_refl) eq_refl)
    as ((s & Hs & _ & Hp & _ & Ha & _) & _); try reflexivity.
  - discriminate.
  - exists s. split; [exact Hs | ]. rewrite Hp, Ha. split; reflexivity.
Defined.

(** ** C4 *)

(** C4, as stated, fails where 64 bits do not suffice: Ann's two counts of
    positive events add up to 2^63, and the summary statement fails with
    an integer overflow instead of returning totals; her first row has the
    net value 2^63, which the store returns as a float. *)
Lemma summary_overflow_counterexample :
  Store.events_of Sample.big_db 1 <> []
  /\ Main.get_employee_summary Sample.big_world 1
     = ([SqlSummary 1], Raise QueryError)
  /\ exists rows r,
       result (Main.get_employee_events Sample.big_world 1 30) = Return rows
       /\ In r rows
       /\ Store.net_events r
          <> Store.Int (Store.positive_events r - Store.negative_events r).
Proof.
  split; [discriminate | ]. split; [reflexivity | ].
  eexists. eexists. split; [reflexivity | ].
  split; [left; reflexivity | ]. discriminate.
Qed.

(** The rows of the events of an employee, when no difference overflows:
    the net value is an integer, the difference of the two counts. *)
Lemma events_query_net (db : Store.database) (now : Store.clock)
    (id days : Z) (r : Store.events_df_row) :
  (forall ev, In ev (Store.events_of db id) ->
     Py.in_int64 (Store.ev_positive_events ev - Store.ev_negative_events ev)
     = true) ->
  In r (Store.events_query db now id days) ->
  Store.net_events r
  = Store.Int (Store.positive_events r - Store.negative_events r).
Proof.
  intros Hfit Hr.
  apply (Permutation_in _ (events_query_perm db now id days)) in Hr.
  rewrite read_frame_integers in Hr.
  - apply in_map_iff in Hr. destruct Hr as (ev & <- & Hev).
    apply filter_In in Hev. destruct Hev as (Hev & _).
    simpl. unfold Store.sql_sub. rewrite (Hfit ev Hev). reflexivity.
  - intros r0 Hr0. apply in_map_iff in Hr0. destruct Hr0 as (ev & <- & Hev).
    apply filter_In in Hev. destruct Hev as (Hev & _).
    simpl. unfold Store.sql_sub. rewrite (Hfit ev Hev). reflexivity.
Qed.

(** C4 (amended): for an employee with at least one event row (in a
    database with primary keys, where the employee and its team exist, for
    an id of 64 bits), whose positive and whose negative counts the store
    can add up within 64 bits, get_employee_summary returns a summary whose
    total_positive and total_negative are the sums of the two columns over
    exactly the event rows of that employee; and when no difference of the
    two counts of a row of the employee leaves 64 bits, every row returned
    by get_employee_events has net_events = positive_events -
    negative_events. *)
Theorem summary_totals_are_sums (w : world) (id days : Z)
    (e : Store.employee_row) (t : Store.team_row) :
  Py.in_int64 id = true ->
  Py.in_int64 days = true ->
  Store.keys_unique (db w) ->
  In e (Store.employee (db w)) -> Store.e_id e = id ->
  In t (Store.team (db w)) -> Store.t_id t = Store.e_team_id e ->
  Store.events_of (db w) id <> [] ->
  Store.sum_fits
    (map Store.ev_positive_events (Store.events_of (db w) id)) = true ->
  Store.sum_fits
    (map Store.ev_negative_events (Store.events_of (db w) id)) = true ->
  (exists s,
     result (Main.get_employee_summary w id) = Return (Some s)
     /\ result (Dashboard.get_employee_summary w id) = Return (Some s)
     /\ Store.total_positive s
        = Store.sum_z (map Store.ev_positive_events
                         (Store.events_of (db w) id))
     /\ Store.total_negative s
        = Store.sum_z (map Store.ev_negative_events
                         (Store.events_of (db w) id)))
  /\ ((forall ev, In ev (Store.events_of (db w) id) ->
         Py.in_int64 (Store.ev_positive_events ev
                      - Store.ev_negative_events ev) = true) ->
      exists rows,
        result (Main.get_employee_events w id days) = Return rows
        /\ forall r, In r rows ->
             Store.net_events r
             = Store.Int (Store.positive_events r - Store.negative_events r)).
Proof.
  intros Hrange Hdays Hk He Hid Ht Htid Hev Hp Hn.
  assert (Hq := summary_query_unique (db w) id e t Hk He Hid Ht Htid Hev
                  Hp Hn).
  split.
  - eexists.
    change (Dashboard.get_employee_summary w id)
      with (Main.get_employee_summary w id).
    rewrite (main_get_employee_summary_fetched w id _ Hrange Hq).
    repeat split.
  - intros Hfit. eexists.
    rewrite (main_get_employee_events_eq w id days Hrange Hdays).
    split; [reflexivity | ].
    intros r. apply events_query_net. exact Hfit.
Qed.

Lemma summary_totals_are_sums_witness :
  exists s,
    result (Main.get_employee_summary Sample.without_model 1)
    = Return (Some s)
    /\ Store.total_positive s = 8 /\ Store.total_negative s = 3.
Proof.
  destruct (summary_totals_are_sums Sample.without_model 1 30
              Sample.ann Sample.core eq_refl eq_refl sample_keys_unique
              (or_introl eq_refl) eq_refl (or_introl eq_refl) eq_refl)
    as ((s & Hs & _ & Hp & Hn) & _); try reflexivity.
  - discriminate.
  - exists s. split; [exact Hs | ]. rewrite Hp, Hn. split; reflexivity.
Defined.

(** ** C5 *)

(** C5, as stated, fails for an absent summary: nobody has the id 99, the
    model file is there, and the handler returns the "Employee not found"
    fragment, in which no probability is rendered. *)
Lemma absent_summary_renders_not_found_counterexample :
  result (Main.get_employee_summary Sample.with_zero_model 99) = Return None
  /\ Main.employee_dashboard Sample.with_zero_model
       (Sample.get_dashboard (Py.lit "99"))
     = ([SqlSummary 99], Return EmployeeNotFound).
Proof. split; reflexivity. Qed.

(** The handler of dashboard.py when the summary statement returns no
    row. *)
Lemma dashboard_handler_no_summary (w : world) (id : Z) :
  result (Main.get_employee_summary w id) = Return None ->
  result (Dashboard.employee_dashboard w id)
  = Return (if id =? 0 then PleaseSelect else EmployeeNotFound).
Proof.
  unfold Dashboard.employee_dashboard, int_truthy.
  destruct (id =? 0); [reflexivity | ]. cbn [negb].
  change (Dashboard.get_employee_summary w id)
    with (Main.get_employee_summary w id).
  destruct (Main.get_employee_summary w id) as [calls [summary | x]];
    cbn; intros H; inversion H. reflexivity.
Qed.

(** C5 (amended): when the model file is absent or the employee has no
    summary row (the summary statement having returned),
    predict_recruitment_risk returns None without raising, in both front
    ends.  In the Flask application the request then does not fail: with
    the model absent and a summary present (and the dates of the chart
    being dates pandas reads) it renders the dashboard of that summary
    with "N/A" and the "Low" default; with the summary absent it makes the
    summary query only and returns the "Employee not found" fragment,
    which holds no probability.  The FastHTML handler answers an absent
    summary with "Employee not found" too.  For the id 0 all these answers
    are "Please select an employee". *)
Theorem absent_model_or_summary_disables_inference
    (w : world) (req : Main.request) (s : Py.str) (id : Z)
    (summary : option Store.summary_row) :
  Main.args_get (Main.args req) "employee_id" = Some s ->
  Py.int s = Some id ->
  result (Main.get_employee_summary w id) = Return summary ->
  model_file w = None \/ summary = None ->
  result (Main.predict_recruitment_risk w id) = Return None
  /\ result (Dashboard.predict_recruitment_risk w id) = Return None
  /\ match summary with
     | Some present =>
         dates_read w (Store.events_query (db w) (now w) id 30) = true ->
         exists v,
           result (Main.employee_dashboard w req)
           = Return (if id =? 0 then PleaseSelect else DashboardView v)
           /\ v_summary v = present
           /\ v_prob v = NA
           /\ v_risk_level v = "Low" /\ v_risk_color v = "success"
     | None =>
         Main.employee_dashboard w req
         = ([SqlSummary id],
            Return (if id =? 0 then PleaseSelect else EmployeeNotFound))
         /\ result (Dashboard.employee_dashboard w id)
            = Return (if id =? 0 then PleaseSelect else EmployeeNotFound)
     end.
Proof.
  intros Hget Hint Hsum H.
  assert (Hsum' := Hsum).
  apply main_get_employee_summary_returned in Hsum'.
  destruct Hsum' as (Hrange & df & Hq & ->).
  assert (Hp : result (Main.predict_recruitment_risk w id) = Return None).
  { rewrite (main_predict_result w id df Hrange Hq).
    destruct H as [-> | ->]; [reflexivity | ].
    destruct (model_file w); reflexivity. }
  split; [exact Hp | ]. split.
  { rewrite (dashboard_predict_result w id df Hrange Hq).
    destruct H as [-> | ->]; [reflexivity | ].
    destruct (model_file w); reflexivity. }
  assert (P := main_dashboard_parsed w req s id df Hget Hint Hrange Hq).
  destruct (hd_error df) as [present | ] eqn:Hs.
  - intros Hdates.
    destruct (main_chart_result w id 30 Hrange thirty_in_int64 Hdates)
      as (chart_img & Hc & _).
    destruct P as (risk_prob & Hr & P).
    rewrite Hp in Hr. inversion Hr; subst risk_prob.
    rewrite Hc in P.
    eexists. split; [exact P | ]. repeat split.
  - split; [exact P | ].
    apply dashboard_handler_no_summary. exact Hsum.
Qed.

Lemma absent_model_or_summary_disables_inference_witness :
  result (Main.predict_recruitment_risk Sample.without_model 1) = Return None
  /\ exists v,
       result (Main.employee_dashboard Sample.without_model
                 (Sample.get_dashboard (Py.lit "1")))
       = Return (DashboardView v)
       /\ v_prob v = NA.
Proof.
  destruct (absent_model_or_summary_disables_inference Sample.without_model
              (Sample.get_dashboard (Py.lit "1")) (Py.lit "1") 1 _
              eq_refl eq_refl eq_refl (or_introl eq_refl))
    as (Hp & _ & H).
  destruct (H eq_refl) as (v & Hv & _ & Hna & _).
  split; [exact Hp | exists v; split; [exact Hv | exact Hna]].
Defined.

(** ** C6 *)

(** No employee of the table has the id: no summary row. *)
Lemma summary_query_unknown_employee (db : Store.database) (id : Z) :
  (forall e, In e (Store.employee db) -> Store.e_id e <> id) ->
  Store.summary_query db id = Some [].
Proof.
  intros H. unfold Store.summary_query.
  destruct (Store.summary_join db id) as [ | [[e t] ev] l] eqn:E;
    [reflexivity | ].
  assert (Hin : In (e, t, ev) (Store.summary_join db id))
    by (rewrite E; left; reflexivity).
  apply summary_join_in in Hin. destruct Hin as (He & _ & _ & Hid & _).
  destruct (H e He Hid).
Qed.

(** C6, as stated, fails at the id 0: no employee of the sample has it, and
    both handlers answer "Please select an employee" (main.py after the
    summary query, dashboard.py before it), since [0] is falsy. *)
Lemma employee_id_zero_counterexample :
  (forall e, In e (Store.employee Sample.sample_db) -> Store.e_id e <> 0)
  /\ Main.employee_dashboard Sample.without_model
       (Sample.get_dashboard (Py.lit "0"))
     = ([SqlSummary 0], Return PleaseSelect)
  /\ Dashboard.employee_dashboard Sample.without_model 0
     = ([], Return PleaseSelect).
Proof.
  split; [ | split; reflexivity].
  intros e [<- | [<- | []]]; discriminate.
Qed.

(** C6 (amended): for every employee_id other than 0, within the 64 bits
    of the store, that no employee of the database has, the handler returns the "Employee not found"
    fragment without raising, and the summary query is the only call it
    makes: no notes query, no model file, no inference, no chart. *)
Theorem unknown_employee_not_found
    (w : world) (req : Main.request) (s : Py.str) (id : Z) :
  Main.args_get (Main.args req) "employee_id" = Some s ->
  Py.int s = Some id ->
  Py.in_int64 id = true ->
  id <> 0 ->
  (forall e, In e (Store.employee (db w)) -> Store.e_id e <> id) ->
  Main.employee_dashboard w req = ([SqlSummary id], Return EmployeeNotFound)
  /\ Dashboard.employee_dashboard w id
     = ([SqlSummary id], Return EmployeeNotFound).
Proof.
  intros Hget Hint Hrange Hid Hno.
  assert (Hs := summary_query_unknown_employee (db w) id Hno).
  split.
  - assert (P := main_dashboard_parsed w req s id [] Hget Hint Hrange Hs).
    simpl in P. rewrite P.
    destruct (Z.eqb_spec id 0); [contradiction | reflexivity].
  - unfold Dashboard.employee_dashboard, int_truthy.
    destruct (Z.eqb_spec id 0); [contradiction | ].
    change (Dashboard.get_employee_summary w id)
      with (Main.get_employee_summary w id).
    rewrite (main_get_employee_summary_fetched w id [] Hrange Hs).
    reflexivity.
Qed.

Lemma unknown_employee_not_found_witness :
  Main.employee_dashboard Sample.without_model
    (Sample.get_dashboard (Py.lit "99"))
  = ([SqlSummary 99], Return EmployeeNotFound)
  /\ Dashboard.employee_dashboard Sample.without_model 99
     = ([SqlSummary 99], Return EmployeeNotFound).
Proof.
  apply (unknown_employee_not_found Sample.without_model
           (Sample.get_dashboard (Py.lit "99")) (Py.lit "99") 99
           eq_refl eq_refl eq_refl).
  - discriminate.
  - intros e [<- | [<- | []]]; discriminate.
Defined.

(** ** C7 *)

(** The handler of main.py returns when the store and pandas can answer
    the request: the id is a 64-bit integer, the summary statement does
    not fail, and the dates of the events of the last thirty days are
    dates pandas reads. *)
Lemma main_dashboard_returns (w : world) (req : Main.request) :
  (forall s id,
     Main.args_get (Main.args req) "employee_id" = Some s ->
     Py.int s = Some id ->
     Py.in_int64 id = true
     /\ Store.summary_query (db w) id <> None
     /\ dates_read w (Store.events_query (db w) (now w) id 30) = true) ->
  exists f, result (Main.employee_dashboard w req) = Return f.
Proof.
  intros Hrange.
  destruct (Main.args_get (Main.args req) "employee_id") as [s | ] eqn:Hget.
  - destruct (Py.int s) as [id | ] eqn:Hint.
    + destruct (Hrange s id eq_refl Hint) as (Hr & Hq & Hdates).
      destruct (Store.summary_query (db w) id) as [df | ] eqn:E;
        [ | congruence].
      assert (P := main_dashboard_parsed w req s id df Hget Hint Hr E).
      destruct (hd_error df).
      * destruct (main_chart_result w id 30 Hr thirty_in_int64 Hdates)
          as (chart_img & Hc & _).
        destruct P as (? & _ & P). rewrite Hc in P. eexists. exact P.
      * eexists. rewrite P. reflexivity.
    + unfold Main.employee_dashboard. rewrite Hget. simpl. rewrite Hint.
      destruct (Py.str_truthy s); eexists; reflexivity.
  - unfold Main.employee_dashboard. rewrite Hget. eexists. reflexivity.
Qed.

(** C7, as stated, fails: the Flask route is registered without [methods]
    and refuses a POST with 405; the FastHTML route is registered with
    [app.post] and refuses a GET. *)
Lemma post_refused_by_flask_counterexample :
  Main.serve Sample.without_model (Sample.post_dashboard (Py.lit "1"))
  = ([], Main.Status 405)
  /\ dispatch Dashboard.routes GET "/employee_dashboard"
     = MethodNotAllowed405.
Proof. split; reflexivity. Qed.

(** C7 (amended): each front end accepts one of the two methods on
    /employee_dashboard.  The Flask application dispatches a GET to the
    handler and answers it with a fragment (the employee_id, if it is an
    integer, being one the store can hold, for which the summary statement
    does not fail and whose recent events have dates pandas reads), and
    refuses a POST (405); the FastHTML application dispatches a POST to
    the handler and refuses a GET (405). *)
Theorem one_method_per_front_end
    (w : world) (args : list (string * Py.str)) :
  (forall s id,
     Main.args_get args "employee_id" = Some s ->
     Py.int s = Some id ->
     Py.in_int64 id = true
     /\ Store.summary_query (db w) id <> None
     /\ dates_read w (Store.events_query (db w) (now w) id 30) = true) ->
  dispatch Main.routes GET "/employee_dashboard" = Endpoint EmployeeDashboard
  /\ dispatch Main.routes POST "/employee_dashboard" = MethodNotAllowed405
  /\ dispatch Dashboard.routes POST "/employee_dashboard"
     = Endpoint EmployeeDashboard
  /\ dispatch Dashboard.routes GET "/employee_dashboard"
     = MethodNotAllowed405
  /\ (exists calls f,
        Main.serve w {| Main.method := GET;
                        Main.path := "/employee_dashboard";
                        Main.args := args |}
        = (calls, Main.Fragment f))
  /\ Main.serve w {| Main.method := POST;
                     Main.path := "/employee_dashboard";
                     Main.args := args |}
     = ([], Main.Status 405).
Proof.
  intros Hrange.
  repeat (split; [reflexivity | ]).
  split; [ | reflexivity].
  unfold Main.serve. simpl dispatch. cbv iota.
  simpl Main.method. cbv iota.
  destruct (main_dashboard_returns w
              {| Main.method := GET; Main.path := "/employee_dashboard";
                 Main.args := args |} Hrange) as (f & Hf).
  destruct (Main.employee_dashboard w _) as [calls r].
  simpl in Hf. subst r. exists calls, f. reflexivity.
Qed.

Lemma one_method_per_front_end_witness :
  exists calls f,
    Main.serve Sample.without_model (Sample.get_dashboard (Py.lit "1"))
    = (calls, Main.Fragment f).
Proof.
  refine (proj1 (proj2 (proj2 (proj2 (proj2
            (one_method_per_front_end Sample.without_model
               [("employee_id", Py.lit "1")] _)))))).
  intros s id Hs Hid. inversion Hs; subst s. inversion Hid.
  split; [reflexivity | split; [discriminate | reflexivity]].
Defined.

(** ** C8 *)

(** C8: when the model predicts exactly 0.0 for an employee, the dashboard
    of main.py shows "N/A" for the probability and the "Low" tier, and the
    answer to the request is the one given without a model file: the
    probability is tested for truth, not compared with None.  (The
    dashboard is rendered when pandas reads the dates of the chart; the
    request fails with its ValueError otherwise, with or without a
    model.) *)
Theorem zero_probability_shown_as_na
    (w : world) (req : Main.request) (s : Py.str) (id : Z)
    (summary : Store.summary_row) (m : model) :
  Main.args_get (Main.args req) "employee_id" = Some s ->
  Py.int s = Some id ->
  id <> 0 ->
  result (Main.get_employee_summary w id) = Return (Some summary) ->
  model_file w = Some m ->
  predict_proba m (Store.total_positive summary)
                  (Store.total_negative summary) = Py.f_zero ->
  result (Main.predict_recruitment_risk w id) = Return (Some Py.f_zero)
  /\ render_prob (Some Py.f_zero) = NA
  /\ risk_level (Some Py.f_zero) = "Low"
  /\ (if dates_read w (Store.events_query (db w) (now w) id 30) then
        exists v,
          result (Main.employee_dashboard w req) = Return (DashboardView v)
          /\ v_prob v = NA /\ v_risk_level v = "Low"
      else result (Main.employee_dashboard w req) = Raise ValueError)
  /\ result (Main.employee_dashboard w req)
     = result (Main.employee_dashboard
                 {| db := db w; model_file := None; now := now w;
                    timestamp := timestamp w |} req).
Proof.
  intros Hget Hint Hid Hsum Hm Hzero.
  apply main_get_employee_summary_returned in Hsum.
  destruct Hsum as (Hrange & df & Hq & Hs). symmetry in Hs.
  assert (Hp : result (Main.predict_recruitment_risk w id)
               = Return (Some Py.f_zero)).
  { rewrite (main_predict_result w id df Hrange Hq), Hm, Hs, Hzero.
    reflexivity. }
  split; [exact Hp | ]. split; [reflexivity | ]. split; [reflexivity | ].
  assert (P := main_dashboard_parsed w req s id df Hget Hint Hrange Hq).
  rewrite Hs in P. destruct P as (risk_prob & Hr & P).
  rewrite Hp in Hr. inversion Hr; subst risk_prob.
  destruct (Z.eqb_spec id 0); [contradiction | ].
  split.
  - destruct (dates_read w (Store.events_query (db w) (now w) id 30))
      eqn:Hdates.
    + destruct (main_chart_result w id 30 Hrange thirty_in_int64 Hdates)
        as (chart_img & Hc & _).
      rewrite Hc in P.
      eexists. split; [exact P | ]. split; reflexivity.
    + rewrite (main_chart_refused w id 30 Hrange thirty_in_int64 Hdates)
        in P.
      exact P.
  - set (w0 := {| db := db w; model_file := None; now := now w;
                  timestamp := timestamp w |}).
    assert (P0 := main_dashboard_parsed w0 req s id df Hget Hint Hrange Hq).
    rewrite Hs in P0.
    destruct P0 as (risk_prob0 & Hr0 & P0).
    rewrite (main_predict_result w0 id df Hrange Hq) in Hr0. simpl in Hr0.
    inversion Hr0; subst risk_prob0.
    assert (Ec : Main.create_performance_chart w0 id 30
                 = Main.create_performance_chart w id 30).
    { rewrite !(main_chart_value _ id 30 Hrange thirty_in_int64).
      reflexivity. }
    destruct (Z.eqb_spec id 0); [contradiction | ].
    rewrite P, P0, Ec. reflexivity.
Qed.

Lemma zero_probability_shown_as_na_witness :
  exists v,
    result (Main.employee_dashboard Sample.with_zero_model
              (Sample.get_dashboard (Py.lit "1"))) = Return (DashboardView v)
    /\ v_prob v = NA /\ v_risk_level v = "Low".
Proof.
  refine (proj1 (proj2 (proj2 (proj2
            (zero_probability_shown_as_na Sample.with_zero_model
               (Sample.get_dashboard (Py.lit "1")) (Py.lit "1") 1 _
               Sample.zero_model
               eq_refl eq_refl _ eq_refl eq_refl eq_refl))))).
  discriminate.
Defined.

(** ** C9 *)

(** C9: in the Flask front end a request whose employee_id is there but is
    not an integer is answered as the request without employee_id is: the
    ValueError is caught, the "Please select an employee" fragment is
    returned, nothing is raised and no query is sent to the database. *)
Theorem unparsable_id_like_missing_id
    (w : world) (req : Main.request) (s : Py.str) :
  Main.args_get (Main.args req) "employee_id" = Some s ->
  Py.int s = None ->
  Main.employee_dashboard w req = ([], Return PleaseSelect)
  /\ Main.employee_dashboard w req
     = Main.employee_dashboard w
         {| Main.method := Main.method req; Main.path := Main.path req;
            Main.args := [] |}.
Proof.
  intros Hget Hint. unfold Main.employee_dashboard.
  rewrite Hget. simpl. rewrite Hint.
  destruct (Py.str_truthy s); split; reflexivity.
Qed.

Lemma unparsable_id_like_missing_id_witness :
  Main.employee_dashboard Sample.without_model
    (Sample.get_dashboard (Py.lit "abc"))
  = ([], Return PleaseSelect).
Proof.
  exact (proj1 (unparsable_id_like_missing_id Sample.without_model
                  (Sample.get_dashboard (Py.lit "abc")) (Py.lit "abc")
                  eq_refl eq_refl)).
Defined.

(** ** C10 *)

(** C10: the dashboard shows the first five notes, at most, of the list
    get_employee_notes returns; that list holds the notes of the employee
    by created_at descending, so no note left out is more recent than a
    note shown. *)
Theorem dashboard_shows_five_latest_notes
    (w : world) (req : Main.request) (s : Py.str) (id : Z)
    (v : dashboard_view) :
  Main.args_get (Main.args req) "employee_id" = Some s ->
  Py.int s = Some id ->
  result (Main.employee_dashboard w req) = Return (DashboardView v) ->
  exists notes,
    result (Main.get_employee_notes w id) = Return notes
    /\ notes_shown (v_notes v) = firstn 5 notes
    /\ (List.length (notes_shown (v_notes v)) <= 5)%nat
    /\ StronglySorted
         (fun a b => Store.created_at b <= Store.created_at a) notes
    /\ Permutation notes
         (map Store.select_note
            (filter (fun n => Store.n_employee_id n =? id)
               (Store.notes (db w))))
    /\ forall a b,
         In a (notes_shown (v_notes v)) -> In b (skipn 5 notes) ->
         Store.created_at b <= Store.created_at a.
Proof.
  intros Hget Hint Hv.
  destruct (main_dashboard_returned w req s id _ Hget Hint Hv)
    as (Hrange & df & Hq).
  assert (P := main_dashboard_parsed w req s id df Hget Hint Hrange Hq).
  destruct (hd_error df) as [summary | ].
  - destruct P as (risk_prob & _ & P).
    rewrite P in Hv.
    destruct (result (Main.create_performance_chart w id 30))
      as [chart_img | x]; [ | discriminate].
    destruct (id =? 0); [discriminate | ].
    inversion Hv; subst v. clear Hv. simpl v_notes.
    exists (Store.notes_query (db w) id).
    rewrite notes_shown_render, (main_get_employee_notes_eq w id Hrange).
    split; [reflexivity | ]. split; [reflexivity | ].
    split; [apply firstn_le_length | ].
    split; [apply notes_query_sorted | ].
    split; [apply notes_query_perm | ].
    intros a b Ha Hb.
    exact (sorted_firstn_skipn _ 5 _ (notes_query_sorted (db w) id) a b Ha Hb).
  - rewrite P in Hv. simpl in Hv. destruct (id =? 0); discriminate.
Qed.

Lemma dashboard_shows_five_latest_notes_witness :
  exists notes,
    result (Main.get_employee_notes Sample.without_model 1) = Return notes
    /\ List.length notes = 7%nat
    /\ forall a b,
         In a (firstn 5 notes) -> In b (skipn 5 notes) ->
         Store.created_at b <= Store.created_at a.
Proof.
  assert (Hf : result (Main.employee_dashboard Sample.without_model
                         (Sample.get_dashboard (Py.lit "1")))
               = Return
                   (match result (Main.employee_dashboard
                                    Sample.without_model
                                    (Sample.get_dashboard (Py.lit "1"))) with
                    | Return f => f
                    | Raise _ => PleaseSelect
                    end)) by reflexivity.
  destruct (match result (Main.employee_dashboard Sample.without_model
                            (Sample.get_dashboard (Py.lit "1"))) with
            | Return f => f
            | Raise _ => PleaseSelect
            end) as [ | | v] eqn:Ef; try discriminate Ef.
  destruct (dashboard_shows_five_latest_notes Sample.without_model
              (Sample.get_dashboard (Py.lit "1")) (Py.lit "1") 1 v
              eq_refl eq_refl Hf)
    as (notes & Hn & Hshown & _ & _ & _ & Hdom).
  exists notes. split; [exact Hn | ].
  split; [inversion Hn; reflexivity | ].
  rewrite <- Hshown. exact Hdom.
Defined.

(* ================================================================== *)
(** * Further properties *)
(* ================================================================== *)

(** ** The panels of the dashboard *)

(** The view of a request that ended in a dashboard. *)
Lemma main_dashboard_view (w : world) (req : Main.request) s id v :
  Main.args_get (Main.args req) "employee_id" = Some s ->
  Py.int s = Some id ->
  result (Main.employee_dashboard w req) = Return (DashboardView v) ->
  Py.in_int64 id = true
  /\ id <> 0
  /\ result (Main.get_employee_summary w id) = Return (Some (v_summary v))
  /\ v_notes v = render_notes (Store.notes_query (db w) id)
  /\ (exists chart_img,
        result (Main.create_performance_chart w id 30) = Return chart_img
        /\ v_chart v = render_chart chart_img)
  /\ (exists risk_prob,
        result (Main.predict_recruitment_risk w id) = Return risk_prob
        /\ v_prob v = render_prob risk_prob
        /\ v_risk_level v = risk_level risk_prob
        /\ v_risk_color v = risk_color risk_prob).
Proof.
  intros Hget Hint Hv.
  destruct (main_dashboard_returned w req s id _ Hget Hint Hv)
    as (Hrange & df & Hq).
  assert (P := main_dashboard_parsed w req s id df Hget Hint Hrange Hq).
  rewrite (main_get_employee_summary_fetched w id df Hrange Hq).
  destruct (hd_error df) as [summary | ].
  - destruct P as (risk_prob & Hr & P).
    rewrite P in Hv.
    destruct (result (Main.create_performance_chart w id 30))
      as [chart_img | x]; [ | discriminate].
    destruct (Z.eqb_spec id 0); [discriminate | ].
    inversion Hv; subst v. simpl.
    repeat split; try assumption; try reflexivity.
    + exists chart_img. split; reflexivity.
    + exists risk_prob. repeat split. exact Hr.
  - rewrite P in Hv. simpl in Hv. destruct (id =? 0); discriminate.
Qed.

(** The chart panel: "No chart data available" exactly when the employee
    has no event in the last thirty days; otherwise the figure plots the
    events of the window, and only them, in date order. *)
Theorem dashboard_chart_panel
    (w : world) (req : Main.request) (s : Py.str) (id : Z)
    (v : dashboard_view) :
  Main.args_get (Main.args req) "employee_id" = Some s ->
  Py.int s = Some id ->
  result (Main.employee_dashboard w req) = Return (DashboardView v) ->
  match v_chart v with
  | NoChartData =>
      filter (Store.in_window (now w) 30) (Store.events_of (db w) id) = []
  | ChartImage img =>
      last_days img = 30
      /\ plotted img <> []
      /\ Permutation (plotted img)
           (Store.read_frame
              (map Store.select_event
                 (filter (Store.in_window (now w) 30)
                    (Store.events_of (db w) id))))
      /\ StronglySorted
           (fun a b => Store.event_date a <= Store.event_date b)
           (plotted img)
  end.
Proof.
  intros Hget Hint Hv.
  destruct (main_dashboard_view w req s id v Hget Hint Hv)
    as (Hrange & _ & _ & _ & (chart_img & Hc & Hchart) & _).
  rewrite Hchart.
  rewrite (main_chart_value w id 30 Hrange thirty_in_int64) in Hc.
  destruct (Store.events_query (db w) (now w) id 30) as [ | r rows] eqn:E.
  - inversion Hc; subst chart_img. simpl.
    apply events_query_nil_iff. exact E.
  - destruct (dates_read w (r :: rows)); [ | discriminate Hc].
    inversion Hc; subst chart_img. simpl.
    split; [reflexivity | ]. split; [discriminate | ].
    rewrite <- E. split; [apply events_query_perm | apply events_query_sorted].
Qed.

Lemma dashboard_chart_panel_witness :
  exists img,
    last_days img = 30
    /\ Permutation (plotted img)
         (Store.read_frame
            (map Store.select_event
               (filter (Store.in_window Sample.afternoon 30)
                  (Store.events_of Sample.sample_db 1)))).
Proof.
  assert (H := dashboard_chart_panel Sample.without_model
                 (Sample.get_dashboard (Py.lit "1")) (Py.lit "1") 1 _
                 eq_refl eq_refl eq_refl).
  simpl v_chart in H. cbv iota in H. eexists.
  split; [exact (proj1 H) | exact (proj1 (proj2 (proj2 H)))].
Defined.

(** The notes panel: "No notes available" exactly when the notes table has
    no row of the employee. *)
Theorem dashboard_notes_panel
    (w : world) (req : Main.request) (s : Py.str) (id : Z)
    (v : dashboard_view) :
  Main.args_get (Main.args req) "employee_id" = Some s ->
  Py.int s = Some id ->
  result (Main.employee_dashboard w req) = Return (DashboardView v) ->
  match v_notes v with
  | NoNotes =>
      filter (fun n => Store.n_employee_id n =? id) (Store.notes (db w)) = []
  | NotesList shown =>
      shown <> []
      /\ forall x, In x shown ->
           exists n, In n (Store.notes (db w))
                     /\ Store.n_employee_id n = id
                     /\ x = Store.select_note n
  end.
Proof.
  intros Hget Hint Hv.
  destruct (main_dashboard_view w req s id v Hget Hint Hv)
    as (_ & _ & _ & Hnotes & _).
  rewrite Hnotes.
  assert (P := notes_query_perm (db w) id).
  destruct (Store.notes_query (db w) id) as [ | x l] eqn:E.
  - simpl. apply Permutation_nil in P. apply map_eq_nil in P. exact P.
  - unfold render_notes. split.
    + simpl. discriminate.
    + intros y Hy.
      assert (Hy' : In y (x :: l)).
      { rewrite <- (firstn_skipn 5 (x :: l)). apply in_or_app. left.
        exact Hy. }
      apply (Permutation_in _ P) in Hy'. rename Hy' into Hy0. clear Hy.
      rename Hy0 into Hy. apply in_map_iff in Hy.
      destruct Hy as (n & <- & Hn). apply filter_In in Hn.
      destruct Hn as (Hn & Hid). apply Z.eqb_eq in Hid.
      exists n. repeat split; assumption.
Qed.

Lemma dashboard_notes_panel_witness :
  exists shown,
    shown <> []
    /\ forall x, In x shown ->
         exists n, In n (Store.notes Sample.sample_db)
                   /\ Store.n_employee_id n = 1
                   /\ x = Store.select_note n.
Proof.
  assert (H := dashboard_notes_panel Sample.without_model
                 (Sample.get_dashboard (Py.lit "1")) (Py.lit "1") 1 _
                 eq_refl eq_refl eq_refl).
  simpl v_notes in H. cbv iota in H. eexists. exact H.
Defined.

(** ** The calls of a request *)

(** predict_recruitment_risk of main.py with its calls. *)
Lemma main_predict_value (w : world) (id : Z) df :
  Py.in_int64 id = true ->
  Store.summary_query (db w) id = Some df ->
  Main.predict_recruitment_risk w id
  = match model_file w with
    | None => ([OpenModel], Return None)
    | Some m =>
        match hd_error df with
        | None => ([OpenModel; SqlSummary id], Return None)
        | Some s =>
            ([OpenModel; SqlSummary id;
              PredictProba (Store.total_positive s) (Store.total_negative s)],
             Return (Some (predict_proba m (Store.total_positive s)
                                           (Store.total_negative s))))
        end
    end.
Proof.
  intros H E. unfold Main.predict_recruitment_risk, Main.load_model.
  destruct (model_file w) as [m | ]; simpl; [ | reflexivity].
  rewrite (main_get_employee_summary_fetched w id df H E).
  destruct (hd_error df); reflexivity.
Qed.

(** The calls of a request that finds a summary, in order: the summary,
    the notes, the model file (opened at every request), with a model the
    summary a second time and the inference, the events of the chart, and
    the figure when there are events to plot and pandas reads their
    dates. *)
Theorem dashboard_request_calls
    (w : world) (req : Main.request) (s : Py.str) (id : Z)
    (summary : Store.summary_row) :
  Main.args_get (Main.args req) "employee_id" = Some s ->
  Py.int s = Some id ->
  result (Main.get_employee_summary w id) = Return (Some summary) ->
  trace (Main.employee_dashboard w req)
  = [SqlSummary id; SqlNotes id; OpenModel]
    ++ match model_file w with
       | Some _ =>
           [SqlSummary id;
            PredictProba (Store.total_positive summary)
                         (Store.total_negative summary)]
       | None => []
       end
    ++ SqlEvents id 30
       :: match Store.events_query (db w) (now w) id 30 with
          | [] => []
          | r :: rows => if dates_read w (r :: rows) then [Savefig] else []
          end.
Proof.
  intros Hget Hint Hsum.
  apply main_get_employee_summary_returned in Hsum.
  destruct Hsum as (Hrange & df & Hq & Hs). symmetry in Hs.
  rewrite (main_dashboard_unfold w req s id Hget Hint).
  rewrite (main_get_employee_summary_fetched w id df Hrange Hq), Hs.
  cbn [Eff.bind].
  rewrite (main_get_employee_notes_eq w id Hrange). cbn [Eff.bind].
  rewrite (main_predict_value w id df Hrange Hq), Hs.
  rewrite (main_chart_value w id 30 Hrange thirty_in_int64).
  unfold Main.render_template_string.
  destruct (model_file w) as [m | ];
    destruct (Store.events_query (db w) (now w) id 30) as [ | r rows];
    try destruct (dates_read w (r :: rows));
    cbn [Eff.bind]; try reflexivity;
    destruct (risk_assessment _) as [lvl col];
    cbn [Main.ctx_employee_id Main.ctx_summary];
    destruct (Main.not_employee_id (Some id)); reflexivity.
Qed.

Lemma dashboard_request_calls_witness :
  trace (Main.employee_dashboard Sample.with_zero_model
           (Sample.get_dashboard (Py.lit "1")))
  = [SqlSummary 1; SqlNotes 1; OpenModel; SqlSummary 1; PredictProba 8 3;
     SqlEvents 1 30; Savefig].
Proof.
  exact (dashboard_request_calls Sample.with_zero_model
           (Sample.get_dashboard (Py.lit "1")) (Py.lit "1") 1 _
           eq_refl eq_refl eq_refl).
Defined.

(** The features of the inference are the sums of all the events of the
    employee: with a model, and for counts that the store can add up
    within 64 bits, the probability is the answer of the model to these
    two sums. *)
Theorem risk_is_model_of_event_totals
    (w : world) (id : Z) (e : Store.employee_row) (t : Store.team_row)
    (m : model) :
  Py.in_int64 id = true ->
  Store.keys_unique (db w) ->
  In e (Store.employee (db w)) -> Store.e_id e = id ->
  In t (Store.team (db w)) -> Store.t_id t = Store.e_team_id e ->
  Store.events_of (db w) id <> [] ->
  Store.sum_fits
    (map Store.ev_positive_events (Store.events_of (db w) id)) = true ->
  Store.sum_fits
    (map Store.ev_negative_events (Store.events_of (db w) id)) = true ->
  model_file w = Some m ->
  result (Main.predict_recruitment_risk w id)
  = Return
      (Some (predict_proba m
               (Store.sum_z (map Store.ev_positive_events
                               (Store.events_of (db w) id)))
               (Store.sum_z (map Store.ev_negative_events
                               (Store.events_of (db w) id))))).
Proof.
  intros Hrange Hk He Hid Ht Htid Hev Hp Hn Hm.
  rewrite (main_predict_value w id _ Hrange
             (summary_query_unique (db w) id e t Hk He Hid Ht Htid Hev
                Hp Hn)), Hm.
  reflexivity.
Qed.

Lemma risk_is_model_of_event_totals_witness :
  result (Main.predict_recruitment_risk Sample.with_zero_model 1)
  = Return (Some (predict_proba Sample.zero_model 8 3)).
Proof.
  refine (risk_is_model_of_event_totals Sample.with_zero_model 1
            Sample.ann Sample.core Sample.zero_model eq_refl
            sample_keys_unique (or_introl eq_refl) eq_refl
            (or_introl eq_refl) eq_refl _ eq_refl eq_refl eq_refl).
  discriminate.
Defined.

(** ** The handler of dashboard.py *)

(** Every outcome of the handler of dashboard.py: the id 0 is answered
    before any query; an id outside 64 bits fails at the summary query, and
    so does a summary statement that overflows; without a summary the
    answer is "Employee not found"; and with a summary the test
    [if not summary] raises on the truth value of the [Series], so that no
    dashboard is ever returned. *)
Theorem fasthtml_dashboard_outcomes (w : world) (employee_id : Z) :
  Dashboard.employee_dashboard w employee_id
  = if employee_id =? 0 then ([], Return PleaseSelect)
    else if Py.in_int64 employee_id then
      match Store.summary_query (db w) employee_id with
      | Some [] => ([SqlSummary employee_id], Return EmployeeNotFound)
      | Some (_ :: _) => ([SqlSummary employee_id], Raise ValueError)
      | None => ([SqlSummary employee_id], Raise QueryError)
      end
    else ([], Raise QueryError).
Proof.
  unfold Dashboard.employee_dashboard, int_truthy.
  destruct (employee_id =? 0); [reflexivity | ]. cbn [negb].
  change (Dashboard.get_employee_summary w employee_id)
    with (Main.get_employee_summary w employee_id).
  destruct (Py.in_int64 employee_id) eqn:H.
  - rewrite (main_get_employee_summary_eq w employee_id H).
    destruct (Store.summary_query (db w) employee_id) as [[ | r df] | ];
      reflexivity.
  - rewrite (main_get_employee_summary_overflow w employee_id H).
    reflexivity.
Qed.

(** ** The risk panel *)

(** Level and colour go together, "N/A" is never shown with another level
    than "Low", and a NaN is "Low" although it is printed as a
    percentage. *)
Theorem risk_panel_consistent (risk_prob : option Py.float) :
  In (risk_assessment risk_prob)
     [("High", "danger"); ("Medium", "warning"); ("Low", "success")]
  /\ match render_prob risk_prob with
     | NA => risk_assessment risk_prob = ("Low", "success")
     | Percent p => risk_prob = Some p
     end
  /\ risk_assessment (Some S754_nan) = ("Low", "success")
  /\ render_prob (Some S754_nan) = Percent S754_nan.
Proof.
  split; [ | split; [ | split; reflexivity]].
  - unfold risk_assessment.
    destruct (Py.opt_float_truthy risk_prob); [ | simpl; tauto].
    destruct risk_prob as [p | ]; [ | simpl; tauto].
    destruct (Py.float_gt p Py.f_0_7); [simpl; tauto | ].
    destruct (Py.float_gt p Py.f_0_4); simpl; tauto.
  - unfold render_prob, risk_assessment, Py.opt_float_truthy.
    destruct risk_prob as [p | ]; [ | reflexivity].
    destruct (Py.float_truthy p); reflexivity.
Qed.

(** ** The id 0 and the ids the store cannot hold *)

(** A request for the id 0 is never answered with a dashboard, whatever
    the database holds, an employee 0 with events included: dashboard.py
    answers "Please select an employee" before any query, and so does the
    template of main.py, after main.py has gathered the whole dashboard;
    that request fails only where gathering it fails, on an overflow of
    the summary statement or on a date of the chart that pandas does not
    read. *)
Theorem employee_id_zero_never_a_dashboard
    (w : world) (req : Main.request) (s : Py.str) :
  Main.args_get (Main.args req) "employee_id" = Some s ->
  Py.int s = Some 0 ->
  result (Main.employee_dashboard w req)
  = match Store.summary_query (db w) 0 with
    | None => Raise QueryError
    | Some [] => Return PleaseSelect
    | Some (_ :: _) =>
        if dates_read w (Store.events_query (db w) (now w) 0 30)
        then Return PleaseSelect
        else Raise ValueError
    end
  /\ Dashboard.employee_dashboard w 0 = ([], Return PleaseSelect).
Proof.
  intros Hget Hint. split; [ | reflexivity].
  destruct (Store.summary_query (db w) 0) as [df | ] eqn:E.
  - assert (P := main_dashboard_parsed w req s 0 df Hget Hint eq_refl E).
    destruct df as [ | summary df]; cbn [hd_error] in P.
    + rewrite P. reflexivity.
    + destruct P as (? & _ & P). rewrite P.
      destruct (dates_read w (Store.events_query (db w) (now w) 0 30))
        eqn:Hdates.
      * destruct (main_chart_result w 0 30 eq_refl thirty_in_int64 Hdates)
          as (chart_img & -> & _).
        reflexivity.
      * rewrite (main_chart_refused w 0 30 eq_refl thirty_in_int64 Hdates).
        reflexivity.
  - rewrite (main_dashboard_failed w req s 0 Hget Hint eq_refl E).
    reflexivity.
Qed.

Lemma employee_id_zero_never_a_dashboard_witness :
  (exists s, Store.summary_query SampleZero.zero_db 0 = Some [s])
  /\ result (Main.employee_dashboard SampleZero.zero_world
               (Sample.get_dashboard (Py.lit "0"))) = Return PleaseSelect.
Proof.
  split; [eexists; reflexivity | ].
  exact (proj1 (employee_id_zero_never_a_dashboard SampleZero.zero_world
                  (Sample.get_dashboard (Py.lit "0")) (Py.lit "0")
                  eq_refl eq_refl)).
Defined.

(** An employee_id that is an integer outside 64 bits makes the request
    fail: the driver refuses the parameter of the first statement, nothing
    is sent to the store, and the exception is not caught. *)
Theorem out_of_range_id_fails
    (w : world) (req : Main.request) (s : Py.str) (id : Z) :
  Main.args_get (Main.args req) "employee_id" = Some s ->
  Py.int s = Some id ->
  Py.in_int64 id = false ->
  Main.employee_dashboard w req = ([], Raise QueryError)
  /\ Dashboard.employee_dashboard w id = ([], Raise QueryError).
Proof.
  intros Hget Hint H. split.
  - rewrite (main_dashboard_unfold w req s id Hget Hint).
    rewrite (main_get_employee_summary_overflow w id H). reflexivity.
  - unfold Dashboard.employee_dashboard, int_truthy.
    destruct (Z.eqb_spec id 0) as [-> | _]; [discriminate H | ].
    cbn [negb].
    change (Dashboard.get_employee_summary w id)
      with (Main.get_employee_summary w id).
    rewrite (main_get_employee_summary_overflow w id H). reflexivity.
Qed.

Lemma out_of_range_id_fails_witness :
  Main.employee_dashboard Sample.without_model
    (Sample.get_dashboard (Py.lit "9223372036854775808"))
  = ([], Raise QueryError).
Proof.
  exact (proj1 (out_of_range_id_fails Sample.without_model
                  (Sample.get_dashboard (Py.lit "9223372036854775808"))
                  (Py.lit "9223372036854775808") 9223372036854775808
                  eq_refl eq_refl eq_refl)).
Defined.

(** ** Routing *)

(** A request of the Flask application with a method other than GET and
    HEAD is answered without a call to the store or to the model: by 405,
    by the automatic answer to OPTIONS, or, for a path without a rule of
    main.py, by the framework. *)
Theorem other_methods_touch_nothing (w : world) (req : Main.request) :
  Main.method req <> GET ->
  Main.method req <> HEAD ->
  fst (Main.serve w req) = []
  /\ (snd (Main.serve w req) = Main.LeftToFramework
      \/ snd (Main.serve w req) = Main.Status 405
      \/ snd (Main.serve w req) = Main.AutomaticOptions).
Proof.
  intros Hget Hhead. unfold Main.serve.
  destruct (Main.method req) eqn:M; try contradiction;
    destruct (dispatch Main.routes _ (Main.path req)) eqn:D;
    try (simpl; tauto);
    unfold Main.routes, Main.route in D;
    cbn [dispatch r_path r_methods r_endpoint existsb http_method_eqb orb]
      in D;
    destruct (String.eqb "/" (Main.path req));
    destruct (String.eqb "/employee_dashboard" (Main.path req));
    discriminate D.
Qed.

Lemma other_methods_touch_nothing_witness :
  fst (Main.serve Sample.without_model (Sample.post_dashboard (Py.lit "1")))
  = [].
Proof.
  refine (proj1 (other_methods_touch_nothing Sample.without_model
                   (Sample.post_dashboard (Py.lit "1")) _ _)); discriminate.
Defined.

(** predict_recruitment_risk of dashboard.py never returns a probability:
    it returns None without a model file or without a summary, and with
    both it raises at [if not summary], before the model is asked. *)
Theorem fasthtml_predict_outcomes (w : world) (employee_id : Z) :
  Dashboard.predict_recruitment_risk w employee_id
  = match model_file w with
    | None => ([OpenModel], Return None)
    | Some _ =>
        if Py.in_int64 employee_id then
          match Store.summary_query (db w) employee_id with
          | Some [] => ([OpenModel; SqlSummary employee_id], Return None)
          | Some (_ :: _) =>
              ([OpenModel; SqlSummary employee_id], Raise ValueError)
          | None => ([OpenModel; SqlSummary employee_id], Raise QueryError)
          end
        else ([OpenModel], Raise QueryError)
    end.
Proof.
  unfold Dashboard.predict_recruitment_risk, Dashboard.load_model,
    Main.load_model.
  destruct (model_file w) as [m | ]; simpl; [ | reflexivity].
  change (Dashboard.get_employee_summary w employee_id)
    with (Main.get_employee_summary w employee_id).
  destruct (Py.in_int64 employee_id) eqn:H.
  - rewrite (main_get_employee_summary_eq w employee_id H).
    destruct (Store.summary_query (db w) employee_id) as [[ | r df] | ];
      reflexivity.
  - rewrite (main_get_employee_summary_overflow w employee_id H).
    reflexivity.
Qed.

(** ** The main page *)

(** The order of [ORDER BY name]: the lexicographic order of strings. *)
Lemma string_compare_trans (a b c : string) :
  String.compare a b <> Gt -> String.compare b c <> Gt ->
  String.compare a c <> Gt.
Proof.
  revert b c. induction a as [ | x a IH]; intros [ | y b] [ | z c];
    simpl; try congruence.
  unfold Ascii.compare.
  destruct (N.compare_spec (N_of_ascii x) (N_of_ascii y)) as [Exy | Lxy | Gxy];
    destruct (N.compare_spec (N_of_ascii y) (N_of_ascii z))
      as [Eyz | Lyz | Gyz];
    destruct (N.compare_spec (N_of_ascii x) (N_of_ascii z))
      as [Exz | Lxz | Gxz];
    try congruence; try lia; intros H1 H2.
  apply (IH b c H1 H2).
Qed.

Lemma string_leb_trans (a b c : string) :
  String.leb a b = true -> String.leb b c = true -> String.leb a c = true.
Proof.
  unfold String.leb. intros H1 H2.
  assert (H : String.compare a c <> Gt).
  { apply (string_compare_trans a b c).
    - destruct (String.compare a b); congruence.
    - destruct (String.compare b c); congruence. }
  destruct (String.compare a c); congruence.
Qed.

Lemma string_leb_total (a b : string) :
  String.leb a b = false -> String.leb b a = true.
Proof.
  intros H. destruct (String.leb_total a b) as [H' | H']; congruence.
Qed.

(** The row of the drop-down for an employee and its team. *)
Lemma employees_query_perm (db : Store.database) :
  Permutation (Store.employees_query db)
    (map (fun et : Store.employee_row * Store.team_row =>
            {| Store.el_id := Store.e_id (fst et);
               Store.el_name := Store.e_name (fst et);
               Store.el_team_name := Store.t_name (snd et);
               Store.el_shift := Store.t_shift (snd et);
               Store.el_manager := Store.t_manager (snd et) |})
         (Store.join (fun e t => Store.e_team_id e =? Store.t_id t)
            (Store.employee db) (Store.team db))).
Proof.
  unfold Store.employees_query.
  erewrite map_ext; [apply Permutation_map, order_by_perm | ].
  intros [e t]. reflexivity.
Qed.

Lemma employees_query_in (db : Store.database) (x : Store.employee_listing) :
  In x (Store.employees_query db)
  <-> exists e t,
        In e (Store.employee db) /\ In t (Store.team db)
        /\ Store.e_team_id e = Store.t_id t
        /\ x = {| Store.el_id := Store.e_id e;
                  Store.el_name := Store.e_name e;
                  Store.el_team_name := Store.t_name t;
                  Store.el_shift := Store.t_shift t;
                  Store.el_manager := Store.t_manager t |}.
Proof.
  split.
  - intros H. apply (Permutation_in _ (employees_query_perm db)) in H.
    apply in_map_iff in H. destruct H as ([e t] & <- & H).
    apply in_join in H. destruct H as (He & Ht & E). apply Z.eqb_eq in E.
    exists e, t. repeat split; assumption.
  - intros (e & t & He & Ht & E & ->).
    apply (Permutation_in _ (Permutation_sym (employees_query_perm db))).
    apply in_map_iff. exists (e, t). split; [reflexivity | ].
    apply in_join. repeat split; try assumption. apply Z.eqb_eq. exact E.
Qed.

(** The drop-down lists the employees whose team is in the team table,
    once for each pair of an employee and a team with the id of its
    [team_id], ordered by name; an employee whose team is missing is not
    listed. *)
Theorem employees_listing (w : world) :
  exists employees,
    Main.get_employees w = ([SqlEmployees], Return employees)
    /\ StronglySorted
         (fun a b => String.leb (Store.el_name a) (Store.el_name b) = true)
         employees
    /\ Permutation employees
         (map (fun et : Store.employee_row * Store.team_row =>
                 {| Store.el_id := Store.e_id (fst et);
                    Store.el_name := Store.e_name (fst et);
                    Store.el_team_name := Store.t_name (snd et);
                    Store.el_shift := Store.t_shift (snd et);
                    Store.el_manager := Store.t_manager (snd et) |})
              (flat_map
                 (fun e =>
                    map (pair e)
                      (filter (fun t => Store.e_team_id e =? Store.t_id t)
                         (Store.team (db w))))
                 (Store.employee (db w))))
    /\ forall x,
         In x employees
         <-> exists e t,
               In e (Store.employee (db w)) /\ In t (Store.team (db w))
               /\ Store.e_team_id e = Store.t_id t
               /\ x = {| Store.el_id := Store.e_id e;
                         Store.el_name := Store.e_name e;
                         Store.el_team_name := Store.t_name t;
                         Store.el_shift := Store.t_shift t;
                         Store.el_manager := Store.t_manager t |}.
Proof.
  eexists. split; [reflexivity | ].
  split; [ | split; [apply employees_query_perm | apply employees_query_in]].
  unfold Store.employees_query.
  set (leb := fun a b : Store.employee_row * Store.team_row =>
                String.leb (Store.e_name (fst a)) (Store.e_name (fst b))).
  assert (S := order_by_sorted leb
                 (fun a b => string_leb_total _ _)
                 (fun a b c => string_leb_trans _ _ _)
                 (Store.join (fun e t => Store.e_team_id e =? Store.t_id t)
                    (Store.employee (db w)) (Store.team (db w)))).
  induction S as [ | [e t] l Sl IH Hl]; simpl; constructor.
  - exact IH.
  - rewrite Forall_forall in *. intros x Hx. apply in_map_iff in Hx.
    destruct Hx as ([e' t'] & <- & Hx). exact (Hl _ Hx).
Qed.

Lemma employees_listing_witness :
  exists employees,
    Main.get_employees Sample.without_model = ([SqlEmployees], Return employees)
    /\ map Store.el_name employees = ["Ann"; "Bob"].
Proof.
  destruct (employees_listing Sample.without_model) as (l & Hl & _).
  exists l. split; [exact Hl | ]. inversion Hl. reflexivity.
Defined.

(** The main page is given the teams by name and shows the first three:
    no team left out comes before a team shown.  The page makes the two
    queries and never fails. *)
Theorem home_shows_first_three_teams (w : world) :
  exists employees teams,
    Main.home w = ([SqlEmployees; SqlTeams], Return (employees, teams))
    /\ Main.serve w {| Main.method := GET; Main.path := "/";
                       Main.args := [] |}
       = ([SqlEmployees; SqlTeams], Main.MainPage employees teams)
    /\ teams = firstn 3 (Store.teams_query (db w))
    /\ (List.length teams <= 3)%nat
    /\ Permutation (Store.teams_query (db w)) (Store.team (db w))
    /\ forall a b,
         In a teams -> In b (skipn 3 (Store.teams_query (db w))) ->
         String.leb (Store.t_name a) (Store.t_name b) = true.
Proof.
  eexists. eexists. split; [reflexivity | ]. split; [reflexivity | ].
  split; [reflexivity | ]. split; [apply firstn_le_length | ].
  split; [apply order_by_perm | ].
  apply (sorted_firstn_skipn
           (fun a b => String.leb (Store.t_name a) (Store.t_name b) = true)).
  apply (order_by_sorted
           (fun a b => String.leb (Store.t_name a) (Store.t_name b))).
  - intros a b. apply string_leb_total.
  - intros a b c. apply string_leb_trans.
Qed.

Lemma home_shows_first_three_teams_witness :
  exists employees teams,
    Main.home Sample.without_model
    = ([SqlEmployees; SqlTeams], Return (employees, teams))
    /\ (List.length teams <= 3)%nat.
Proof.
  destruct (home_shows_first_three_teams Sample.without_model)
    as (employees & teams & H & _ & _ & Hlen & _).
  exists employees, teams. split; [exact H | exact Hlen].
Defined.

(** ** From the drop-down to the handler *)

(** The values of a list of results that all succeeded. *)
Lemma all_some_map {A B : Type} (f : A -> option B) (l : list A) :
  (forall a, In a l -> exists b, f a = Some b) ->
  exists l', all_some (map f l) = Some l'.
Proof.
  induction l as [ | a l IH]; intros H; simpl.
  - eexists. reflexivity.
  - destruct (H a (or_introl eq_refl)) as (b & ->).
    destruct IH as (l' & ->); [intros x Hx; apply H; right; exact Hx | ].
    eexists. reflexivity.
Qed.

Lemma all_some_in {A B : Type} (f : A -> option B) (l : list A)
    (l' : list B) (b : B) :
  all_some (map f l) = Some l' -> In b l' ->
  exists a, In a l /\ f a = Some b.
Proof.
  revert l'. induction l as [ | a l IH]; intros l' H Hb; simpl in H.
  - inversion H; subst l'. contradiction.
  - destruct (f a) as [b0 | ] eqn:E; [ | discriminate].
    destruct (all_some (map f l)) as [l0 | ]; [ | discriminate].
    inversion H; subst l'. destruct Hb as [<- | Hb].
    + exists a. split; [left; reflexivity | exact E].
    + destruct (IH l0 eq_refl Hb) as (a' & Ha' & E').
      exists a'. split; [right; exact Ha' | exact E'].
Qed.

(** Every option of the drop-down is understood by the handler.  For
    employees whose ids are integers of the store the page renders its
    options; the empty one of "Choose an employee..." is answered "Please
    select an employee" without a query, and the value of any other option
    is an integer, the id of the employee it was written for. *)
Theorem every_option_is_understood
    (w : world) (employees : list Store.employee_listing) :
  (forall emp, In emp employees -> Py.in_int64 (Store.el_id emp) = true) ->
  exists values,
    MainTemplate.option_values employees = Some values
    /\ forall value,
         In value values ->
         (value = []
          /\ Main.employee_dashboard w (MainTemplate.on_change value)
             = ([], Return PleaseSelect))
         \/ (exists emp,
               In emp employees
               /\ MainTemplate.option_value emp = Some value
               /\ Main.args_get (Main.args (MainTemplate.on_change value))
                    "employee_id" = Some value
               /\ Py.int value = Some (Store.el_id emp)).
Proof.
  intros Hrange. unfold MainTemplate.option_values.
  destruct (all_some_map MainTemplate.option_value employees) as (l & E).
  { intros emp Hemp. apply str_of_int64, Hrange, Hemp. }
  rewrite E. eexists. split; [reflexivity | ].
  intros value [<- | H].
  - left. split; reflexivity.
  - right. destruct (all_some_in _ _ _ _ E H) as (emp & Hemp & Hv).
    exists emp. split; [exact Hemp | ]. split; [exact Hv | ].
    split; [reflexivity | ].
    apply int_str_round_trip. exact Hv.
Qed.

Lemma every_option_is_understood_witness :
  exists values,
    MainTemplate.option_values (Store.employees_query Sample.sample_db)
    = Some values
    /\ values = [[]; Py.lit "1"; Py.lit "2"].
Proof.
  destruct (every_option_is_understood Sample.without_model
              (Store.employees_query Sample.sample_db))
    as (values & Hv & _).
  - intros emp [<- | [<- | []]]; reflexivity.
  - exists values. split; [exact Hv | ]. inversion Hv. reflexivity.
Defined.

(** Choosing a listed employee who has events shows the dashboard of that
    employee (for counts that the store can add up within 64 bits, and
    dates of the chart that pandas reads): its header carries the name,
    team, shift and manager of the option chosen. *)
Theorem selected_employee_is_shown
    (w : world) (emp : Store.employee_listing) :
  Store.keys_unique (db w) ->
  In emp (Store.employees_query (db w)) ->
  Py.in_int64 (Store.el_id emp) = true ->
  Store.el_id emp <> 0 ->
  Store.events_of (db w) (Store.el_id emp) <> [] ->
  Store.sum_fits
    (map Store.ev_positive_events
       (Store.events_of (db w) (Store.el_id emp))) = true ->
  Store.sum_fits
    (map Store.ev_negative_events
       (Store.events_of (db w) (Store.el_id emp))) = true ->
  dates_read w (Store.events_query (db w) (now w) (Store.el_id emp) 30)
  = true ->
  exists value v,
    MainTemplate.option_value emp = Some value
    /\ result (Main.employee_dashboard w (MainTemplate.on_change value))
       = Return (DashboardView v)
    /\ Store.name (v_summary v) = Store.el_name emp
    /\ Store.team_name (v_summary v) = Store.el_team_name emp
    /\ Store.shift (v_summary v) = Store.el_shift emp
    /\ Store.manager (v_summary v) = Store.el_manager emp.
Proof.
  intros Hk Hemp Hrange Hid Hev Hp Hn Hdates.
  apply employees_query_in in Hemp.
  destruct Hemp as (e & t & He & Ht & Hteam & ->). simpl in *.
  destruct (str_of_int64 (Store.e_id e) Hrange) as (value & Hvalue).
  destruct (main_chart_result w (Store.e_id e) 30 Hrange thirty_in_int64
              Hdates) as (chart_img & Hc & _).
  assert (P := main_dashboard_parsed w (MainTemplate.on_change value)
                 value (Store.e_id e) _ eq_refl
                 (int_str_round_trip _ _ Hvalue) Hrange
                 (summary_query_unique (db w) (Store.e_id e) e t Hk He
                    eq_refl Ht (eq_sym Hteam) Hev Hp Hn)).
  cbn [hd_error] in P. destruct P as (risk_prob & _ & P).
  rewrite Hc in P.
  destruct (Z.eqb_spec (Store.e_id e) 0); [contradiction | ].
  exists value. eexists. split; [exact Hvalue | ].
  split; [exact P | ]. repeat split.
Qed.

Lemma selected_employee_is_shown_witness :
  exists v,
    result (Main.employee_dashboard Sample.without_model
              (MainTemplate.on_change (Py.lit "1")))
    = Return (DashboardView v)
    /\ Store.name (v_summary v) = "Ann".
Proof.
  destruct (selected_employee_is_shown Sample.without_model
              {| Store.el_id := 1; Store.el_name := "Ann";
                 Store.el_team_name := "Core"; Store.el_shift := "Day";
                 Store.el_manager := "Mia" |} sample_keys_unique)
    as (value & v & Hvalue & Hv & Hname & _).
  - left. reflexivity.
  - reflexivity.
  - discriminate.
  - discriminate.
  - reflexivity.
  - reflexivity.
  - reflexivity.
  - inversion Hvalue; subst value.
    exists v. split; [exact Hv | exact Hname].
Defined.

(** ** GROUP BY *)

Lemma sum_z_app (l l' : list Z) :
  Store.sum_z (l ++ l') = Store.sum_z l + Store.sum_z l'.
Proof.
  induction l as [ | x l IH]; simpl; [reflexivity | ]. rewrite IH. lia.
Qed.

Lemma sum_z_perm (l l' : list Z) :
  Permutation l l' -> Store.sum_z l = Store.sum_z l'.
Proof.
  induction 1; simpl; lia.
Qed.

Lemma filter_perm {A : Type} (p : A -> bool) (l l' : list A) :
  Permutation l l' -> Permutation (filter p l) (filter p l').
Proof.
  induction 1 as [ | x l l' H IH | x y l | l l' l'' H1 IH1 H2 IH2]; simpl.
  - apply perm_nil.
  - destruct (p x); [apply perm_skip | ]; exact IH.
  - destruct (p x), (p y); try apply Permutation_refl. apply perm_swap.
  - exact (perm_trans IH1 IH2).
Qed.

Section GroupByDate.
Context {A : Type} (key : A -> Z).

(** Groups that each hold the rows of one key, for keys all different. *)
#[local] Abbreviation well_grouped groups :=
  (NoDup (map fst groups)
   /\ Forall (fun g : Z * list A =>
                snd g <> [] /\ Forall (fun r => key r = fst g) (snd g))
             groups).

Lemma add_to_group_keys (x : A) (groups : list (Z * list A)) (k : Z) :
  In k (map fst (Store.add_to_group Z.eqb key x groups)) <-> k = key x \/ In k (map fst groups).
Proof.
  induction groups as [ | [k' rows] groups IH]; simpl.
  - intuition congruence.
  - destruct (Z.eqb_spec k' (key x)) as [-> | Hne]; simpl.
    + intuition congruence.
    + rewrite IH. intuition congruence.
Qed.

Lemma add_to_group_well_grouped (x : A) (groups : list (Z * list A)) :
  well_grouped groups -> well_grouped (Store.add_to_group Z.eqb key x groups).
Proof.
  intros (Hnd & Hall).
  induction groups as [ | [k rows] groups IH]; simpl.
  - split.
    + constructor; [intros [] | constructor].
    + constructor; [ | constructor]. simpl. split; [discriminate | ].
      constructor; [reflexivity | constructor].
  - inversion Hnd as [ | ? ? Hnotin Hnd']; subst.
    inversion Hall as [ | ? ? (Hne & Hrows) Hall']; subst. simpl in *.
    destruct (Z.eqb_spec k (key x)) as [E | Hk]; simpl.
    + split; [constructor; assumption | ].
      constructor; [ | exact Hall']. simpl. split.
      * destruct rows; discriminate.
      * apply Forall_app. split; [exact Hrows | ].
        constructor; [congruence | constructor].
    + destruct (IH Hnd' Hall') as (Hnd2 & Hall2).
      split.
      * constructor; [ | exact Hnd2].
        intros Hin. apply (add_to_group_keys x groups k) in Hin.
        destruct Hin as [-> | Hin]; [congruence | contradiction].
      * constructor; [ | exact Hall2]. simpl. split; assumption.
Qed.

Lemma add_to_group_perm (x : A) (groups : list (Z * list A)) :
  Permutation (List.concat (map snd (Store.add_to_group Z.eqb key x groups)))
    (x :: List.concat (map snd groups)).
Proof.
  induction groups as [ | [k rows] groups IH]; simpl.
  - apply Permutation_refl.
  - destruct (Z.eqb k (key x)); simpl.
    + rewrite <- app_assoc. simpl.
      apply Permutation_sym, Permutation_middle.
    + apply perm_trans with (rows ++ x :: List.concat (map snd groups)).
      * apply Permutation_app_head. exact IH.
      * apply Permutation_sym, Permutation_middle.
Qed.

Lemma fold_group_invariant (l : list A) (groups : list (Z * list A)) :
  well_grouped groups ->
  well_grouped (fold_left (fun g x => Store.add_to_group Z.eqb key x g) l groups)
  /\ Permutation (List.concat (map snd (fold_left (fun g x => Store.add_to_group Z.eqb key x g) l groups)))
       (List.concat (map snd groups) ++ l).
Proof.
  revert groups. induction l as [ | x l IH]; intros groups H; simpl.
  - split; [exact H | ]. rewrite app_nil_r. apply Permutation_refl.
  - destruct (IH (Store.add_to_group Z.eqb key x groups) (add_to_group_well_grouped x groups H))
      as (Hw & Hp).
    split; [exact Hw | ].
    apply (perm_trans Hp).
    apply perm_trans with ((x :: List.concat (map snd groups)) ++ l).
    + apply Permutation_app_tail. apply add_to_group_perm.
    + simpl. apply Permutation_middle.
Qed.

(** The groups of [GROUP BY]: one for each key, all different, none
    empty, and together the rows that were grouped. *)
Lemma group_by_spec (l : list A) :
  NoDup (map fst (Store.group_by Z.eqb key l))
  /\ Forall (fun g : Z * list A =>
               snd g <> [] /\ Forall (fun r => key r = fst g) (snd g))
            (Store.group_by Z.eqb key l)
  /\ Permutation (List.concat (map snd (Store.group_by Z.eqb key l))) l.
Proof.
  destruct (fold_group_invariant l [] (conj (NoDup_nil _) (Forall_nil _)))
    as ((Hnd & Hall) & Hp).
  split; [exact Hnd | ]. split; [exact Hall | exact Hp].
Qed.

(** In well-formed groups, the rows of a key are in the group of that
    key. *)
Lemma filter_concat_group (groups : list (Z * list A)) (k : Z)
    (rows : list A) :
  well_grouped groups ->
  In (k, rows) groups ->
  filter (fun r => key r =? k) (List.concat (map snd groups)) = rows.
Proof.
  intros (Hnd & Hall) Hin.
  induction groups as [ | [k' rows'] groups IH]; [contradiction | ].
  simpl in *. inversion Hnd as [ | ? ? Hnotin Hnd']; subst.
  inversion Hall as [ | ? ? (Hne & Hrows) Hall']; subst. simpl in *.
  rewrite filter_app. destruct Hin as [E | Hin].
  - inversion E; subst k' rows'.
    rewrite filter_all.
    + rewrite filter_none; [apply app_nil_r | ].
      intros r Hr. apply in_concat in Hr. destruct Hr as (rs & Hrs & Hr).
      apply in_map_iff in Hrs. destruct Hrs as ([k2 rows2] & <- & Hg).
      rewrite Forall_forall in Hall'. destruct (Hall' _ Hg) as (_ & Hk2).
      rewrite Forall_forall in Hk2. simpl in *. apply Z.eqb_neq.
      rewrite (Hk2 r Hr). intros ->. apply Hnotin.
      apply in_map_iff. exists (k, rows2). split; [reflexivity | exact Hg].
    + intros r Hr. rewrite Forall_forall in Hrows. apply Z.eqb_eq.
      exact (Hrows r Hr).
  - rewrite filter_none.
    + simpl. apply IH; assumption.
    + intros r Hr. rewrite Forall_forall in Hrows. apply Z.eqb_neq.
      rewrite (Hrows r Hr). intros ->. apply Hnotin.
      apply in_map_iff. exists (k, rows). split; [reflexivity | exact Hin].
Qed.

Lemma group_by_rows (l : list A) (k : Z) (rows : list A) :
  In (k, rows) (Store.group_by Z.eqb key l) ->
  rows <> [] /\ Permutation rows (filter (fun r => key r =? k) l).
Proof.
  intros Hin. destruct (group_by_spec l) as (Hnd & Hall & Hp). split.
  - rewrite Forall_forall in Hall. exact (proj1 (Hall _ Hin)).
  - rewrite <- (filter_concat_group _ k rows (conj Hnd Hall) Hin).
    apply filter_perm. exact Hp.
Qed.

Lemma group_by_nil_iff (l : list A) :
  Store.group_by Z.eqb key l = [] <-> l = [].
Proof.
  split; [ | intros ->; reflexivity].
  intros H. destruct (group_by_spec l) as (_ & _ & Hp).
  rewrite H in Hp. simpl in Hp. apply Permutation_nil in Hp. exact Hp.
Qed.
End GroupByDate.

(** A list in order, without two equal keys, is in strict order. *)
Lemma sorted_nodup_strict {A : Type} (key : A -> Z) (l : list A) :
  StronglySorted (fun a b => key a <= key b) l ->
  NoDup (map key l) ->
  StronglySorted (fun a b => key a < key b) l.
Proof.
  induction 1 as [ | x l Hs IH Hx]; intros Hnd; constructor.
  - apply IH. simpl in Hnd. inversion Hnd. assumption.
  - simpl in Hnd. inversion Hnd as [ | ? ? Hnotin _]; subst.
    rewrite Forall_forall in *. intros y Hy.
    assert (key x <> key y).
    { intros E. apply Hnotin. rewrite E. apply in_map. exact Hy. }
    specialize (Hx y Hy). lia.
Qed.

(** ** employee_events: the statements of the package *)

Lemma filter_map_comm {A B : Type} (p : B -> bool) (f : A -> B)
    (l : list A) :
  filter p (map f l) = map f (filter (fun x => p (f x)) l).
Proof.
  induction l as [ | x l IH]; simpl; [reflexivity | ].
  destruct (p (f x)); simpl; rewrite IH; reflexivity.
Qed.

Lemma sum_of_group_sums {A : Type} (f : A -> Z)
    (groups : list (Z * list A)) :
  Store.sum_z (map (fun g : Z * list A => Store.sum_z (map f (snd g))) groups)
  = Store.sum_z (map f (List.concat (map snd groups))).
Proof.
  induction groups as [ | [k rows] groups IH]; simpl; [reflexivity | ].
  rewrite map_app, sum_z_app, IH. reflexivity.
Qed.

Section QueryBaseFacts.
Context {T : Type}.
Variable table : EmployeeEvents.database -> list T.
Variable table_id : T -> Z.
Variable event_id : Store.event_row -> Z.

(** With a key on the table, the join is the list of the events of the
    id, each next to the one row of the table. *)
Lemma events_join_unique (db : EmployeeEvents.database) (id : Z) (t : T) :
  NoDup (map table_id (table db)) ->
  In t (table db) -> table_id t = id ->
  EmployeeEvents.events_join table table_id event_id db id
  = map (pair t)
      (filter (fun ev => event_id ev =? id)
         (EmployeeEvents.employee_events db)).
Proof.
  intros Hnd Ht Hid. unfold EmployeeEvents.events_join, Store.join.
  rewrite filter_flat_map.
  rewrite (flat_map_unique table_id _ _ t Hnd Ht).
  - rewrite filter_all.
    + f_equal. apply filter_ext. intros ev. rewrite Hid. apply Z.eqb_sym.
    + intros r Hr. apply in_map_iff in Hr. destruct Hr as (ev & <- & _).
      simpl. apply Z.eqb_eq. exact Hid.
  - intros t' _ Hne. apply filter_none. intros r Hr.
    apply in_map_iff in Hr. destruct Hr as (ev & <- & _).
    simpl. apply Z.eqb_neq. congruence.
Qed.

(** Without a row of the table for the id, the join is empty, whatever
    events carry the id. *)
Lemma events_join_unknown (db : EmployeeEvents.database) (id : Z) :
  (forall t, In t (table db) -> table_id t <> id) ->
  EmployeeEvents.events_join table table_id event_id db id = [].
Proof.
  intros H. unfold EmployeeEvents.events_join. apply filter_none.
  intros [t ev] Hr. apply in_join in Hr. destruct Hr as (Ht & _ & _).
  simpl. apply Z.eqb_neq. exact (H t Ht).
Qed.

Lemma event_counts_perm (db : EmployeeEvents.database) (id : Z) :
  Permutation (EmployeeEvents.event_counts table table_id event_id db id)
    (map EmployeeEvents.count_group
       (Store.group_by Z.eqb
          (fun r : T * Store.event_row => Store.ev_event_date (snd r))
          (EmployeeEvents.events_join table table_id event_id db id))).
Proof. apply order_by_perm. Qed.

Lemma count_group_date (g : Z * list (T * Store.event_row)) :
  EmployeeEvents.ec_event_date (EmployeeEvents.count_group g) = fst g.
Proof. destruct g. reflexivity. Qed.

(** One row for each date, in date order. *)
Lemma event_counts_strictly_sorted (db : EmployeeEvents.database) (id : Z) :
  StronglySorted
    (fun a b => EmployeeEvents.ec_event_date a
                < EmployeeEvents.ec_event_date b)
    (EmployeeEvents.event_counts table table_id event_id db id).
Proof.
  apply sorted_nodup_strict.
  - apply (StronglySorted_impl
             (fun a b => (EmployeeEvents.ec_event_date a
                          <=? EmployeeEvents.ec_event_date b) = true)).
    + intros a b H. apply Z.leb_le. exact H.
    + apply (order_by_sorted
               (fun a b => EmployeeEvents.ec_event_date a
                           <=? EmployeeEvents.ec_event_date b)).
      * intros a b H. apply Z.leb_le. apply Z.leb_gt in H. lia.
      * intros a b c H1 H2. apply Z.leb_le. apply Z.leb_le in H1, H2. lia.
  - apply (Permutation_NoDup
             (Permutation_sym
                (Permutation_map EmployeeEvents.ec_event_date
                   (event_counts_perm db id)))).
    rewrite map_map.
    erewrite map_ext; [ | intros g; apply count_group_date].
    apply (group_by_spec
             (fun r : T * Store.event_row => Store.ev_event_date (snd r))).
Qed.

(** A row of event_counts sums the joined rows of its date, of which
    there is at least one. *)
Lemma event_counts_row (db : EmployeeEvents.database) (id : Z)
    (c : EmployeeEvents.event_count) :
  In c (EmployeeEvents.event_counts table table_id event_id db id) ->
  exists rows,
    rows <> []
    /\ Permutation rows
         (filter (fun r : T * Store.event_row =>
                    Store.ev_event_date (snd r)
                    =? EmployeeEvents.ec_event_date c)
            (EmployeeEvents.events_join table table_id event_id db id))
    /\ c = EmployeeEvents.count_group
             (EmployeeEvents.ec_event_date c, rows).
Proof.
  intros H. apply (Permutation_in _ (event_counts_perm db id)) in H.
  apply in_map_iff in H. destruct H as ([k rows] & <- & Hg).
  destruct (group_by_rows _ _ k rows Hg) as (Hne & Hp).
  exists rows. simpl. repeat split; assumption.
Qed.

(** Every joined row is counted in the row of its date. *)
Lemma event_counts_cover (db : EmployeeEvents.database) (id : Z)
    (r : T * Store.event_row) :
  In r (EmployeeEvents.events_join table table_id event_id db id) ->
  exists c,
    In c (EmployeeEvents.event_counts table table_id event_id db id)
    /\ EmployeeEvents.ec_event_date c = Store.ev_event_date (snd r).
Proof.
  intros Hr.
  destruct (group_by_spec
              (fun r : T * Store.event_row => Store.ev_event_date (snd r))
              (EmployeeEvents.events_join table table_id event_id db id))
    as (_ & Hall & Hp).
  apply (Permutation_in _ (Permutation_sym Hp)) in Hr.
  apply in_concat in Hr. destruct Hr as (rows & Hrows & Hr).
  apply in_map_iff in Hrows. destruct Hrows as ([k rows'] & E & Hg).
  simpl in E. subst rows'.
  rewrite Forall_forall in Hall. destruct (Hall _ Hg) as (_ & Hk).
  rewrite Forall_forall in Hk. simpl in Hk.
  exists (EmployeeEvents.count_group (k, rows)). split.
  - apply (Permutation_in _ (Permutation_sym (event_counts_perm db id))).
    apply in_map. exact Hg.
  - simpl. symmetry. exact (Hk r Hr).
Qed.

(** The sums of event_counts add up to the sums of the joined rows. *)
Lemma event_counts_total (db : EmployeeEvents.database) (id : Z) :
  Store.sum_z
    (map EmployeeEvents.ec_positive_events
       (EmployeeEvents.event_counts table table_id event_id db id))
  = Store.sum_z
      (map (fun r : T * Store.event_row => Store.ev_positive_events (snd r))
         (EmployeeEvents.events_join table table_id event_id db id))
  /\ Store.sum_z
       (map EmployeeEvents.ec_negative_events
          (EmployeeEvents.event_counts table table_id event_id db id))
     = Store.sum_z
         (map (fun r : T * Store.event_row =>
                 Store.ev_negative_events (snd r))
            (EmployeeEvents.events_join table table_id event_id db id)).
Proof.
  destruct (group_by_spec
              (fun r : T * Store.event_row => Store.ev_event_date (snd r))
              (EmployeeEvents.events_join table table_id event_id db id))
    as (_ & _ & Hp).
  split.
  - rewrite (sum_z_perm _ _
               (Permutation_map EmployeeEvents.ec_positive_events
                  (event_counts_perm db id))).
    rewrite map_map.
    rewrite (map_ext _
               (fun g : Z * list (T * Store.event_row) =>
                  Store.sum_z
                    (map (fun r : T * Store.event_row =>
                            Store.ev_positive_events (snd r)) (snd g))))
      by (intros [k rows]; reflexivity).
    rewrite (sum_of_group_sums
               (fun r : T * Store.event_row =>
                  Store.ev_positive_events (snd r))).
    apply sum_z_perm, Permutation_map. exact Hp.
  - rewrite (sum_z_perm _ _
               (Permutation_map EmployeeEvents.ec_negative_events
                  (event_counts_perm db id))).
    rewrite map_map.
    rewrite (map_ext _
               (fun g : Z * list (T * Store.event_row) =>
                  Store.sum_z
                    (map (fun r : T * Store.event_row =>
                            Store.ev_negative_events (snd r)) (snd g))))
      by (intros [k rows]; reflexivity).
    rewrite (sum_of_group_sums
               (fun r : T * Store.event_row =>
                  Store.ev_negative_events (snd r))).
    apply sum_z_perm, Permutation_map. exact Hp.
Qed.

Lemma event_counts_nil_iff (db : EmployeeEvents.database) (id : Z) :
  EmployeeEvents.event_counts table table_id event_id db id = []
  <-> EmployeeEvents.events_join table table_id event_id db id = [].
Proof.
  split; intros H.
  - assert (P := event_counts_perm db id). rewrite H in P.
    apply Permutation_nil in P. apply map_eq_nil in P.
    apply group_by_nil_iff in P. exact P.
  - assert (P := event_counts_perm db id). rewrite H in P. simpl in P.
    apply Permutation_sym, Permutation_nil in P. exact P.
Qed.
End QueryBaseFacts.

(** event_counts of an employee: one row for each date on which the
    employee has events, in date order, no date twice; the row of a date
    sums the positive and the negative events of the employee on that
    date. *)
Theorem event_counts_one_row_per_date
    (db : EmployeeEvents.database) (id : Z)
    (e : EmployeeEvents.employee_row) :
  NoDup (map EmployeeEvents.employee_id (EmployeeEvents.employee db)) ->
  In e (EmployeeEvents.employee db) ->
  EmployeeEvents.employee_id e = id ->
  StronglySorted
    (fun a b => EmployeeEvents.ec_event_date a
                < EmployeeEvents.ec_event_date b)
    (EmployeeEvents.Employee.event_counts db id)
  /\ (forall c,
        In c (EmployeeEvents.Employee.event_counts db id) ->
        let on_date ev :=
          (Store.ev_employee_id ev =? id)
          && (Store.ev_event_date ev =? EmployeeEvents.ec_event_date c) in
        filter on_date (EmployeeEvents.employee_events db) <> []
        /\ EmployeeEvents.ec_positive_events c
           = Store.sum_z
               (map Store.ev_positive_events
                  (filter on_date (EmployeeEvents.employee_events db)))
        /\ EmployeeEvents.ec_negative_events c
           = Store.sum_z
               (map Store.ev_negative_events
                  (filter on_date (EmployeeEvents.employee_events db))))
  /\ (forall ev,
        In ev (EmployeeEvents.employee_events db) ->
        Store.ev_employee_id ev = id ->
        exists c,
          In c (EmployeeEvents.Employee.event_counts db id)
          /\ EmployeeEvents.ec_event_date c = Store.ev_event_date ev).
Proof.
  intros Hnd He Hid. unfold EmployeeEvents.Employee.event_counts.
  assert (J := events_join_unique EmployeeEvents.employee
                 EmployeeEvents.employee_id Store.ev_employee_id
                 db id e Hnd He Hid).
  split; [apply event_counts_strictly_sorted | ]. split.
  - intros c Hc. cbv zeta.
    set (on_date := fun ev =>
           (Store.ev_employee_id ev =? id)
           && (Store.ev_event_date ev =? EmployeeEvents.ec_event_date c)).
    destruct (event_counts_row _ _ _ db id c Hc) as (rows & Hne & Hp & Ec).
    rewrite J, filter_map_comm in Hp. simpl in Hp.
    assert (F : filter on_date (EmployeeEvents.employee_events db)
                = filter (fun ev => Store.ev_event_date ev
                                    =? EmployeeEvents.ec_event_date c)
                    (filter (fun ev => Store.ev_employee_id ev =? id)
                       (EmployeeEvents.employee_events db))).
    { unfold on_date. apply filter_andb. }
    rewrite F. split.
    + intros Hnil. rewrite Hnil in Hp. simpl in Hp.
      apply Permutation_sym, Permutation_nil in Hp. contradiction.
    + rewrite Ec. simpl. split.
      * rewrite (sum_z_perm _ _
                   (Permutation_map
                      (fun r : EmployeeEvents.employee_row * Store.event_row
                       => Store.ev_positive_events (snd r)) Hp)).
        rewrite map_map. reflexivity.
      * rewrite (sum_z_perm _ _
                   (Permutation_map
                      (fun r : EmployeeEvents.employee_row * Store.event_row
                       => Store.ev_negative_events (snd r)) Hp)).
        rewrite map_map. reflexivity.
  - intros ev Hev Hevid.
    destruct (event_counts_cover EmployeeEvents.employee
                EmployeeEvents.employee_id Store.ev_employee_id
                db id (e, ev)) as (c & Hc & Hd).
    + rewrite J. apply in_map. apply filter_In. split; [exact Hev | ].
      apply Z.eqb_eq. exact Hevid.
    + exists c. split; assumption.
Qed.

Lemma event_counts_one_row_per_date_witness :
  StronglySorted
    (fun a b => EmployeeEvents.ec_event_date a
                < EmployeeEvents.ec_event_date b)
    (EmployeeEvents.Employee.event_counts SampleEvents.events_db 1)
  /\ List.length (EmployeeEvents.Employee.event_counts
                    SampleEvents.events_db 1) = 2%nat.
Proof.
  split; [ | reflexivity].
  refine (proj1 (event_counts_one_row_per_date SampleEvents.events_db 1
                   {| EmployeeEvents.employee_id := 1;
                      EmployeeEvents.first_name := "Ann";
                      EmployeeEvents.last_name := "Lee" |} _ _ eq_refl)).
  - simpl. repeat constructor; simpl; intuition discriminate.
  - left. reflexivity.
Defined.

(** model_data always has one row.  Its two sums are the totals of the
    rows of event_counts, and they are NULL when event_counts has no
    row. *)
Theorem event_counts_add_up_to_model_data
    (db : EmployeeEvents.database) (id : Z) :
  EmployeeEvents.Employee.model_data db id
  = [ match EmployeeEvents.Employee.event_counts db id with
      | [] => (None, None)
      | _ :: _ =>
          (Some (Store.sum_z
                   (map EmployeeEvents.ec_positive_events
                      (EmployeeEvents.Employee.event_counts db id))),
           Some (Store.sum_z
                   (map EmployeeEvents.ec_negative_events
                      (EmployeeEvents.Employee.event_counts db id))))
      end ].
Proof.
  unfold EmployeeEvents.Employee.model_data,
    EmployeeEvents.Employee.event_counts.
  destruct (event_counts_total EmployeeEvents.employee
              EmployeeEvents.employee_id Store.ev_employee_id db id)
    as (Hp & Hn).
  assert (N := event_counts_nil_iff EmployeeEvents.employee
                 EmployeeEvents.employee_id Store.ev_employee_id db id).
  destruct (EmployeeEvents.event_counts EmployeeEvents.employee
              EmployeeEvents.employee_id Store.ev_employee_id db id)
    as [ | c rows] eqn:E.
  - rewrite (proj1 N eq_refl). reflexivity.
  - rewrite Hp, Hn.
    destruct (EmployeeEvents.events_join EmployeeEvents.employee
                EmployeeEvents.employee_id Store.ev_employee_id db id)
      as [ | r joined]; [ | reflexivity].
    discriminate (proj2 N eq_refl).
Qed.

(** model_data under a key on employee_id: the sums range over the events
    of the employee; for an id that no employee has, and for an employee
    without events, the one row holds two NULLs. *)
Theorem model_data_of_employee (db : EmployeeEvents.database) (id : Z) :
  NoDup (map EmployeeEvents.employee_id (EmployeeEvents.employee db)) ->
  EmployeeEvents.Employee.model_data db id
  = [ if existsb (fun e => EmployeeEvents.employee_id e =? id)
           (EmployeeEvents.employee db)
      then
        (EmployeeEvents.Employee.sum_or_null
           (map Store.ev_positive_events
              (filter (fun ev => Store.ev_employee_id ev =? id)
                 (EmployeeEvents.employee_events db))),
         EmployeeEvents.Employee.sum_or_null
           (map Store.ev_negative_events
              (filter (fun ev => Store.ev_employee_id ev =? id)
                 (EmployeeEvents.employee_events db))))
      else (None, None) ].
Proof.
  intros Hnd. unfold EmployeeEvents.Employee.model_data.
  destruct (existsb (fun e => EmployeeEvents.employee_id e =? id)
              (EmployeeEvents.employee db)) eqn:E.
  - apply existsb_exists in E. destruct E as (e & He & Hid).
    apply Z.eqb_eq in Hid.
    rewrite (events_join_unique EmployeeEvents.employee
               EmployeeEvents.employee_id Store.ev_employee_id
               db id e Hnd He Hid).
    rewrite !map_map. reflexivity.
  - rewrite (events_join_unknown EmployeeEvents.employee
               EmployeeEvents.employee_id Store.ev_employee_id db id);
      [reflexivity | ].
    intros t Ht Hid.
    assert (X : existsb (fun e => EmployeeEvents.employee_id e =? id)
                  (EmployeeEvents.employee db) = true).
    { apply existsb_exists. exists t. split; [exact Ht | ].
      apply Z.eqb_eq. exact Hid. }
    congruence.
Qed.

Lemma model_data_of_employee_witness :
  EmployeeEvents.Employee.model_data SampleEvents.events_db 1
  = [(Some 12, Some 3)]
  /\ EmployeeEvents.Employee.model_data SampleEvents.events_db 2
     = [(None, None)].
Proof.
  assert (H : NoDup (map EmployeeEvents.employee_id
                       (EmployeeEvents.employee SampleEvents.events_db))).
  { simpl. repeat constructor; simpl; intuition discriminate. }
  split.
  - exact (model_data_of_employee SampleEvents.events_db 1 H).
  - exact (model_data_of_employee SampleEvents.events_db 2 H).
Defined.



(** ** The window of get_employee_events *)

(** A wider window keeps every row of a narrower one, with its date and
    its counts, as long as the store can compute the date at which the
    wider window starts; no row is older than its window; and a window
    that starts before the first day of the store selects no row at all:
    the function returns the empty frame, unless the number of days has
    too many digits to be printed into the statement. *)
Theorem wider_window_keeps_rows
    (w : world) (id : Z) (days days' : Z) (r : Store.events_df_row) :
  Py.in_int64 id = true ->
  days <= days' ->
  In r (Store.events_query (db w) (now w) id days) ->
  (exists d,
     Store.date_now_minus (now w) days = Some d
     /\ d = Store.today (now w) - days
     /\ d <= Store.event_date r)
  /\ match Store.date_now_minus (now w) days' with
     | Some _ =>
         exists rows r',
           result (Main.get_employee_events w id days') = Return rows
           /\ In r' rows
           /\ Store.event_date r' = Store.event_date r
           /\ Store.positive_events r' = Store.positive_events r
           /\ Store.negative_events r' = Store.negative_events r
     | None =>
         Store.events_query (db w) (now w) id days' = []
         /\ result (Main.get_employee_events w id days')
            = match Py.str_of_int days' with
              | Some _ => Return []
              | None => Raise ValueError
              end
     end.
Proof.
  intros Hrange Hle Hr.
  apply (Permutation_in _ (events_query_perm _ _ _ _)) in Hr.
  apply read_frame_in in Hr.
  destruct Hr as (r0 & Hr0 & Ed & Ep & En).
  apply in_map_iff in Hr0. destruct Hr0 as (ev & <- & Hev).
  apply filter_In in Hev. destruct Hev as (Hev & Hw).
  unfold Store.in_window in Hw.
  destruct (Store.date_now_minus (now w) days) as [d | ] eqn:Hd;
    [ | discriminate].
  apply Z.leb_le in Hw.
  destruct (date_now_minus_inv _ _ _ Hd) as (Hdays & ->).
  split.
  - eexists. split; [reflexivity | ]. split; [reflexivity | ].
    rewrite Ed. exact Hw.
  - destruct (Store.date_now_minus (now w) days') as [d' | ] eqn:Hd'.
    + destruct (date_now_minus_inv _ _ _ Hd') as (Hdays' & ->).
      assert (Hdr : Py.in_int64 days' = true).
      { apply in_int64_iff. unfold Store.last_day in Hdays'. lia. }
      rewrite (main_get_employee_events_eq w id days' Hrange Hdr).
      destruct (read_frame_keeps
                  (map Store.select_event
                     (filter (Store.in_window (now w) days')
                        (Store.events_of (db w) id)))
                  (Store.select_event ev))
        as (r' & Hr' & Ed' & Ep' & En').
      { apply in_map, filter_In. split; [exact Hev | ].
        unfold Store.in_window. rewrite Hd'. apply Z.leb_le. lia. }
      eexists. exists r'. split; [reflexivity | ].
      split; [ | rewrite Ed, Ep, En; repeat split; assumption].
      apply (Permutation_in _ (Permutation_sym (events_query_perm _ _ _ _))).
      exact Hr'.
    + assert (E : Store.events_query (db w) (now w) id days' = []).
      { apply events_query_nil_iff. apply filter_none.
        intros x _. unfold Store.in_window. rewrite Hd'. reflexivity. }
      split; [exact E | ].
      unfold Main.get_employee_events.
      destruct (Py.str_of_int days'); [ | reflexivity].
      rewrite (bind_param_in_range id Hrange), E. reflexivity.
Qed.

Lemma wider_window_keeps_rows_witness :
  (exists r',
     In r' (Store.events_query Sample.sample_db Sample.afternoon 1 90)
     /\ Store.event_date r' = 2461339)
  /\ Store.events_query Sample.sample_db Sample.afternoon 1 2461350 = [].
Proof.
  assert (H30 : In {| Store.event_date := 2461339;
                      Store.positive_events := 3;
                      Store.negative_events := 1;
                      Store.net_events := Store.Int 2 |}
                   (Store.events_query (db Sample.without_model)
                      (now Sample.without_model) 1 30))
    by (left; reflexivity).
  split.
  - destruct (wider_window_keeps_rows Sample.without_model 1 30 90 _
                eq_refl ltac:(lia) H30)
      as (_ & rows & r' & Hrows & Hr' & Ed & _).
    inversion Hrows; subst rows. exists r'. split; assumption.
  - exact (proj1 (proj2 (wider_window_keeps_rows Sample.without_model 1
                           30 2461350 _ eq_refl ltac:(lia) H30))).
Defined.
